(** * Athena: device orchestration and the Aeries request executor

    A shallow embedding of [athena/api/google_api/devices.py] (class
    [Devices]) and of [athena/api/aeries_api/client.py]
    ([BaseAeriesClient._make_request]), with the properties of the
    specification stated and proved over it.

    Python values are an inductive type; a Python [dict] is an association
    list in insertion order (the code reads [list(d.values())[0]], so the
    order matters); [self._device_cache] is a finite map. Effectful code
    lives in a state-and-exception monad over a [world] that records every
    observable effect (network call, sleep, log line) in order. *)

From Stdlib Require Import ZArith Ascii String.
From stdpp Require Import base list strings pretty gmap.

(** ** Python values *)

#[warnings="-register-all"]
Inductive pyval : Type :=
| VNone
| VBool (b : bool)
| VInt (z : Z)
| VStr (s : string)
| VList (l : list pyval)
| VDict (d : list (string * pyval)).

Abbreviation dict := (list (string * pyval)).

(** [d.get(k)] on a dict, [None] when the key is absent *)
Fixpoint dict_lookup (k : string) (d : dict) : option pyval :=
  match d with
  | [] => None
  | (k', v) :: d' => if String.eqb k' k then Some v else dict_lookup k d'
  end.

(** [d[k] = v]: an existing key keeps its position, a new key goes last *)
Fixpoint dict_set (k : string) (v : pyval) (d : dict) : dict :=
  match d with
  | [] => [(k, v)]
  | (k', v') :: d' =>
      if String.eqb k' k then (k', v) :: d' else (k', v') :: dict_set k v d'
  end.

Definition dict_values (d : dict) : list pyval := map snd d.

(** Truth value of a Python object, as tested by [if x:] *)
Definition py_truthy (v : pyval) : bool :=
  match v with
  | VNone => false
  | VBool b => b
  | VInt z => negb (Z.eqb z 0)
  | VStr s => negb (String.eqb s "")
  | VList l => match l with [] => false | _ => true end
  | VDict d => match d with [] => false | _ => true end
  end.

(** [v == s] for a string literal [s] *)
Definition py_eq_str (v : pyval) (s : string) : bool :=
  match v with
  | VStr s' => String.eqb s' s
  | _ => false
  end.

Definition py_is_none (v : pyval) : bool :=
  match v with VNone => true | _ => false end.

(** ** Exceptions *)

Inductive exc_class : Type :=
| ValueError | KeyError | IndexError | AttributeError | TypeError
| RefreshError | RetryError | RequestException | OtherException.

Record exc : Type := mk_exc { exc_cls : exc_class; exc_msg : string }.

Definition exc_class_eqb (a b : exc_class) : bool :=
  match a, b with
  | ValueError, ValueError | KeyError, KeyError | IndexError, IndexError
  | AttributeError, AttributeError | TypeError, TypeError
  | RefreshError, RefreshError | RetryError, RetryError
  | RequestException, RequestException | OtherException, OtherException => true
  | _, _ => false
  end.

Inductive outcome (A : Type) : Type :=
| Ret (a : A)
| Exc (e : exc).
Arguments Ret {A} a.
Arguments Exc {A} e.

(** [x.get(k)]: only a dict has the method *)
Definition py_get (x : pyval) (k : string) : outcome pyval :=
  match x with
  | VDict d => Ret (default VNone (dict_lookup k d))
  | _ => Exc (mk_exc AttributeError "object has no attribute 'get'")
  end.

(** [x.get(k, dflt)] *)
Definition py_get_default (x : pyval) (k : string) (dflt : pyval) : outcome pyval :=
  match x with
  | VDict d => Ret (default dflt (dict_lookup k d))
  | _ => Exc (mk_exc AttributeError "object has no attribute 'get'")
  end.

(** [x[k]] with a string key *)
Definition py_subscript (x : pyval) (k : string) : outcome pyval :=
  match x with
  | VDict d =>
      match dict_lookup k d with
      | Some v => Ret v
      | None => Exc (mk_exc KeyError ("'" +:+ k +:+ "'"))
      end
  | _ => Exc (mk_exc TypeError "indices must be integers or object is not subscriptable")
  end.

(** [d[k]] on a device-info dict *)
Definition dict_subscript (d : dict) (k : string) : outcome pyval :=
  py_subscript (VDict d) k.

(** ** [str.split('.')] *)

Fixpoint split_dot (s : string) : list string :=
  match s with
  | EmptyString => [""]
  | String c rest =>
      if Ascii.eqb c "."%char then "" :: split_dot rest
      else match split_dot rest with
           | h :: t => String c h :: t
           | [] => [String c ""]
           end
  end.

(** ** [Devices.get_nested_value] (devices.py, lines 260-274) *)

(** One iteration of the loop body: [inl r] is [return r], [inr d] goes on
    with [data = d]. The [try] around [data[0].get(k)] catches
    [IndexError] and [AttributeError] only. *)
Definition nested_step (data : pyval) (k : string) : outcome (pyval + pyval) :=
  match data with
  | VDict _ =>
      match py_get data k with
      | Ret v => if py_is_none v then Ret (inl VNone) else Ret (inr v)
      | Exc e => Exc e
      end
  | VList (x :: _) =>
      match py_get x k with
      | Ret v => if py_is_none v then Ret (inl VNone) else Ret (inr v)
      | Exc e =>
          if exc_class_eqb (exc_cls e) IndexError
             || exc_class_eqb (exc_cls e) AttributeError
          then Ret (inl VNone) else Exc e
      end
  | _ => Ret (inl VNone)
  end.

Fixpoint nested_loop (data : pyval) (keys : list string) : outcome pyval :=
  match keys with
  | [] => Ret data
  | k :: rest =>
      match nested_step data k with
      | Ret (inl r) => Ret r
      | Ret (inr d) => nested_loop d rest
      | Exc e => Exc e
      end
  end.

Definition get_nested_value (data : pyval) (key : string) : outcome pyval :=
  nested_loop data (split_dot key).

(** ** [Devices.process_device] (lines 252-258) *)

Fixpoint process_device_loop (device : pyval) (keys : list string)
    (include_null : bool) (processed : dict) : outcome dict :=
  match keys with
  | [] => Ret processed
  | key :: rest =>
      match get_nested_value device key with
      | Ret value =>
          process_device_loop device rest include_null
            (if include_null || negb (py_is_none value)
             then dict_set key value processed else processed)
      | Exc e => Exc e
      end
  end.

Definition process_device (device : pyval) (keys : list string)
    (include_null : bool) : outcome dict :=
  process_device_loop device keys include_null [].

(** ** The batch partitioner (lines 516-520 and 682-686)

    [[l[i:i + B] for i in range(0, len(l), B)]] *)

Definition MAX_BATCH_SIZE : nat := 50.
Definition MAX_RETRIES : nat := 3.
Definition RETRY_DELAY : Z := 1.

(** [range(start, stop, step)] for a positive step, on [fuel] candidates *)
Fixpoint py_range (fuel start stop step : nat) : list nat :=
  match fuel with
  | 0 => []
  | S fuel' =>
      if decide (start < stop)
      then start :: py_range fuel' (start + step) stop step
      else []
  end.

(** [l[i:j]] for [0 <= i <= j] *)
Definition py_slice {A} (l : list A) (i j : nat) : list A :=
  take (j - i) (drop i l).

Definition batches {A} (B : nat) (l : list A) : list (list A) :=
  map (fun i => py_slice l i (i + B)) (py_range (length l) 0 (length l) B).

(** ** Observable effects and the world

    Every call that leaves the process is a [net_call]; [Build] is
    [googleapiclient.discovery.build], from which the code expects a
    [RefreshError] when the credentials cannot be refreshed. The
    [fields=] restriction of a list call is derived from the requested field
    names, which the call records. *)

Inductive net_call : Type :=
| Build
| ListDevices (query : string) (fields : list string)
| MoveDevicesToOu (orgUnitPath : string) (deviceIds : list pyval)
| DeprovisionAction (resourceId : pyval)
| IssueCommand (deviceId : pyval) (commandType : string)
    (user_session_delay_seconds : pyval).

Inductive level : Type := INFO | WARNING | ERROR.

Inductive event : Type :=
| Net (c : net_call)
| Sleep (secs : Z)
| Backoff
| Log (lvl : level) (msg : string).

(** the network calls among the events, and those that change the remote
    state *)
Definition net_calls (evs : list event) : list net_call :=
  omap (fun ev => match ev with Net c => Some c | _ => None end) evs.

Definition mutating (c : net_call) : bool :=
  match c with
  | MoveDevicesToOu _ _ | DeprovisionAction _ | IssueCommand _ _ _ => true
  | Build | ListDevices _ _ => false
  end.

Record world : Type := mk_world {
  events : list event;
  device_cache : gmap string dict
}.

(** What the program does not control: Python's [str()], the remote
    service (its answer may depend on everything that happened before), how
    many calls of a target fit into the deadline of
    [google.api_core.retry.Retry], and the order in which
    [concurrent.futures.as_completed] yields futures. *)
Record environment : Type := mk_environment {
  py_str : pyval -> string;
  remote : list event -> net_call -> outcome pyval;
  retry_budget : nat;
  as_completed : forall A : Type, list A -> list A
}.

Definition M (A : Type) : Type := world -> outcome A * world.

Definition ret {A} (a : A) : M A := fun w => (Ret a, w).
Definition raise {A} (e : exc) : M A := fun w => (Exc e, w).
Definition bind {A B} (m : M A) (k : A -> M B) : M B :=
  fun w => match m w with
           | (Ret a, w') => k a w'
           | (Exc e, w') => (Exc e, w')
           end.
Definition try_except {A} (m : M A) (handler : exc -> M A) : M A :=
  fun w => match m w with
           | (Ret a, w') => (Ret a, w')
           | (Exc e, w') => handler e w'
           end.
Definition lift {A} (o : outcome A) : M A := fun w => (o, w).

Notation "x <- m ;; k" := (bind m (fun x => k))
  (at level 100, m at next level, right associativity).
Notation "m ;; k" := (bind m (fun _ => k))
  (at level 100, right associativity).

Definition emit (e : event) : M unit :=
  fun w => (Ret tt, mk_world (events w ++ [e]) (device_cache w)).
Definition sleep (secs : Z) : M unit := emit (Sleep secs).
Definition log (lvl : level) (msg : string) : M unit := emit (Log lvl msg).
Definition cache_lookup (key : string) : M (option dict) :=
  fun w => (Ret (device_cache w !! key), w).
Definition cache_store (key : string) (d : dict) : M unit :=
  fun w => (Ret tt, mk_world (events w) (<[key := d]> (device_cache w))).

(** [request.execute()] *)
Definition execute (E : environment) (c : net_call) : M pyval :=
  fun w => (remote E (events w) c,
            mk_world (events w ++ [Net c]) (device_cache w)).

(** first exception wins, as in a list comprehension *)
Fixpoint omapM {A B} (f : A -> outcome B) (l : list A) : outcome (list B) :=
  match l with
  | [] => Ret []
  | x :: l' =>
      match f x with
      | Exc e => Exc e
      | Ret y => match omapM f l' with
                 | Exc e => Exc e
                 | Ret ys => Ret (y :: ys)
                 end
      end
  end.

Fixpoint for_each {A} (l : list A) (body : A -> M unit) : M unit :=
  match l with
  | [] => ret tt
  | x :: l' => body x ;; for_each l' body
  end.

(** [needle in hay] on strings *)
Fixpoint str_contains (needle hay : string) : bool :=
  String.prefix needle hay
  || match hay with
     | EmptyString => false
     | String _ hay' => str_contains needle hay'
     end.

(** ** [Devices.load_service] (lines 230-250) *)

Definition load_service (E : environment) : M unit :=
  try_except (_ <- execute E Build ;; ret tt)
    (fun e =>
       if exc_class_eqb (exc_cls e) RefreshError
       then log ERROR ("Failed to refresh credentials: " +:+ exc_msg e) ;; raise e
       else raise e).

(** ** [Devices.find_device] (lines 276-349) *)

Definition default_fields : list string :=
  [ "deviceId"; "serialNumber"; "status"; "lastSync"; "annotatedUser";
    "annotatedAssetId"; "annotatedLocation"; "notes"; "model"; "osVersion";
    "platformVersion"; "firmwareVersion"; "macAddress"; "orgUnitPath";
    "recentUsers"; "lastKnownNetwork"; "bootMode"; "lastEnrollmentTime";
    "supportEndDate"; "orderNumber"; "willAutoRenew"; "meid"; "etag";
    "activeTimeRanges"; "cpuStatusReports"; "diskVolumeReports";
    "systemRamTotal"; "systemRamFreeReports" ].

(** [xs[0]] on a Python list *)
Definition list_first (xs : list pyval) : outcome pyval :=
  match xs with
  | x :: _ => Ret x
  | [] => Exc (mk_exc IndexError "list index out of range")
  end.

(** [devices[0]] on the truthy value read from the response *)
Definition py_first (v : pyval) : outcome pyval :=
  match v with
  | VList xs => list_first xs
  | VStr (String c _) => Ret (VStr (String c EmptyString))
  | VDict _ => Exc (mk_exc KeyError "0")
  | _ => Exc (mk_exc TypeError "object is not subscriptable")
  end.

(** [cache_key = f"{identifier_type}:{identifier}"] *)
Definition cache_key (E : environment) (identifier_type : string)
    (identifier : pyval) : string :=
  identifier_type +:+ ":" +:+ py_str E identifier.

(** [fields = args or [...]] *)
Definition fields_of (args : list string) : list string :=
  match args with
  | [] => default_fields
  | _ => args
  end.

(** [query=f'{query_param}:{identifier}'] *)
Definition device_query (E : environment) (identifier_type : string)
    (identifier : pyval) : string :=
  (if String.eqb identifier_type "annotatedAssetId" then "asset_id" else "id")
    +:+ ":" +:+ py_str E identifier.

Definition find_device (E : environment) (identifier : pyval)
    (identifier_type : string) (args : list string) (include_null : bool)
    : M pyval :=
  if negb (String.eqb identifier_type "annotatedAssetId"
           || String.eqb identifier_type "serialNumber")
  then raise (mk_exc ValueError
         "identifier_type must be either 'annotatedAssetId' or 'serialNumber'")
  else
    let cache_key := cache_key E identifier_type identifier in
    hit <- cache_lookup cache_key ;;
    match hit with
    | Some result =>
        if Nat.eqb (length args) 1
        then lift (list_first (dict_values result))
        else ret (VDict result)
    | None =>
        try_except
          (load_service E ;;
           let fields := fields_of args in
           results <- execute E
             (ListDevices (device_query E identifier_type identifier) fields) ;;
           devices <- lift (py_get_default results "chromeosdevices" (VList [])) ;;
           if py_truthy devices then
             device <- lift (py_first devices) ;;
             processed_device <- lift (process_device device fields include_null) ;;
             cache_store cache_key processed_device ;;
             if Nat.eqb (length args) 1
             then lift (list_first (dict_values processed_device))
             else ret (VDict processed_device)
           else ret VNone)
          (fun e =>
             if exc_class_eqb (exc_cls e) RefreshError
             then
               log ERROR ("Failed to refresh credentials: " +:+ exc_msg e) ;;
               log ERROR "Please check your ADMIN email in the configuration." ;;
               ret VNone
             else
               log ERROR ("An error occurred: " +:+ exc_msg e) ;;
               log ERROR "Exception details:" ;;
               ret VNone)
    end.

(** ** [Devices.get_device_info] (lines 351-375) *)

Definition info_fields : list string :=
  ["deviceId"; "annotatedAssetId"; "orgUnitPath"; "status"].

Fixpoint get_device_info_loop (E : environment) (devices : list pyval)
    (identifier_type : string) (device_info_list : list dict) : M (list dict) :=
  match devices with
  | [] => ret device_info_list
  | device :: rest =>
      device_info <- find_device E device identifier_type info_fields false ;;
      if py_truthy device_info then
        deviceId <- lift (py_subscript device_info "deviceId") ;;
        assetId <- lift (py_get device_info "annotatedAssetId") ;;
        orgUnitPath <- lift (py_get_default device_info "orgUnitPath" (VStr "Unknown")) ;;
        status <- lift (py_get_default device_info "status" (VStr "Unknown")) ;;
        get_device_info_loop E rest identifier_type
          (device_info_list ++
             [[("deviceId", deviceId); ("annotatedAssetId", assetId);
               ("orgUnitPath", orgUnitPath); ("status", status)]])
      else
        log WARNING ("Device not found: " +:+ py_str E device) ;;
        get_device_info_loop E rest identifier_type device_info_list
  end.

Definition get_device_info (E : environment) (devices : list pyval)
    (identifier_type : string) : M (list dict) :=
  get_device_info_loop E devices identifier_type [].

(** ** The retry decorator of [move_batch]

    [google.api_core.retry.Retry(predicate=if_exception_type(Exception))] is
    library code. Its wrapper calls the target; every exception the
    predicate accepts (here: every one) is followed by a back-off sleep and
    another call, until the deadline is passed, when it raises [RetryError]
    from the last exception. [budget] counts the further calls that fit
    into the deadline. *)
Fixpoint retry_target {A} (budget : nat) (target : M A) : M A :=
  try_except target
    (fun e =>
       match budget with
       | 0 => raise (mk_exc RetryError
                ("Timeout of 120.0s exceeded, last exception: " +:+ exc_msg e))
       | S budget' => emit Backoff ;; retry_target budget' target
       end).

(** A report is a Python dict from outcome names to lists of records. *)
Abbreviation report := (list (string * list pyval)).

Fixpoint report_get (k : string) (r : report) : option (list pyval) :=
  match r with
  | [] => None
  | (k', v) :: r' => if String.eqb k' k then Some v else report_get k r'
  end.

Fixpoint report_set (k : string) (v : list pyval) (r : report) : report :=
  match r with
  | [] => [(k, v)]
  | (k', v') :: r' =>
      if String.eqb k' k then (k', v) :: r' else (k', v') :: report_set k v r'
  end.

(** [r[k]] *)
Definition report_subscript (r : report) (k : string) : outcome (list pyval) :=
  match report_get k r with
  | Some v => Ret v
  | None => Exc (mk_exc KeyError ("'" +:+ k +:+ "'"))
  end.

(** [r[k].extend(xs)] and [r[k].append(x)] *)
Definition report_extend (k : string) (xs : list pyval) (r : report) : outcome report :=
  match report_get k r with
  | Some v => Ret (report_set k (v ++ xs) r)
  | None => Exc (mk_exc KeyError ("'" +:+ k +:+ "'"))
  end.

Definition report_append (k : string) (x : pyval) (r : report) : outcome report :=
  report_extend k [x] r.

(** ** [Devices.move_batch] (lines 430-455) *)

(** [d.get('orgUnitPath', 'Unknown')] *)
Definition source_ou_of (d : dict) : pyval :=
  default (VStr "Unknown") (dict_lookup "orgUnitPath" d).

(** the line logged for one device of a moved batch, lines 440-446 *)
Definition move_log_message (E : environment) (target_ou : string)
    (source_ou identifier : pyval) : string :=
  if py_eq_str source_ou ("/" +:+ target_ou)
  then "move:[" +:+ py_str E source_ou +:+ "]:exists:" +:+ py_str E identifier
  else "move:[" +:+ py_str E source_ou +:+ "]:[/" +:+ target_ou +:+ "]:"
         +:+ py_str E identifier.

Definition move_log_line (E : environment) (target_ou : string) (d : dict) : M unit :=
  identifier <- lift (dict_subscript d "annotatedAssetId") ;;
  let source_ou := source_ou_of d in
  log INFO (move_log_message E target_ou source_ou identifier).

(** the event that [move_log_line] leaves for a device with an asset tag *)
Definition move_log_event (E : environment) (target_ou : string) (d : dict) : event :=
  Log INFO (move_log_message E target_ou (source_ou_of d)
              (default VNone (dict_lookup "annotatedAssetId" d))).

Definition moved_record (target_ou : string) (d : dict) : outcome dict :=
  match dict_subscript d "deviceId" with
  | Exc e => Exc e
  | Ret deviceId =>
      match dict_subscript d "annotatedAssetId" with
      | Exc e => Exc e
      | Ret assetId =>
          Ret [("deviceId", deviceId); ("annotatedAssetId", assetId);
               ("newOrgUnit", VStr target_ou)]
      end
  end.

(** the function under the decorator *)
Definition move_batch_body (E : environment) (device_batch : list dict)
    (target_ou : string) : M report :=
  device_ids <- lift (omapM (fun d => dict_subscript d "deviceId") device_batch) ;;
  _ <- execute E (MoveDevicesToOu target_ou device_ids) ;;
  for_each device_batch (move_log_line E target_ou) ;;
  moved <- lift (omapM (moved_record target_ou) device_batch) ;;
  ret [("success", map VDict moved)].

Definition move_batch (E : environment) (device_batch : list dict)
    (target_ou : string) : M report :=
  retry_target (retry_budget E) (move_batch_body E device_batch target_ou).

(** ** [Devices.process_batch] (lines 457-485) *)

Definition failed_record (reason : string) (d : dict) : outcome dict :=
  match dict_subscript d "deviceId" with
  | Exc e => Exc e
  | Ret deviceId =>
      match dict_subscript d "annotatedAssetId" with
      | Exc e => Exc e
      | Ret assetId =>
          Ret [("deviceId", deviceId); ("annotatedAssetId", assetId);
               ("reason", VStr reason)]
      end
  end.

(** [for attempt in range(self.MAX_RETRIES)], with the operation as a
    parameter; falling out of the loop returns [None]. *)
Fixpoint process_batch_loop (operation : M report) (attempts : list nat)
    (batch : list dict) : M (option report) :=
  match attempts with
  | [] => ret None
  | attempt :: rest =>
      try_except (result <- operation ;; ret (Some result))
        (fun e =>
           if Nat.eqb attempt (MAX_RETRIES - 1) then
             log ERROR ("Failed to move batch after " +:+ pretty MAX_RETRIES
                          +:+ " attempts: " +:+ exc_msg e) ;;
             failure <- lift (omapM (failed_record (exc_msg e)) batch) ;;
             ret (Some [("failure", map VDict failure)])
           else
             sleep RETRY_DELAY ;;
             log WARNING ("Retrying batch due to error: " +:+ exc_msg e
                            +:+ " (Attempt " +:+ pretty (attempt + 1) +:+ ")") ;;
             process_batch_loop operation rest batch)
  end.

(** the world after the pause that follows a failed attempt *)
Definition after_pause (e : exc) (attempt : nat) (w : world) : world :=
  mk_world ((events w ++ [Sleep RETRY_DELAY])
              ++ [Log WARNING ("Retrying batch due to error: " +:+ exc_msg e
                                 +:+ " (Attempt " +:+ pretty attempt +:+ ")")])
    (device_cache w).

(** the world after the last attempt has failed *)
Definition after_giving_up (e : exc) (w : world) : world :=
  mk_world (events w ++ [Log ERROR ("Failed to move batch after " +:+ pretty MAX_RETRIES
                                      +:+ " attempts: " +:+ exc_msg e)])
    (device_cache w).

Definition process_batch (E : environment) (batch : list dict)
    (target_ou : string) : M (option report) :=
  process_batch_loop (move_batch E batch target_ou) (seq 0 MAX_RETRIES) batch.

(** ** The thread pool

    [executor.submit(f, x) for x in xs]: every task runs to its end and its
    future keeps what it returned or raised. The tasks are run one after
    the other in submission order; the futures are handed back in the
    order of [as_completed]. *)
Fixpoint submit_all {A B} (f : A -> M B) (xs : list A)
    : world -> list (A * outcome B) * world :=
  fun w =>
    match xs with
    | [] => ([], w)
    | x :: xs' =>
        let (o, w1) := f x w in
        let (futures, w2) := submit_all f xs' w1 in
        ((x, o) :: futures, w2)
    end.

Definition thread_pool {A B} (E : environment) (f : A -> M B) (xs : list A)
    : M (list (A * outcome B)) :=
  fun w => let (futures, w') := submit_all f xs w in
           (Ret (as_completed E _ futures), w').

(** The merge loop of [move_devices_to_ou] and [reboot_devices]:
    [future.result()] re-raises what the task raised. *)
Fixpoint merge_batch_results (futures : list (list dict * outcome (option report)))
    (results : report) : M report :=
  match futures with
  | [] => ret results
  | (_, future) :: rest =>
      batch_result <- lift future ;;
      match batch_result with
      | None => raise (mk_exc TypeError "argument of type 'NoneType' is not iterable")
      | Some batch_result =>
          results <- lift (match report_get "success" batch_result with
                           | Some xs => report_extend "success" xs results
                           | None => Ret results
                           end) ;;
          results <- lift (match report_get "failure" batch_result with
                           | Some xs => report_extend "failure" xs results
                           | None => Ret results
                           end) ;;
          merge_batch_results rest results
      end
  end.

(** ** [Devices.move_devices_to_ou] (lines 487-539) *)

(** [devices (list or str)] *)
Inductive devices_arg : Type :=
| OneDevice (s : string)
| DeviceList (l : list pyval).

Definition as_device_list (devices : devices_arg) : list pyval :=
  match devices with
  | OneDevice s => [VStr s]
  | DeviceList l => l
  end.

Definition normalize_target_ou (target_ou : string) : string :=
  if String.prefix "Chromebooks/" target_ou then target_ou
  else "Chromebooks/" +:+ target_ou.

(** the identifiers become device records, lines 509-514 and 675-680 *)
Definition resolve_devices (E : environment) (devices : list pyval)
    (identifier_type : string) : M (list dict) :=
  if String.eqb identifier_type "deviceId"
  then ret (map (fun device => [("deviceId", device)]) devices)
  else get_device_info E devices identifier_type.

Definition move_devices_to_ou (E : environment) (devices : devices_arg)
    (target_ou : string) (identifier_type : string) : M report :=
  let devices := as_device_list devices in
  let target_ou := normalize_target_ou target_ou in
  load_service E ;;
  device_info_list <- resolve_devices E devices identifier_type ;;
  let batches := batches MAX_BATCH_SIZE device_info_list in
  futures <- thread_pool E (fun batch => process_batch E batch target_ou) batches ;;
  merge_batch_results futures [("success", []); ("failure", [])].

(** ** [Devices.process_deprovision_device] (lines 600-651) *)

Definition deprovision_record (d : dict) (status : string) : outcome dict :=
  match dict_subscript d "deviceId" with
  | Exc e => Exc e
  | Ret deviceId =>
      match dict_subscript d "annotatedAssetId" with
      | Exc e => Exc e
      | Ret assetId =>
          Ret [("deviceId", deviceId); ("annotatedAssetId", assetId);
               ("status", VStr status)]
      end
  end.

(** a log line whose f-string reads [device_info['annotatedAssetId']] *)
Definition log_asset (E : environment) (lvl : level) (d : dict)
    (before after : string) : M unit :=
  assetId <- lift (dict_subscript d "annotatedAssetId") ;;
  log lvl (before +:+ py_str E assetId +:+ after).

Fixpoint deprovision_loop (E : environment) (attempts : list nat)
    (device_info : dict) (deviceId : pyval) : M (option dict) :=
  match attempts with
  | [] => ret None
  | attempt :: rest =>
      try_except
        (_ <- execute E (DeprovisionAction deviceId) ;;
         log_asset E INFO device_info "Deprovisioned device " "" ;;
         r <- lift (deprovision_record device_info "Deprovisioned") ;;
         ret (Some r))
        (fun e =>
           if str_contains "Illegal device state transition" (exc_msg e) then
             log_asset E INFO device_info "Device " " is already deprovisioned." ;;
             r <- lift (deprovision_record device_info "Already deprovisioned") ;;
             ret (Some r)
           else if Nat.eqb attempt (MAX_RETRIES - 1) then
             log_asset E ERROR device_info "Failed to deprovision device "
               (" after " +:+ pretty MAX_RETRIES +:+ " attempts: " +:+ exc_msg e) ;;
             raise e
           else
             sleep RETRY_DELAY ;;
             log_asset E WARNING device_info "Retrying deprovision of device "
               (" due to error: " +:+ exc_msg e +:+ " (Attempt "
                  +:+ pretty (attempt + 1) +:+ ")") ;;
             deprovision_loop E rest device_info deviceId)
  end.

Definition process_deprovision_device (E : environment) (device_info : dict)
    : M (option dict) :=
  deviceId <- lift (dict_subscript device_info "deviceId") ;;
  let status := default VNone (dict_lookup "status" device_info) in
  if py_eq_str status "DEPROVISIONED" then
    log_asset E INFO device_info "Device " " is already deprovisioned." ;;
    r <- lift (deprovision_record device_info "Already deprovisioned") ;;
    ret (Some r)
  else deprovision_loop E (seq 0 MAX_RETRIES) device_info deviceId.

(** ** [Devices.deprovision] (lines 541-598) *)

(** the loop over [as_completed], lines 573-588 *)
Fixpoint merge_deprovision_results (E : environment)
    (futures : list (dict * outcome (option dict))) (results : report) : M report :=
  match futures with
  | [] => ret results
  | (device_info, future) :: rest =>
      results <-
        try_except
          (result <- lift future ;;
           match result with
           | None => raise (mk_exc AttributeError
                        "'NoneType' object has no attribute 'get'")
           | Some result =>
               let status := default VNone (dict_lookup "status" result) in
               if py_eq_str status "Already deprovisioned"
               then lift (report_append "already_deprovisioned" (VDict result) results)
               else lift (report_append "success" (VDict result) results)
           end)
          (fun e =>
             log_asset E ERROR device_info "Failed to deprovision device "
               (": " +:+ exc_msg e) ;;
             deviceId <- lift (dict_subscript device_info "deviceId") ;;
             assetId <- lift (dict_subscript device_info "annotatedAssetId") ;;
             lift (report_append "failure"
                     (VDict [("deviceId", deviceId); ("annotatedAssetId", assetId);
                             ("reason", VStr (exc_msg e))]) results)) ;;
      merge_deprovision_results E rest results
  end.

(** phase one, lines 553-588 *)
Definition deprovision_phase_one (E : environment) (devices : devices_arg)
    : M report :=
  let devices := as_device_list devices in
  load_service E ;;
  device_info_list <- get_device_info E devices "annotatedAssetId" ;;
  futures <- thread_pool E (process_deprovision_device E) device_info_list ;;
  merge_deprovision_results E futures
    [("success", []); ("already_deprovisioned", []); ("failure", [])].

(** [target_ou and results['success']] *)
Definition wants_move (target_ou : option string) (results : report) : bool :=
  match target_ou with
  | None => false
  | Some t =>
      negb (String.eqb t "")
      && match report_get "success" results with
         | Some (_ :: _) => true
         | _ => false
         end
  end.

(** [[d['annotatedAssetId'] for d in results['success']]] *)
Definition move_devices_of (results : report) : outcome (list pyval) :=
  match report_subscript results "success" with
  | Exc e => Exc e
  | Ret success => omapM (fun d => py_subscript d "annotatedAssetId") success
  end.

(** phase two, lines 590-598 *)
Definition deprovision_phase_two (E : environment) (target_ou : option string)
    (results : report) : M report :=
  if wants_move target_ou results then
    move_devices <- lift (move_devices_of results) ;;
    move_results <- move_devices_to_ou E (DeviceList move_devices)
                      (default "" target_ou) "annotatedAssetId" ;;
    let results := report_set "move_success"
                     (default [] (report_get "success" move_results)) results in
    let results := report_set "move_failure"
                     (default [] (report_get "failure" move_results)) results in
    ret results
  else ret results.

Definition deprovision (E : environment) (devices : devices_arg)
    (target_ou : option string) : M report :=
  results <- deprovision_phase_one E devices ;;
  deprovision_phase_two E target_ou results.

(** ** [Devices.process_reboot_device] (lines 743-784) *)

Definition REBOOT_COMMAND_TYPE : string := "REBOOT".

(** [device_info.get('annotatedAssetId', deviceId)] *)
Definition asset_or (d : dict) (deviceId : pyval) : pyval :=
  default deviceId (dict_lookup "annotatedAssetId" d).

Fixpoint reboot_loop (E : environment) (attempts : list nat)
    (device_info : dict) (deviceId : pyval)
    (user_session_delay_seconds : pyval) : M (option dict) :=
  match attempts with
  | [] => ret None
  | attempt :: rest =>
      try_except
        (command <- execute E (IssueCommand deviceId REBOOT_COMMAND_TYPE
                                 user_session_delay_seconds) ;;
         commandId <- lift (py_get command "commandId") ;;
         log INFO ("Sent REBOOT command to device "
                     +:+ py_str E (asset_or device_info deviceId)
                     +:+ " with Command ID: " +:+ py_str E commandId) ;;
         ret (Some [("deviceId", deviceId);
                    ("annotatedAssetId",
                     default VNone (dict_lookup "annotatedAssetId" device_info));
                    ("status", VStr "REBOOT command sent");
                    ("commandId", commandId)]))
        (fun e =>
           if exc_class_eqb (exc_cls e) RefreshError then
             log ERROR ("Failed to refresh credentials: " +:+ exc_msg e) ;;
             raise e
           else if Nat.eqb attempt (MAX_RETRIES - 1) then
             log ERROR ("Failed to send REBOOT command to device "
                          +:+ py_str E (asset_or device_info deviceId)
                          +:+ " after " +:+ pretty MAX_RETRIES +:+ " attempts: "
                          +:+ exc_msg e) ;;
             raise e
           else
             sleep RETRY_DELAY ;;
             log WARNING ("Retrying REBOOT command for device "
                            +:+ py_str E (asset_or device_info deviceId)
                            +:+ " due to error: " +:+ exc_msg e +:+ " (Attempt "
                            +:+ pretty (attempt + 1) +:+ ")") ;;
             reboot_loop E rest device_info deviceId user_session_delay_seconds)
  end.

Definition process_reboot_device (E : environment) (device_info : dict)
    (user_session_delay_seconds : pyval) : M (option dict) :=
  deviceId <- lift (dict_subscript device_info "deviceId") ;;
  reboot_loop E (seq 0 MAX_RETRIES) device_info deviceId user_session_delay_seconds.

(** ** [Devices.process_reboot_batch] (lines 707-741) *)

Definition py_of_record (r : option dict) : pyval :=
  match r with
  | Some d => VDict d
  | None => VNone
  end.

(** the loop over [as_completed], lines 728-739 *)
Fixpoint merge_reboot_results (E : environment)
    (futures : list (dict * outcome (option dict))) (batch_results : report)
    : M report :=
  match futures with
  | [] => ret batch_results
  | (device_info, future) :: rest =>
      batch_results <-
        try_except
          (result <- lift future ;;
           lift (report_append "success" (py_of_record result) batch_results))
          (fun e =>
             deviceId <- lift (dict_subscript device_info "deviceId") ;;
             log ERROR ("Failed to reboot device "
                          +:+ py_str E (asset_or device_info deviceId) +:+ ": "
                          +:+ exc_msg e) ;;
             lift (report_append "failure"
                     (VDict [("deviceId", deviceId);
                             ("annotatedAssetId",
                              default VNone (dict_lookup "annotatedAssetId" device_info));
                             ("reason", VStr (exc_msg e))]) batch_results)) ;;
      merge_reboot_results E rest batch_results
  end.

Definition process_reboot_batch (E : environment) (batch : list dict)
    (user_session_delay_seconds : pyval) : M report :=
  futures <- thread_pool E
    (fun device_info => process_reboot_device E device_info user_session_delay_seconds)
    batch ;;
  merge_reboot_results E futures [("success", []); ("failure", [])].

(** ** [Devices.reboot_devices] (lines 653-705) *)

(** [isinstance(x, int) and 0 <= x <= 300]; a [bool] is an [int] *)
Definition valid_delay (user_session_delay_seconds : pyval) : bool :=
  match user_session_delay_seconds with
  | VInt z => Z.leb 0 z && Z.leb z 300
  | VBool _ => true
  | _ => false
  end.

Definition reboot_devices (E : environment) (devices : devices_arg)
    (identifier_type : string) (user_session_delay_seconds : pyval) : M report :=
  let devices := as_device_list devices in
  if negb (valid_delay user_session_delay_seconds)
  then raise (mk_exc ValueError
         "user_session_delay_seconds must be an integer between 0 and 300.")
  else
    load_service E ;;
    device_info_list <- resolve_devices E devices identifier_type ;;
    let batches := batches MAX_BATCH_SIZE device_info_list in
    futures <- thread_pool E
      (fun batch =>
         batch_result <- process_reboot_batch E batch user_session_delay_seconds ;;
         ret (Some batch_result))
      batches ;;
    merge_batch_results futures [("success", []); ("failure", [])].

(** ** [BaseAeriesClient._make_request] (client.py, lines 50-102) *)

Module Aeries.

(** the dataclass [AeriesResponse]; unset fields are [None] *)
Record AeriesResponse : Type := mk_AeriesResponse {
  success : bool;
  data : pyval;
  status_code : option Z;
  message : option string;
  error : option string
}.

(** Exception classes as the two [except] clauses see them.
    [requests.exceptions.JSONDecodeError] derives from [ValueError] and
    from [RequestException]. *)
Inductive req_exc_class : Type :=
| JSONDecodeError
| PlainValueError
| TransportError
| UnrelatedError.

Definition is_ValueError (c : req_exc_class) : bool :=
  match c with
  | JSONDecodeError | PlainValueError => true
  | _ => false
  end.

Definition is_RequestException (c : req_exc_class) : bool :=
  match c with
  | JSONDecodeError | TransportError => true
  | _ => false
  end.

Record req_exc : Type := mk_req_exc { req_cls : req_exc_class; req_msg : string }.

Inductive attempt (A : Type) : Type :=
| Returned (a : A)
| Raised (e : req_exc).
Arguments Returned {A} a.
Arguments Raised {A} e.

(** What [session.request] hands back: the status code, the body, and
    what [response.json()] does on that body. *)
Record response : Type := mk_response {
  resp_status_code : Z;
  resp_text : string;
  resp_json : attempt pyval
}.

(** the body of the [try], lines 63-94 *)
Definition handle_response (response : response) : attempt AeriesResponse :=
  if Z.eqb (resp_status_code response) 200 then
    match resp_json response with
    | Returned data =>
        Returned (mk_AeriesResponse true data
                    (Some (resp_status_code response))
                    (Some "Request successful") None)
    | Raised e =>
        if is_ValueError (req_cls e)
        then Returned (mk_AeriesResponse true (VStr (resp_text response))
                         (Some (resp_status_code response))
                         (Some "Request successful (non-JSON response)") None)
        else Raised e
    end
  else if Z.eqb (resp_status_code response) 404 then
    Returned (mk_AeriesResponse false VNone
                (Some (resp_status_code response))
                (Some "Resource not found") (Some "404 Not Found"))
  else
    Returned (mk_AeriesResponse false VNone
                (Some (resp_status_code response))
                (Some ("Request failed with status "
                         +:+ pretty (resp_status_code response)))
                (Some (resp_text response))).

(** [_make_request], given what [self.session.request(method, url,
    **kwargs)] does; the result comes with the lines sent to the logger. *)
Definition _make_request (session_request : attempt response)
    : attempt AeriesResponse * list string :=
  let body :=
    match session_request with
    | Raised e => Raised e
    | Returned response => handle_response response
    end in
  match body with
  | Returned r => (Returned r, [])
  | Raised e =>
      if is_RequestException (req_cls e)
      then (Returned (mk_AeriesResponse false VNone None
                        (Some "Network error occurred") (Some (req_msg e))),
            ["Request exception: " +:+ req_msg e])
      else (Raised e, [])
  end.

End Aeries.

(** ** Reading a report *)

(** the device id of a record of a report *)
Definition record_device_id (record : pyval) : option pyval :=
  match record with
  | VDict d => dict_lookup "deviceId" d
  | _ => None
  end.

(** the records of the outcome sequences [keys] of a report, together *)
Definition reported (keys : list string) (r : report) : list pyval :=
  concat (map (fun k => default [] (report_get k r)) keys).

(** [as_completed] yields every future it was given, once *)
Definition fair (E : environment) : Prop :=
  forall (A : Type) (l : list A), as_completed E A l ≡ₚ l.

(** ** Concrete environments, used to run the model *)

Definition demo_str (v : pyval) : string :=
  match v with
  | VNone => "None"
  | VBool true => "True"
  | VBool false => "False"
  | VInt z => pretty z
  | VStr s => s
  | VList _ => "[...]"
  | VDict _ => "{...}"
  end.

Definition in_order : forall A : Type, list A -> list A := fun _ l => l.

Definition w0 : world := mk_world [] ∅.

(** A fleet in which every asset tag but [ghost] names a device placed in
    [/Chromebooks/Repair]; deprovisioning the device of tag [broken] is
    refused by the backend. *)
Definition fleet_device (asset : string) : pyval :=
  VDict [("deviceId", VStr ("id-" +:+ asset));
         ("annotatedAssetId", VStr asset);
         ("orgUnitPath", VStr "/Chromebooks/Repair");
         ("status", VStr "ACTIVE")].

Definition fleet_remote (history : list event) (c : net_call) : outcome pyval :=
  match c with
  | Build => Ret VNone
  | ListDevices query _ =>
      if String.eqb query "asset_id:ghost" then Ret (VDict [])
      else Ret (VDict [("chromeosdevices",
                        VList [fleet_device (substring 9 (String.length query - 9) query)])])
  | MoveDevicesToOu _ _ => Ret (VDict [])
  | DeprovisionAction resourceId =>
      if py_eq_str resourceId "id-broken"
      then Exc (mk_exc OtherException "backend error")
      else Ret (VDict [])
  | IssueCommand _ _ _ => Ret (VDict [("commandId", VStr "c1")])
  end.

Definition fleet : environment := mk_environment demo_str fleet_remote 0 in_order.


(** a remote service that cannot be reached *)
Definition down_remote (history : list event) (c : net_call) : outcome pyval :=
  match c with
  | Build => Ret VNone
  | _ => Exc (mk_exc OtherException "connection reset")
  end.

Definition down : environment := mk_environment demo_str down_remote 0 in_order.

(** ** [DataUtilities.expand_dot_notation] (utils/data_utils/__init__.py) *)

(** [s.split(sep)] for a separator of one character *)
Fixpoint py_split (sep : ascii) (s : string) : list string :=
  match s with
  | EmptyString => [""]
  | String c rest =>
      if Ascii.eqb c sep then "" :: py_split sep rest
      else match py_split sep rest with
           | h :: t => String c h :: t
           | [] => [String c ""]
           end
  end.

(** [sep.join(parts)] *)
Fixpoint py_join (sep : string) (parts : list string) : string :=
  match parts with
  | [] => ""
  | [p] => p
  | p :: rest => p +:+ sep +:+ py_join sep rest
  end.

(** [['.'.join(parts[:i]) for i in range(1, len(parts) + 1)]] *)
Definition dot_prefixes (field : string) : list string :=
  let parts := py_split "." field in
  map (fun i => py_join "." (take i parts)) (seq 1 (length parts)).

(** The function builds a [set] and returns [list(expanded)], whose order
    Python does not fix: the result is the set. *)
Definition expand_dot_notation (fields : list string) : gset string :=
  foldl (fun expanded field =>
           foldl (fun expanded prefix => expanded ∪ {[prefix]})
             expanded (dot_prefixes field))
    ∅ fields.

(** ** The wipe operations: [process_reset_device] (lines 1114-1149),
    [reset_device] (870-912) and [update_os] (377-428) *)

(** The body of the command is [{"commandType": "WIPE_USERS"}], without a
    payload: the third field of the call is [None]. *)
Fixpoint reset_loop (E : environment) (attempts : list nat)
    (device_info : dict) (deviceId : pyval) : M (option dict) :=
  match attempts with
  | [] => ret None
  | attempt :: rest =>
      try_except
        (command <- execute E (IssueCommand deviceId "WIPE_USERS" VNone) ;;
         log INFO ("Sent WIPE_USERS command to device "
                     +:+ py_str E (asset_or device_info deviceId)) ;;
         commandId <- lift (py_get command "commandId") ;;
         ret (Some [("deviceId", deviceId);
                    ("annotatedAssetId",
                     default VNone (dict_lookup "annotatedAssetId" device_info));
                    ("status", VStr "WIPE_USERS command sent");
                    ("commandId", commandId)]))
        (fun e =>
           if Nat.eqb attempt (MAX_RETRIES - 1) then
             log ERROR ("Failed to send WIPE_USERS command to device "
                          +:+ py_str E (asset_or device_info deviceId)
                          +:+ " after " +:+ pretty MAX_RETRIES +:+ " attempts: "
                          +:+ exc_msg e) ;;
             raise e
           else
             sleep RETRY_DELAY ;;
             log WARNING ("Retrying WIPE_USERS command for device "
                            +:+ py_str E (asset_or device_info deviceId)
                            +:+ " due to error: " +:+ exc_msg e +:+ " (Attempt "
                            +:+ pretty (attempt + 1) +:+ ")") ;;
             reset_loop E rest device_info deviceId)
  end.

Definition process_reset_device (E : environment) (device_info : dict)
    : M (option dict) :=
  deviceId <- lift (dict_subscript device_info "deviceId") ;;
  reset_loop E (seq 0 MAX_RETRIES) device_info deviceId.

(** the loop over [as_completed], lines 407-418 and 899-910 *)
Fixpoint merge_reset_results (E : environment)
    (futures : list (dict * outcome (option dict))) (results : report)
    : M report :=
  match futures with
  | [] => ret results
  | (device_info, future) :: rest =>
      results <-
        try_except
          (result <- lift future ;;
           lift (report_append "success" (py_of_record result) results))
          (fun e =>
             deviceId <- lift (dict_subscript device_info "deviceId") ;;
             log ERROR ("Failed to send WIPE_USERS command to device "
                          +:+ py_str E (asset_or device_info deviceId) +:+ ": "
                          +:+ exc_msg e) ;;
             lift (report_append "failure"
                     (VDict [("deviceId", deviceId);
                             ("annotatedAssetId",
                              default VNone (dict_lookup "annotatedAssetId" device_info));
                             ("reason", VStr (exc_msg e))]) results)) ;;
      merge_reset_results E rest results
  end.

Definition reset_device (E : environment) (devices : devices_arg) : M report :=
  let devices := as_device_list devices in
  load_service E ;;
  device_info_list <- get_device_info E devices "annotatedAssetId" ;;
  futures <- thread_pool E (process_reset_device E) device_info_list ;;
  merge_reset_results E futures [("success", []); ("failure", [])].

(** [[d['deviceId'] for d in results['success']]] *)
Definition reset_devices_of (results : report) : outcome (list pyval) :=
  match report_subscript results "success" with
  | Exc e => Exc e
  | Ret success => omapM (fun d => py_subscript d "deviceId") success
  end.

Definition update_os (E : environment) (devices : devices_arg) : M report :=
  let devices := as_device_list devices in
  load_service E ;;
  device_info_list <- get_device_info E devices "annotatedAssetId" ;;
  futures <- thread_pool E (process_reset_device E) device_info_list ;;
  results <- merge_reset_results E futures [("success", []); ("failure", [])] ;;
  success <- lift (report_subscript results "success") ;;
  match success with
  | [] => ret results
  | _ :: _ =>
      move_devices <- lift (reset_devices_of results) ;;
      move_results <- move_devices_to_ou E (DeviceList move_devices)
                        "3110 (for updating)" "deviceId" ;;
      let results := report_set "move_success"
                       (default [] (report_get "success" move_results)) results in
      let results := report_set "move_failure"
                       (default [] (report_get "failure" move_results)) results in
      ret results
  end.

(** ** [Devices.move_chrome_os_device] (lines 1214-1265) *)

(** [s.replace(old, new)] for a non-empty [old]: the occurrences are taken
    from left to right and do not overlap; [skip] counts the characters of
    the occurrence just replaced that are still to be dropped. *)
Fixpoint py_replace_from (skip : nat) (old new s : string) : string :=
  match s with
  | EmptyString => EmptyString
  | String c rest =>
      match skip with
      | S skip' => py_replace_from skip' old new rest
      | 0 =>
          if String.prefix old s
          then new +:+ py_replace_from (String.length old - 1) old new rest
          else String c (py_replace_from 0 old new rest)
      end
  end.

Definition py_replace (old new s : string) : string := py_replace_from 0 old new s.

(** lines 1229-1233 *)
Definition chrome_os_target (target_org_unit : string) : string :=
  let target_org_unit :=
    if String.prefix "/" target_org_unit then target_org_unit
    else "/" +:+ target_org_unit in
  if String.prefix "/Chromebooks" target_org_unit then target_org_unit
  else "/Chromebooks" +:+ py_replace "/Chromebooks" "" target_org_unit.

(** the [for] loop, lines 1243-1259; leaving it goes on to [return False] *)
Fixpoint chrome_os_move_loop (E : environment) (attempts : list nat)
    (device_id : pyval) (target_org_unit : string) : M bool :=
  match attempts with
  | [] => ret false
  | attempt :: rest =>
      try_except
        (_ <- execute E (MoveDevicesToOu target_org_unit [device_id]) ;;
         log INFO ("✅ [Google API] Device " +:+ py_str E device_id
                     +:+ " moved successfully to " +:+ target_org_unit) ;;
         ret true)
        (fun e =>
           if Nat.eqb attempt (MAX_RETRIES - 1) then
             log ERROR ("❌ [Google API] Failed to move device "
                          +:+ py_str E device_id +:+ " after " +:+ pretty MAX_RETRIES
                          +:+ " attempts: " +:+ exc_msg e) ;;
             raise e
           else
             sleep RETRY_DELAY ;;
             log WARNING ("🔄 [Google API] Retrying device move for "
                            +:+ py_str E device_id +:+ " due to error: "
                            +:+ exc_msg e +:+ " (Attempt " +:+ pretty (attempt + 1)
                            +:+ ")") ;;
             chrome_os_move_loop E rest device_id target_org_unit)
  end.

Definition move_chrome_os_device (E : environment) (device_id : pyval)
    (target_org_unit : string) : M bool :=
  try_except
    (log INFO ("🔄 [Google API] Moving device " +:+ py_str E device_id
                 +:+ " to " +:+ target_org_unit) ;;
     let target_org_unit := chrome_os_target target_org_unit in
     load_service E ;;
     chrome_os_move_loop E (seq 0 MAX_RETRIES) device_id target_org_unit)
    (fun e =>
       log ERROR ("❌ [Google API] Failed to move device " +:+ py_str E device_id
                    +:+ ": " +:+ exc_msg e) ;;
       ret false).

(** the world after further events *)
Definition add_events (w : world) (evs : list event) : world :=
  mk_world (events w ++ evs) (device_cache w).

(** ** The verbs of [BaseAeriesClient] (client.py, lines 34-48 and 104-122) *)

Module AeriesVerbs.
Import Aeries.

(** [s.rstrip('/')] and [s.lstrip('/')] *)
Fixpoint rstrip_slash (s : string) : string :=
  match s with
  | EmptyString => EmptyString
  | String c rest =>
      match rstrip_slash rest with
      | EmptyString => if Ascii.eqb c "/" then EmptyString else String c EmptyString
      | rest' => String c rest'
      end
  end.

Fixpoint lstrip_slash (s : string) : string :=
  match s with
  | String c rest => if Ascii.eqb c "/" then lstrip_slash rest else s
  | EmptyString => EmptyString
  end.

(** the client keeps [endpoint.rstrip('/')] and the key *)
Record client : Type := mk_client { endpoint : string; api_key : string }.

Definition init (endpoint api_key : string) : client :=
  mk_client (rstrip_slash endpoint) api_key.

(** [f"{self.endpoint}/{endpoint.lstrip('/')}"] *)
Definition url_of (self : client) (path : string) : string :=
  endpoint self +:+ "/" +:+ lstrip_slash path.

(** What the session does with a method, a URL and the keyword arguments. *)
Definition transport : Type := string -> string -> dict -> attempt response.

Definition get (session : transport) (self : client) (path : string)
    (params : pyval) : attempt AeriesResponse * list string :=
  _make_request (session "GET" (url_of self path) [("params", params)]).

Definition post (session : transport) (self : client) (path : string)
    (data json : pyval) : attempt AeriesResponse * list string :=
  _make_request (session "POST" (url_of self path) [("data", data); ("json", json)]).

Definition put (session : transport) (self : client) (path : string)
    (data json : pyval) : attempt AeriesResponse * list string :=
  _make_request (session "PUT" (url_of self path) [("data", data); ("json", json)]).

Definition delete (session : transport) (self : client) (path : string)
    : attempt AeriesResponse * list string :=
  _make_request (session "DELETE" (url_of self path) []).

(** [s.endswith('/')] *)
Fixpoint ends_with_slash (s : string) : bool :=
  match s with
  | EmptyString => false
  | String c EmptyString => Ascii.eqb c "/"
  | String _ rest => ends_with_slash rest
  end.

End AeriesVerbs.

(** ** Shapes of records and of events *)

(** a record as [get_device_info] builds it *)
Definition info_record (d : dict) : Prop :=
  exists deviceId assetId orgUnitPath status,
    d = [("deviceId", deviceId); ("annotatedAssetId", assetId);
         ("orgUnitPath", orgUnitPath); ("status", status)].

(** a record with the two keys that [move_batch] and [process_batch] read *)
Definition has_ids (d : dict) : Prop :=
  is_Some (dict_lookup "deviceId" d) /\ is_Some (dict_lookup "annotatedAssetId" d).


(** an event that is no call of the remote service: a sleep, a back-off
    or a log line *)
Definition no_call (ev : event) : Prop :=
  match ev with
  | Net _ => False
  | _ => True
  end.

(** ** The run of the lookups of [get_device_info]

    [lookups E identifier_type w devices infos w'] follows the loop of
    lines 363-374 from the world [w] to the world [w']: each identifier, in
    order, is looked up with [find_device] in the world that the one before
    left. A result that is truthy, a device, adds one record, with the
    device id of that device, to [infos]; a result that is not is followed
    by the warning [Device not found] and adds nothing. *)
Inductive lookups (E : environment) (identifier_type : string)
    : world -> list pyval -> list dict -> world -> Prop :=
| lookups_done (w : world) :
    lookups E identifier_type w [] [] w
| lookups_found (w : world) (identifier : pyval) (device : dict)
    (deviceId : pyval) (w1 : world) (rest : list pyval) (infos : list dict)
    (w' : world) :
    find_device E identifier identifier_type info_fields false w
    = (Ret (VDict device), w1) ->
    py_truthy (VDict device) = true ->
    dict_lookup "deviceId" device = Some deviceId ->
    lookups E identifier_type w1 rest infos w' ->
    lookups E identifier_type w (identifier :: rest)
      ([("deviceId", deviceId);
        ("annotatedAssetId", default VNone (dict_lookup "annotatedAssetId" device));
        ("orgUnitPath", default (VStr "Unknown") (dict_lookup "orgUnitPath" device));
        ("status", default (VStr "Unknown") (dict_lookup "status" device))]
         :: infos) w'
| lookups_missing (w : world) (identifier device_info : pyval) (w1 : world)
    (rest : list pyval) (infos : list dict) (w' : world) :
    find_device E identifier identifier_type info_fields false w
    = (Ret device_info, w1) ->
    py_truthy device_info = false ->
    lookups E identifier_type
      (add_events w1 [Log WARNING ("Device not found: " +:+ py_str E identifier)])
      rest infos w' ->
    lookups E identifier_type w (identifier :: rest) infos w'.

(** ** Reading the futures of a pool *)

(** The futures that returned, with what they returned, and the futures
    that raised, with the exception; both in the order of the futures. *)
Definition returned_of {A B} (futures : list (A * outcome B)) : list (A * B) :=
  omap (fun fut => match snd fut with
                   | Ret b => Some (fst fut, b)
                   | Exc _ => None
                   end) futures.

Definition raised_of {A B} (futures : list (A * outcome B)) : list (A * exc) :=
  omap (fun fut => match snd fut with
                   | Ret _ => None
                   | Exc e => Some (fst fut, e)
                   end) futures.

(** the record filed under [failure] for a device whose task raised [e] *)
Definition failure_record (d : dict) (e : exc) : pyval :=
  VDict [("deviceId", default VNone (dict_lookup "deviceId" d));
         ("annotatedAssetId", default VNone (dict_lookup "annotatedAssetId" d));
         ("reason", VStr (exc_msg e))].

(** * Properties *)

Section Partitioner.
Context {A : Type}.
Implicit Types (l : list A) (B : nat).

Lemma py_range_spec fuel start stop B :
  0 < B -> stop <= start + fuel * B ->
  py_range fuel start stop B
  = map (fun k => start + k * B) (seq 0 ((stop - start + B - 1) / B)).
Proof.
  intros HB. revert start. induction fuel as [|fuel IH]; intros start Hf; simpl.
  - replace (stop - start + B - 1) with (B - 1) by lia.
    rewrite Nat.div_small by lia. reflexivity.
  - case_decide as Hlt.
    + rewrite IH by lia.
      assert ((stop - start + B - 1) / B
              = S ((stop - (start + B) + B - 1) / B)) as ->.
      { destruct (decide (start + B <= stop)).
        - replace (stop - start + B - 1)
            with (1 * B + (stop - (start + B) + B - 1)) by lia.
          rewrite Nat.div_add_l by lia. lia.
        - replace (stop - start + B - 1) with (1 * B + (stop - start - 1)) by lia.
          rewrite Nat.div_add_l by lia.
          replace (stop - (start + B) + B - 1) with (B - 1) by lia.
          rewrite !Nat.div_small by lia. lia. }
      simpl. f_equal; [lia|].
      rewrite <- seq_shift, map_map. apply map_ext. intros k. lia.
    + replace (stop - start + B - 1) with (B - 1) by lia.
      rewrite Nat.div_small by lia. reflexivity.
Qed.

Lemma batches_spec B l :
  0 < B ->
  batches B l
  = map (fun k => take B (drop (k * B) l)) (seq 0 ((length l + B - 1) / B)).
Proof.
  intros HB. unfold batches.
  rewrite py_range_spec by (try done; simpl; nia).
  rewrite map_map. rewrite Nat.sub_0_r.
  apply map_ext. intros k. unfold py_slice. simpl.
  by replace (k * B + B - k * B) with B by lia.
Qed.

Lemma concat_chunks B l n :
  0 < B -> length l <= n * B ->
  concat (map (fun k => take B (drop (k * B) l)) (seq 0 n)) = l.
Proof.
  intros HB. revert l. induction n as [|n IH]; intros l Hn; simpl.
  - destruct l; [done|simpl in Hn; lia].
  - rewrite <- seq_shift, map_map.
    transitivity (take B l ++ drop B l); [|apply take_drop].
    f_equal.
    rewrite <- (IH (drop B l)) by (rewrite length_drop; lia).
    f_equal. apply map_ext. intros k. rewrite drop_drop.
    by replace (B + k * B) with (S k * B) by lia.
Qed.
Lemma ceil_div_spec B N :
  0 < B ->
  N <= (N + B - 1) / B * B /\ forall m, N <= m * B -> (N + B - 1) / B <= m.
Proof.
  intros HB. split.
  - pose proof (Nat.div_mod_eq (N + B - 1) B) as Hd.
    pose proof (Nat.mod_upper_bound (N + B - 1) B). nia.
  - intros m Hm. apply Nat.lt_succ_r. apply Nat.Div0.div_lt_upper_bound. nia.
Qed.


Lemma batches_concat B l : 0 < B -> concat (batches B l) = l.
Proof.
  intros HB. rewrite batches_spec by done.
  apply concat_chunks; [done|]. by apply ceil_div_spec.
Qed.
End Partitioner.

(** ** Nested field extraction *)

Lemma nested_step_total (data : pyval) (k : string) :
  exists r, nested_step data k = Ret r.
Proof.
  destruct data as [| | | |[|x xs]|d]; simpl; eauto.
  - destruct x; simpl; eauto. destruct (py_is_none _); eauto.
  - destruct (py_is_none _); eauto.
Qed.

Lemma nested_loop_total (keys : list string) (data : pyval) :
  exists v, nested_loop data keys = Ret v.
Proof.
  revert data. induction keys as [|k keys IH]; intros data; simpl; eauto.
  destruct (nested_step_total data k) as [[r|d] ->]; eauto.
Qed.

Lemma nested_loop_none_app (p q : list string) (data : pyval) :
  nested_loop data p = Ret VNone -> nested_loop data (p ++ q) = Ret VNone.
Proof.
  revert data. induction p as [|k p IH]; intros data; simpl.
  - intros [= ->]. by destruct q.
  - destruct (nested_step data k) as [[r|d]|e]; auto.
Qed.

Lemma split_dot_nonempty (s : string) : split_dot s <> [].
Proof.
  destruct s as [|c s]; simpl; [done|].
  destruct (Ascii.eqb c "."); [done|]. by destruct (split_dot s).
Qed.

Lemma split_dot_app (p q : string) :
  split_dot (p +:+ "." +:+ q) = split_dot p ++ split_dot q.
Proof.
  induction p as [|c p IH]; simpl; [done|].
  destruct (Ascii.eqb c "."); [by rewrite IH|].
  rewrite IH. destruct (split_dot p) eqn:Hp; [|done].
  by destruct (split_dot_nonempty p).
Qed.

Lemma nested_step_inl (data : pyval) (k : string) (r : pyval) :
  nested_step data k = Ret (inl r) -> r = VNone.
Proof.
  unfold nested_step. intros H. repeat case_match; by simplify_eq.
Qed.

(** The loop over the keys of [p ++ q] is the loop over [q], started from
    what the loop over [p] gives. *)
Lemma nested_loop_app (p q : list string) (data : pyval) :
  q <> [] ->
  nested_loop data (p ++ q)
  = match nested_loop data p with
    | Ret v => nested_loop v q
    | Exc e => Exc e
    end.
Proof.
  intros Hq. revert data. induction p as [|k p IH]; intros data; simpl; [done|].
  destruct (nested_step data k) as [[r|d]|e] eqn:Hstep; [|by apply IH|done].
  apply nested_step_inl in Hstep as ->. by destruct q.
Qed.

Lemma get_nested_value_app (data : pyval) (p q : string) :
  get_nested_value data (p +:+ "." +:+ q)
  = match get_nested_value data p with
    | Ret v => get_nested_value v q
    | Exc e => Exc e
    end.
Proof.
  unfold get_nested_value. rewrite split_dot_app.
  apply nested_loop_app, split_dot_nonempty.
Qed.

(** one key, without a dot, on a value that does not have it *)
Lemma get_nested_value_broken (v : pyval) (k : string) :
  split_dot k = [k] ->
  match v with
  | VDict d | VList (VDict d :: _) => dict_lookup k d = None
  | _ => True
  end ->
  get_nested_value v k = Ret VNone.
Proof.
  unfold get_nested_value. intros -> Hv. simpl.
  destruct v as [| | | |[|[] xs]|d]; simpl; try done; by rewrite Hv.
Qed.

Lemma get_nested_value_broken_none (q : string) :
  get_nested_value VNone q = Ret VNone.
Proof.
  unfold get_nested_value.
  destruct (split_dot q) as [|k ks] eqn:Hs; [by destruct (split_dot_nonempty q)|done].
Qed.

(** C10. [get_nested_value] returns a value for every record and every
    dot-notation key, it never raises. The value of [p.q] is the value of
    [q] in the value of [p]; a key without a dot gives the entry of a dict
    (or of the dict that heads a list). So the result is [None] as soon
    as, anywhere along the path, a key is missing from the dict reached or
    the value reached is neither a dict nor a list headed by a dict,
    whatever follows in the path; and once a prefix of the path gives
    [None] every longer path does. *)
Theorem get_nested_value_never_raises (data : pyval) (key : string) :
  (exists v, get_nested_value data key = Ret v)
  /\ (forall d rest, data = VDict d -> dict_lookup key d = None ->
        split_dot key = [key] ->
        get_nested_value data (key +:+ "." +:+ rest) = Ret VNone)
  /\ (forall rest,
        match data with
        | VDict _ | VList (VDict _ :: _) => False
        | _ => True
        end ->
        get_nested_value data (key +:+ "." +:+ rest) = Ret VNone)
  /\ (forall rest, get_nested_value data key = Ret VNone ->
        get_nested_value data (key +:+ "." +:+ rest) = Ret VNone)
  /\ (forall rest,
        get_nested_value data (key +:+ "." +:+ rest)
        = match get_nested_value data key with
          | Ret v => get_nested_value v rest
          | Exc e => Exc e
          end)
  /\ (forall d v, split_dot key = [key] ->
        (data = VDict d \/ exists xs, data = VList (VDict d :: xs)) ->
        dict_lookup key d = Some v ->
        get_nested_value data key = Ret v)
  /\ (forall v k,
        get_nested_value data key = Ret v ->
        split_dot k = [k] ->
        match v with
        | VDict d | VList (VDict d :: _) => dict_lookup k d = None
        | _ => True
        end ->
        get_nested_value data (key +:+ "." +:+ k) = Ret VNone
        /\ forall rest,
             get_nested_value data (key +:+ "." +:+ k +:+ "." +:+ rest) = Ret VNone).
Proof.
  repeat split.
  - apply nested_loop_total.
  - intros d rest -> Hk Hs. unfold get_nested_value.
    rewrite split_dot_app, Hs. simpl. by rewrite Hk.
  - intros rest Hd. unfold get_nested_value. rewrite split_dot_app.
    destruct (split_dot key) as [|k ks] eqn:Hs; [by destruct (split_dot_nonempty key)|].
    simpl. by destruct data as [| | | |[|[] xs]|d].
  - intros rest H. unfold get_nested_value in *. rewrite split_dot_app.
    by apply nested_loop_none_app.
  - intros rest. apply get_nested_value_app.
  - intros d v Hs Hdata Hv. unfold get_nested_value. rewrite Hs. simpl.
    destruct Hdata as [-> | [xs ->]]; simpl; rewrite Hv; by destruct v.
  - rewrite get_nested_value_app, H. by apply get_nested_value_broken.
  - intros rest.
    rewrite get_nested_value_app, H, get_nested_value_app.
    rewrite (get_nested_value_broken v k) by done.
    apply get_nested_value_broken_none.
Qed.

Lemma get_nested_value_never_raises_witness :
  get_nested_value (VDict [("lastKnownNetwork", VList [VDict [("ipAddress", VStr "10.0.0.2")]])])
    ("wanIpAddress" +:+ "." +:+ "octets") = Ret VNone
  /\ get_nested_value (VStr "serial") ("model" +:+ "." +:+ "name") = Ret VNone
  /\ get_nested_value (VDict [("lastKnownNetwork", VList [VDict [("ipAddress", VStr "10.0.0.2")]])])
       ("lastKnownNetwork.wanIpAddress" +:+ "." +:+ "octets") = Ret VNone
  /\ get_nested_value (VDict [("a", VDict [("x", VInt 1)])])
       ("a" +:+ "." +:+ "b" +:+ "." +:+ "c") = Ret VNone
  /\ get_nested_value (VDict [("a", VDict [("x", VInt 1)])]) ("a" +:+ "." +:+ "x")
     = Ret (VInt 1).
Proof.
  split; [|split; [|split; [|split]]].
  - eapply (proj1 (proj2 (get_nested_value_never_raises _ "wanIpAddress")));
      reflexivity.
  - apply (proj1 (proj2 (proj2 (get_nested_value_never_raises (VStr "serial") "model")))).
    exact I.
  - apply (proj1 (proj2 (proj2 (proj2
             (get_nested_value_never_raises _ "lastKnownNetwork.wanIpAddress"))))).
    reflexivity.
  - apply (proj2 (proj2 (proj2 (proj2 (proj2 (proj2
             (get_nested_value_never_raises (VDict [("a", VDict [("x", VInt 1)])]) "a"))))))
             (VDict [("x", VInt 1)]) "b" eq_refl eq_refl eq_refl).
  - rewrite (proj1 (proj2 (proj2 (proj2 (proj2
               (get_nested_value_never_raises (VDict [("a", VDict [("x", VInt 1)])]) "a")))))
               "x").
    reflexivity.
Defined.

(** ** The batch partitioner *)

(** C3. For a positive batch size [B], [batches B l] has exactly
    ceil(N/B) elements (the least [n] with [N <= n * B]), the [k]-th of
    which is the slice [l[k*B : k*B + B]], so they are contiguous and do
    not overlap; none is empty or longer than [B]; concatenated in order
    they give [l] back; the empty input gives no batch. *)
Theorem batches_partition {A : Type} (B : nat) (l : list A) :
  0 < B ->
  let n := (length l + B - 1) / B in
  length (batches B l) = n
  /\ (length l <= n * B /\ forall m, length l <= m * B -> n <= m)
  /\ (forall k, k < n -> batches B l !! k = Some (take B (drop (k * B) l)))
  /\ Forall (fun b => 0 < length b <= B) (batches B l)
  /\ concat (batches B l) = l
  /\ batches B (@nil A) = [].
Proof.
  intros HB n.
  assert (Hceil : length l <= n * B /\ forall m, length l <= m * B -> n <= m)
    by (by apply ceil_div_spec).
  rewrite batches_spec by done. fold n.
  split; [by rewrite length_map, length_seq|].
  split; [done|].
  split.
  { intros k Hk. rewrite list_lookup_fmap, lookup_seq_lt by done. done. }
  split.
  { apply Forall_forall. intros b Hb. apply list_elem_of_fmap in Hb as (k & -> & Hk).
    apply elem_of_seq in Hk. rewrite length_take, length_drop.
    destruct Hceil as [_ Hmin]. split; [|lia].
    destruct (decide (length l <= k * B)) as [Hle|]; [|lia].
    apply Hmin in Hle. lia. }
  split; [apply concat_chunks; tauto|].
  reflexivity.
Qed.

Lemma batches_partition_witness :
  length (batches MAX_BATCH_SIZE (seq 0 60)) = 2
  /\ concat (batches MAX_BATCH_SIZE (seq 0 60)) = seq 0 60.
Proof.
  pose proof (batches_partition MAX_BATCH_SIZE (seq 0 60)) as H.
  split.
  - apply H. unfold MAX_BATCH_SIZE. lia.
  - apply H. unfold MAX_BATCH_SIZE. lia.
Defined.

(** ** Reboot validation *)

(** C9. A delay below 0 or above 300 makes [reboot_devices] raise the
    validation error at once: the world is left as it was, so no service
    was built, no device looked up, no batch formed and no network call
    issued. *)
Theorem reboot_rejects_delay_out_of_range (E : environment)
    (devices : devices_arg) (identifier_type : string) (z : Z) (w : world) :
  (z < 0 \/ 300 < z)%Z ->
  reboot_devices E devices identifier_type (VInt z) w
  = (Exc (mk_exc ValueError
            "user_session_delay_seconds must be an integer between 0 and 300."),
     w).
Proof.
  intros Hz. unfold reboot_devices.
  assert (valid_delay (VInt z) = false) as ->; [|reflexivity].
  simpl. apply andb_false_iff. rewrite !Z.leb_gt. lia.
Qed.

Lemma reboot_rejects_delay_out_of_range_witness :
  reboot_devices fleet (DeviceList [VStr "A1"; VStr "A2"]) "annotatedAssetId"
    (VInt 301) w0
  = (Exc (mk_exc ValueError
            "user_session_delay_seconds must be an integer between 0 and 300."),
     w0).
Proof.
  apply (reboot_rejects_delay_out_of_range fleet _ _ 301 w0). right. lia.
Defined.

(** ** The request executor of the Aeries client *)

Module AeriesFacts.
Import Aeries.

(** C4, as stated, fails: an exception that is no [RequestException]
    goes through the only [except] clause of [_make_request]. *)
Lemma make_request_lets_exception_escape :
  ~ (forall o : attempt response, exists r, fst (_make_request o) = Returned r).
Proof.
  intros H. destruct (H (Raised (mk_req_exc UnrelatedError "boom"))) as [r Hr].
  discriminate Hr.
Qed.

(** C4, amended. What [_make_request] does, case by case and without a
    case left out: a response with status 200 becomes a success with the
    parsed body, or with the raw text when [response.json()] raises a
    [ValueError]; status 404 and every other status become the two
    failures of the specification; an exception of class
    [RequestException], raised by the request or by [response.json()]
    (when it is no [ValueError]), becomes the network error, with a line in
    the log; an exception of any other class, raised by the request or by
    [response.json()], is not caught. *)
Theorem make_request_mapping :
  (forall resp d, resp_status_code resp = 200%Z -> resp_json resp = Returned d ->
     _make_request (Returned resp)
     = (Returned (mk_AeriesResponse true d (Some 200%Z)
                    (Some "Request successful") None), []))
  /\ (forall resp e, resp_status_code resp = 200%Z -> resp_json resp = Raised e ->
        is_ValueError (req_cls e) = true ->
        _make_request (Returned resp)
        = (Returned (mk_AeriesResponse true (VStr (resp_text resp)) (Some 200%Z)
                       (Some "Request successful (non-JSON response)") None), []))
  /\ (forall resp e, resp_status_code resp = 200%Z -> resp_json resp = Raised e ->
        is_ValueError (req_cls e) = false ->
        is_RequestException (req_cls e) = true ->
        _make_request (Returned resp)
        = (Returned (mk_AeriesResponse false VNone None
                       (Some "Network error occurred") (Some (req_msg e))),
           ["Request exception: " +:+ req_msg e]))
  /\ (forall resp e, resp_status_code resp = 200%Z -> resp_json resp = Raised e ->
        is_ValueError (req_cls e) = false ->
        is_RequestException (req_cls e) = false ->
        _make_request (Returned resp) = (Raised e, []))
  /\ (forall resp, resp_status_code resp = 404%Z ->
        _make_request (Returned resp)
        = (Returned (mk_AeriesResponse false VNone (Some 404%Z)
                       (Some "Resource not found") (Some "404 Not Found")), []))
  /\ (forall resp, resp_status_code resp <> 200%Z -> resp_status_code resp <> 404%Z ->
        _make_request (Returned resp)
        = (Returned (mk_AeriesResponse false VNone (Some (resp_status_code resp))
                       (Some ("Request failed with status "
                                +:+ pretty (resp_status_code resp)))
                       (Some (resp_text resp))), []))
  /\ (forall e, is_RequestException (req_cls e) = true ->
        _make_request (Raised e)
        = (Returned (mk_AeriesResponse false VNone None
                       (Some "Network error occurred") (Some (req_msg e))),
           ["Request exception: " +:+ req_msg e]))
  /\ (forall e, is_RequestException (req_cls e) = false ->
        _make_request (Raised e) = (Raised e, [])).
Proof.
  unfold _make_request, handle_response. repeat split.
  - intros resp d -> ->. reflexivity.
  - intros resp e -> -> ->. reflexivity.
  - intros resp e -> -> -> Hreq. simpl. by rewrite Hreq.
  - intros resp e -> -> -> Hreq. simpl. by rewrite Hreq.
  - intros resp ->. reflexivity.
  - intros resp H200 H404.
    destruct (Z.eqb_spec (resp_status_code resp) 200); [done|].
    destruct (Z.eqb_spec (resp_status_code resp) 404); [done|]. reflexivity.
  - intros e ->. reflexivity.
  - intros e ->. reflexivity.
Qed.

Lemma make_request_mapping_witness :
  _make_request (Returned (mk_response 404 "gone" (Raised (mk_req_exc JSONDecodeError "no json"))))
  = (Returned (mk_AeriesResponse false VNone (Some 404%Z)
                 (Some "Resource not found") (Some "404 Not Found")), [])
  /\ _make_request (Raised (mk_req_exc TransportError "timed out"))
     = (Returned (mk_AeriesResponse false VNone None
                    (Some "Network error occurred") (Some "timed out")),
        ["Request exception: timed out"]).
Proof.
  split.
  - apply (proj1 (proj2 (proj2 (proj2 (proj2 make_request_mapping))))). reflexivity.
  - apply (proj1 (proj2 (proj2 (proj2 (proj2 (proj2 (proj2 make_request_mapping))))))
             (mk_req_exc TransportError "timed out")).
    reflexivity.
Defined.
End AeriesFacts.

(** ** Device lookup and its cache *)

Ltac run_monad :=
  unfold bind, try_except, ret, raise, lift, log, sleep, emit, execute,
    cache_lookup, cache_store; simpl.

Lemma valid_identifier_type (identifier_type : string) :
  identifier_type = "annotatedAssetId" \/ identifier_type = "serialNumber" ->
  negb (String.eqb identifier_type "annotatedAssetId"
        || String.eqb identifier_type "serialNumber") = false.
Proof. by intros [-> | ->]. Qed.

(** On a cache hit nothing is done: the world is unchanged, and the cached
    projection (or its first value, for one requested field) comes back. *)
Lemma find_device_cache_hit (E : environment) (identifier : pyval)
    (identifier_type : string) (args : list string) (include_null : bool)
    (w : world) (result : dict) :
  identifier_type = "annotatedAssetId" \/ identifier_type = "serialNumber" ->
  device_cache w !! cache_key E identifier_type identifier = Some result ->
  find_device E identifier identifier_type args include_null w
  = (if Nat.eqb (length args) 1 then list_first (dict_values result)
     else Ret (VDict result), w).
Proof.
  intros Hty Hhit. unfold find_device.
  rewrite (valid_identifier_type _ Hty). run_monad. rewrite Hhit.
  by destruct (Nat.eqb (length args) 1).
Qed.

(** C7, the failing inputs. After [get_device_info] has cached the
    four-field projection of the device tagged [A1], asking for its
    [status] alone returns the device id, where the same request on an
    empty cache returns the status; and a request for one field that the
    device does not have returns [None] the first time and raises
    [IndexError] the second time. *)
Theorem find_device_hit_ignores_requested_field :
  fst (find_device fleet (VStr "A1") "annotatedAssetId" ["status"] false w0)
  = Ret (VStr "ACTIVE")
  /\ fst ((_ <- get_device_info fleet [VStr "A1"] "annotatedAssetId" ;;
           find_device fleet (VStr "A1") "annotatedAssetId" ["status"] false) w0)
     = Ret (VStr "id-A1")
  /\ fst (find_device fleet (VStr "A1") "annotatedAssetId" ["notes"] false w0)
     = Ret VNone
  /\ fst ((_ <- find_device fleet (VStr "A1") "annotatedAssetId" ["notes"] false ;;
           find_device fleet (VStr "A1") "annotatedAssetId" ["notes"] false) w0)
     = Exc (mk_exc IndexError "list index out of range").
Proof. repeat split; vm_compute; reflexivity. Qed.

(** C8, as stated, fails: a query without a match and a query that the
    remote service does not answer give the same value, [None]. *)
Lemma not_found_same_as_error :
  remote fleet [Net Build] (ListDevices "asset_id:ghost" default_fields)
  = Ret (VDict [])
  /\ remote down [Net Build] (ListDevices "asset_id:ghost" default_fields)
     = Exc (mk_exc OtherException "connection reset")
  /\ fst (find_device fleet (VStr "ghost") "annotatedAssetId" [] false w0)
     = fst (find_device down (VStr "ghost") "annotatedAssetId" [] false w0).
Proof. repeat split; vm_compute; reflexivity. Qed.

(** C8, amended. On a cache miss, [find_device] returns [None] when the
    remote query yields no match, and then nothing is logged; it returns
    the same [None] when the query or the building of the service raises,
    and then two error lines are logged, which name the exception (after
    the line of [load_service], when the credentials were refused while
    the service was built). The cache is left as it was in all three
    cases. *)
Theorem find_device_none_on_no_match_and_on_error (E : environment)
    (identifier : pyval) (identifier_type : string) (args : list string)
    (include_null : bool) (w : world) :
  identifier_type = "annotatedAssetId" \/ identifier_type = "serialNumber" ->
  device_cache w !! cache_key E identifier_type identifier = None ->
  let query := ListDevices (device_query E identifier_type identifier) (fields_of args) in
  let error_lines e :=
    if exc_class_eqb (exc_cls e) RefreshError
    then [Log ERROR ("Failed to refresh credentials: " +:+ exc_msg e);
          Log ERROR "Please check your ADMIN email in the configuration."]
    else [Log ERROR ("An error occurred: " +:+ exc_msg e);
          Log ERROR "Exception details:"] in
  (forall built d,
     remote E (events w) Build = Ret built ->
     remote E (events w ++ [Net Build]) query = Ret (VDict d) ->
     py_truthy (default (VList []) (dict_lookup "chromeosdevices" d)) = false ->
     find_device E identifier identifier_type args include_null w
     = (Ret VNone, mk_world ((events w ++ [Net Build]) ++ [Net query]) (device_cache w)))
  /\ (forall built e,
        remote E (events w) Build = Ret built ->
        remote E (events w ++ [Net Build]) query = Exc e ->
        find_device E identifier identifier_type args include_null w
        = (Ret VNone,
           mk_world (events w ++ [Net Build; Net query] ++ error_lines e)
             (device_cache w)))
  /\ (forall e,
        remote E (events w) Build = Exc e ->
        find_device E identifier identifier_type args include_null w
        = (Ret VNone,
           mk_world (events w ++ [Net Build]
                       ++ (if exc_class_eqb (exc_cls e) RefreshError
                           then [Log ERROR ("Failed to refresh credentials: "
                                              +:+ exc_msg e)]
                           else [])
                       ++ error_lines e)
             (device_cache w))).
Proof.
  intros Hty Hmiss query error_lines. unfold find_device.
  rewrite (valid_identifier_type _ Hty). subst query error_lines.
  repeat split.
  - intros built d Hb Hq Hnone. unfold load_service. run_monad.
    rewrite Hmiss, Hb. simpl. rewrite Hq. simpl. rewrite Hnone. reflexivity.
  - intros built e Hb Hq. unfold load_service. run_monad.
    rewrite Hmiss, Hb. simpl. rewrite Hq. simpl.
    destruct (exc_class_eqb (exc_cls e) RefreshError); simpl;
      by rewrite <- !app_assoc.
  - intros e Hb. unfold load_service. run_monad.
    rewrite Hmiss, Hb. simpl.
    destruct (exc_class_eqb (exc_cls e) RefreshError) eqn:Hc; simpl;
      rewrite Hc; simpl; by rewrite <- !app_assoc.
Qed.

Lemma find_device_none_on_no_match_and_on_error_witness :
  find_device fleet (VStr "ghost") "annotatedAssetId" [] false w0
  = (Ret VNone,
     mk_world [Net Build; Net (ListDevices "asset_id:ghost" default_fields)] ∅)
  /\ find_device down (VStr "ghost") "serialNumber" ["status"] false w0
     = (Ret VNone,
        mk_world [Net Build; Net (ListDevices "id:ghost" ["status"]);
                  Log ERROR "An error occurred: connection reset";
                  Log ERROR "Exception details:"] ∅).
Proof.
  split.
  - eapply (proj1 (find_device_none_on_no_match_and_on_error fleet (VStr "ghost")
                     "annotatedAssetId" [] false w0 (or_introl eq_refl) eq_refl));
      reflexivity.
  - apply (proj1 (proj2 (find_device_none_on_no_match_and_on_error down
                     (VStr "ghost") "serialNumber" ["status"] false w0
                     (or_intror eq_refl) eq_refl))
             VNone (mk_exc OtherException "connection reset") eq_refl eq_refl).
Defined.

(** ** Moving a batch *)

Lemma omapM_Forall2 {A B} (f : A -> outcome B) (l : list A) (ys : list B) :
  omapM f l = Ret ys <-> Forall2 (fun x y => f x = Ret y) l ys.
Proof.
  revert ys. induction l as [|x l IH]; intros ys; simpl.
  - split; [intros [= <-]; constructor|by inversion 1].
  - split.
    + destruct (f x) as [y|e] eqn:Hx; [|done].
      destruct (omapM f l) as [ys'|e] eqn:Hl; [|done].
      intros [= <-]. constructor; [done|by apply IH].
    + inversion 1 as [|? y ? ys' Hy Hys]; subst.
      apply IH in Hys. by rewrite Hy, Hys.
Qed.

Lemma omapM_length {A B} (f : A -> outcome B) (l : list A) (ys : list B) :
  omapM f l = Ret ys -> length ys = length l.
Proof. intros H%omapM_Forall2. symmetry. by eapply Forall2_length. Qed.

Lemma omapM_lookup {A B} (f : A -> outcome B) (l : list A) (ys : list B) i x :
  omapM f l = Ret ys -> l !! i = Some x ->
  exists y, f x = Ret y /\ ys !! i = Some y.
Proof.
  intros H%omapM_Forall2 Hi.
  destruct (Forall2_lookup_l _ _ _ _ _ H Hi) as (y & Hy & Hf). eauto.
Qed.

Lemma retry_target_first_success {A} (budget : nat) (target : M A) w a w' :
  target w = (Ret a, w') -> retry_target budget target w = (Ret a, w').
Proof. intros H. destruct budget; simpl; unfold try_except; by rewrite H. Qed.

Lemma moved_record_inv (target_ou : string) (d r : dict) :
  moved_record target_ou d = Ret r ->
  exists deviceId assetId,
    dict_lookup "deviceId" d = Some deviceId
    /\ dict_lookup "annotatedAssetId" d = Some assetId
    /\ r = [("deviceId", deviceId); ("annotatedAssetId", assetId);
            ("newOrgUnit", VStr target_ou)].
Proof.
  unfold moved_record, dict_subscript, py_subscript.
  destruct (dict_lookup "deviceId" d); [|done].
  destruct (dict_lookup "annotatedAssetId" d); [|done].
  intros [= <-]. eauto.
Qed.

Lemma move_log_lines (E : environment) (target_ou : string) (batch : list dict) w :
  Forall (fun d => is_Some (dict_lookup "annotatedAssetId" d)) batch ->
  for_each batch (move_log_line E target_ou) w
  = (Ret tt, mk_world (events w ++ map (move_log_event E target_ou) batch)
               (device_cache w)).
Proof.
  intros H. revert w. induction H as [|d batch [a Ha] _ IH]; intros w; simpl.
  - rewrite app_nil_r. by destruct w.
  - unfold move_log_line at 1, dict_subscript, py_subscript. run_monad.
    rewrite Ha. simpl. rewrite IH. simpl.
    unfold move_log_event at 2. rewrite Ha. simpl. by rewrite <- app_assoc.
Qed.

(** C5, as stated, fails: the device tagged [A1] is in
    [/Chromebooks/Repair] already, and moving it to [Repair] names its
    device id in the body of the one mutating request. *)
Lemma move_request_names_device_already_in_target :
  fst (get_device_info fleet [VStr "A1"] "annotatedAssetId" w0)
  = Ret [[("deviceId", VStr "id-A1"); ("annotatedAssetId", VStr "A1");
          ("orgUnitPath", VStr ("/" +:+ normalize_target_ou "Repair"));
          ("status", VStr "ACTIVE")]]
  /\ List.filter mutating
       (net_calls (events (snd (move_devices_to_ou fleet (DeviceList [VStr "A1"])
                                  "Repair" "annotatedAssetId" w0))))
     = [MoveDevicesToOu "Chromebooks/Repair" [VStr "id-A1"]]
  /\ last (events (snd (move_devices_to_ou fleet (DeviceList [VStr "A1"])
                          "Repair" "annotatedAssetId" w0)))
     = Some (Log INFO "move:[/Chromebooks/Repair]:exists:A1").
Proof. repeat split; vm_compute; reflexivity. Qed.

(** The amended statement is proved further down, with the requests of a
    move. *)

(** ** The retry wrapper *)

(** What [process_batch] does with an operation, attempt by attempt: the
    operation is run at most [MAX_RETRIES = 3] times, a failed attempt
    that is not the last is followed by a sleep of [RETRY_DELAY = 1] and
    the next attempt, the first success is returned as it is, and after
    three failures the failure records are built from the last exception. *)
Lemma process_batch_loop_retry (operation : M report) (batch : list dict) (w : world) :
  let run := process_batch_loop operation (seq 0 MAX_RETRIES) batch in
  (forall r w1, operation w = (Ret r, w1) -> run w = (Ret (Some r), w1))
  /\ (forall e0 w1 r w2,
        operation w = (Exc e0, w1) ->
        operation (after_pause e0 1 w1) = (Ret r, w2) ->
        run w = (Ret (Some r), w2))
  /\ (forall e0 w1 e1 w2 r w3,
        operation w = (Exc e0, w1) ->
        operation (after_pause e0 1 w1) = (Exc e1, w2) ->
        operation (after_pause e1 2 w2) = (Ret r, w3) ->
        run w = (Ret (Some r), w3))
  /\ (forall e0 w1 e1 w2 e2 w3,
        operation w = (Exc e0, w1) ->
        operation (after_pause e0 1 w1) = (Exc e1, w2) ->
        operation (after_pause e1 2 w2) = (Exc e2, w3) ->
        run w
        = (match omapM (failed_record (exc_msg e2)) batch with
           | Ret failure => Ret (Some [("failure", map VDict failure)])
           | Exc e => Exc e
           end, after_giving_up e2 w3)).
Proof.
  simpl. repeat split.
  - intros r w1 H0. run_monad. by rewrite H0.
  - intros e0 w1 r w2 H0 H1. run_monad. rewrite H0. simpl.
    unfold after_pause in H1. simpl in H1. by rewrite H1.
  - intros e0 w1 e1 w2 r w3 H0 H1 H2. run_monad. rewrite H0. simpl.
    unfold after_pause in H1, H2. simpl in H1, H2. rewrite H1. simpl. by rewrite H2.
  - intros e0 w1 e1 w2 e2 w3 H0 H1 H2. run_monad. rewrite H0. simpl.
    unfold after_pause in H1, H2. simpl in H1, H2. rewrite H1. simpl. rewrite H2.
    simpl. unfold after_giving_up. by destruct (omapM _ batch).
Qed.

(** C2, the failing input. [move_devices_to_ou] with
    [identifier_type='deviceId'] makes batches of records that have a
    [deviceId] only. For such a batch [process_batch] issues the move three
    times, one second apart, and then raises [KeyError] while it builds the
    failure records, whether the remote service refuses the move or
    accepts it; the exception leaves [move_devices_to_ou] as well. *)
Theorem process_batch_raises_for_device_id_batch :
  resolve_devices down [VStr "A1"] "deviceId" w0 = (Ret [[("deviceId", VStr "A1")]], w0)
  /\ fst (process_batch down [[("deviceId", VStr "A1")]] "Chromebooks/Repair" w0)
     = Exc (mk_exc KeyError "'annotatedAssetId'")
  /\ fst (process_batch fleet [[("deviceId", VStr "A1")]] "Chromebooks/Repair" w0)
     = Exc (mk_exc KeyError "'annotatedAssetId'")
  /\ List.filter (fun ev => match ev with Log _ _ => false | _ => true end)
       (events (snd (process_batch down [[("deviceId", VStr "A1")]]
                       "Chromebooks/Repair" w0)))
     = [Net (MoveDevicesToOu "Chromebooks/Repair" [VStr "A1"]); Sleep 1;
        Net (MoveDevicesToOu "Chromebooks/Repair" [VStr "A1"]); Sleep 1;
        Net (MoveDevicesToOu "Chromebooks/Repair" [VStr "A1"])]
  /\ fst (move_devices_to_ou down (DeviceList [VStr "A1"]) "Repair" "deviceId" w0)
     = Exc (mk_exc KeyError "'annotatedAssetId'").
Proof. repeat split; vm_compute; reflexivity. Qed.

(** ** Deprovisioning in two phases *)


(** The amended statement is proved further down, once the futures of
    phase one are characterised. *)

(** Inversion of the monadic combinators, for runs that return. *)

Lemma bind_ret_inv {A B} (m : M A) (k : A -> M B) w b w' :
  bind m k w = (Ret b, w') ->
  exists a w1, m w = (Ret a, w1) /\ k a w1 = (Ret b, w').
Proof. unfold bind. destruct (m w) as [[a|e] w1]; [eauto|done]. Qed.

Lemma try_except_ret_inv {A} (m : M A) (h : exc -> M A) w a w' :
  try_except m h w = (Ret a, w') ->
  m w = (Ret a, w') \/ exists e w1, m w = (Exc e, w1) /\ h e w1 = (Ret a, w').
Proof. unfold try_except. destruct (m w) as [[a'|e] w1]; eauto. Qed.

Lemma lift_ret_inv {A} (o : outcome A) w a w' :
  lift o w = (Ret a, w') -> o = Ret a /\ w' = w.
Proof. unfold lift. by intros [= -> ->]. Qed.

Lemma ret_inv {A} (x : A) w a w' : ret x w = (Ret a, w') -> a = x /\ w' = w.
Proof. unfold ret. by intros [= -> ->]. Qed.

Ltac inv_run :=
  repeat match goal with
    | H : bind _ _ _ = (Ret _, _) |- _ =>
        apply bind_ret_inv in H as (? & ? & ? & H)
    | H : lift _ _ = (Ret _, _) |- _ => apply lift_ret_inv in H as [? ?]; subst
    | H : ret _ _ = (Ret _, _) |- _ => apply ret_inv in H as [? ?]; subst
    | H : raise _ _ = (Ret _, _) |- _ => discriminate H
    | H : (Exc _, _) = (Ret _, _) |- _ => discriminate H
    | H : Ret _ = Ret _ |- _ => injection H as H; subst
    | H : Some _ = Some _ |- _ => injection H as H; subst
    | H : Some _ = None |- _ => discriminate H
    | H : None = Some _ |- _ => discriminate H
    end.

(** ** What a report accounts for *)

Arguments find_device : simpl never.
Arguments load_service : simpl never.
Arguments move_batch : simpl never.

Lemma bind_exc_inv {A B} (m : M A) (k : A -> M B) w e w' :
  bind m k w = (Exc e, w') ->
  m w = (Exc e, w') \/ exists a w1, m w = (Ret a, w1) /\ k a w1 = (Exc e, w').
Proof.
  unfold bind. destruct (m w) as [[a|e'] w1]; intros H.
  - right. exists a, w1. split; [reflexivity|exact H].
  - left. by injection H as -> ->.
Qed.

Lemma get_device_info_loop_length (E : environment) (devices : list pyval)
    (identifier_type : string) (acc infos : list dict) w w' :
  get_device_info_loop E devices identifier_type acc w = (Ret infos, w') ->
  length infos <= length acc + length devices.
Proof.
  revert acc w. induction devices as [|device rest IH]; intros acc w H; simpl in H.
  - inv_run. lia.
  - inv_run. destruct (py_truthy _).
    + inv_run. apply IH in H. rewrite length_app in H. simpl in *. lia.
    + inv_run. apply IH in H. simpl. lia.
Qed.

Lemma resolve_devices_length (E : environment) (devices : list pyval)
    (identifier_type : string) (infos : list dict) w w' :
  resolve_devices E devices identifier_type w = (Ret infos, w') ->
  length infos <= length devices.
Proof.
  unfold resolve_devices. destruct (String.eqb identifier_type "deviceId").
  - intros H. inv_run. by rewrite length_map.
  - intros H. by apply get_device_info_loop_length in H.
Qed.

(** The futures of a pool: one for each task, in submission order, each
    holding what its task did in some world. *)
Lemma submit_all_spec {A B} (f : A -> M B) (xs : list A) w :
  map fst (submit_all f xs w).1 = xs
  /\ Forall (fun fut => exists wi wi', f (fst fut) wi = (snd fut, wi'))
       (submit_all f xs w).1.
Proof.
  revert w. induction xs as [|x xs IH]; intros w; simpl; [by split|].
  destruct (f x w) as [o w1] eqn:Hx.
  specialize (IH w1). destruct (submit_all f xs w1) as [futs w2]. simpl in *.
  destruct IH as [-> Hall]. split; [done|]. constructor; [|done]. simpl. eauto.
Qed.

Lemma thread_pool_spec {A B} (E : environment) (f : A -> M B) (xs : list A)
    w futs w' :
  fair E ->
  thread_pool E f xs w = (Ret futs, w') ->
  map fst futs ≡ₚ xs
  /\ Forall (fun fut => exists wi wi', f (fst fut) wi = (snd fut, wi')) futs.
Proof.
  intros Hfair. unfold thread_pool.
  destruct (submit_all_spec f xs w) as [Hfst Hall].
  destruct (submit_all f xs w) as [futs0 w1]. simpl in *.
  intros [= <- <-]. split.
  - by rewrite (Hfair _ futs0), Hfst.
  - by rewrite (Hfair _ futs0).
Qed.

Lemma retry_target_ret {A} (budget : nat) (target : M A) w a w' :
  retry_target budget target w = (Ret a, w') ->
  exists w1, target w1 = (Ret a, w').
Proof.
  revert w. induction budget as [|budget IH]; intros w H; simpl in H;
    apply try_except_ret_inv in H as [H|(e & w1 & _ & H)]; eauto.
  - discriminate H.
  - inv_run. eauto.
Qed.

Lemma move_batch_body_ret (E : environment) (batch : list dict)
    (target_ou : string) w r w' :
  move_batch_body E batch target_ou w = (Ret r, w') ->
  exists moved,
    omapM (moved_record target_ou) batch = Ret moved
    /\ r = [("success", map VDict moved)].
Proof. unfold move_batch_body. intros H. inv_run. eauto. Qed.

Lemma failed_record_inv (reason : string) (d r : dict) :
  failed_record reason d = Ret r ->
  dict_lookup "deviceId" r = dict_lookup "deviceId" d.
Proof.
  unfold failed_record, dict_subscript, py_subscript.
  destruct (dict_lookup "deviceId" d); [|done].
  destruct (dict_lookup "annotatedAssetId" d); [|done].
  by intros [= <-].
Qed.

Lemma record_ids_of {A} (f : A -> outcome dict) (key : A -> option pyval)
    (xs : list A) (recs : list dict) :
  (forall x r, f x = Ret r -> dict_lookup "deviceId" r = key x) ->
  omapM f xs = Ret recs ->
  map record_device_id (map VDict recs) = map key xs.
Proof.
  intros Hkey H%omapM_Forall2.
  induction H as [|x r xs recs Hx _ IH]; simpl; [done|].
  by rewrite IH, (Hkey _ _ Hx).
Qed.

(** What [process_batch] returns, when it returns: the records of the
    operation's result, or one failure record for each device. *)
Lemma process_batch_loop_ret (operation : M report) (attempts : list nat)
    (batch : list dict) w out w' :
  last attempts = Some (MAX_RETRIES - 1) ->
  process_batch_loop operation attempts batch w = (Ret out, w') ->
  (exists r w1 w2, operation w1 = (Ret r, w2) /\ out = Some r)
  \/ (exists reason failure,
        omapM (failed_record reason) batch = Ret failure
        /\ out = Some [("failure", map VDict failure)]).
Proof.
  revert w. induction attempts as [|attempt rest IH]; intros w Hlast H; [done|].
  simpl in H. apply try_except_ret_inv in H as [H|(e & w1 & _ & H)].
  - inv_run. left. eauto.
  - change (MAX_RETRIES - 1) with 2 in *.
    destruct (Nat.eqb_spec attempt 2) as [->|Hne].
    + inv_run. right. eauto.
    + inv_run. eapply IH; [|done].
      destruct rest; [simpl in Hlast; congruence|done].
Qed.

Lemma process_batch_ret (E : environment) (batch : list dict)
    (target_ou : string) w out w' :
  process_batch E batch target_ou w = (Ret out, w') ->
  exists k records,
    out = Some [(k, records)]
    /\ (k = "success" \/ k = "failure")
    /\ map record_device_id records = map (dict_lookup "deviceId") batch.
Proof.
  intros H. apply process_batch_loop_ret in H; [|done].
  destruct H as [(r & w1 & w2 & Hop & ->)|(reason & failure & Hf & ->)].
  - apply retry_target_ret in Hop as [w3 Hop].
    apply move_batch_body_ret in Hop as (moved & Hm & ->).
    exists "success", (map VDict moved). split; [done|]. split; [by left|].
    eapply record_ids_of; [|done].
    intros d r (? & ? & -> & _ & ->)%moved_record_inv. done.
  - exists "failure", (map VDict failure). split; [done|]. split; [by right|].
    eapply record_ids_of; [|done]. intros d r. apply failed_record_inv.
Qed.

(** The merge loop keeps every record of every batch result. *)
Lemma merge_batch_results_spec (futures : list (list dict * outcome (option report)))
    (s0 f0 : list pyval) w r w' :
  merge_batch_results futures [("success", s0); ("failure", f0)] w = (Ret r, w') ->
  exists batch_results,
    Forall2 (fun fut br => snd fut = Ret (Some br)) futures batch_results
    /\ r = [("success",
             s0 ++ concat (map (fun br => default [] (report_get "success" br))
                             batch_results));
            ("failure",
             f0 ++ concat (map (fun br => default [] (report_get "failure" br))
                             batch_results))].
Proof.
  revert s0 f0 w. induction futures as [|[batch fut] futures IH]; intros s0 f0 w H.
  - simpl in H. inv_run. exists []. split; [constructor|]. simpl.
    by rewrite !app_nil_r.
  - simpl in H. inv_run. destruct x as [br|]; [|discriminate H]. inv_run.
    destruct (report_get "success" br) as [xs|] eqn:Hs;
      destruct (report_get "failure" br) as [ys|] eqn:Hf;
      unfold report_extend in *; simpl in *; inv_run; simpl in *; inv_run;
      apply IH in H as (brs & Hall & ->);
      exists (br :: brs); (split; [by constructor|]); simpl;
      rewrite Hs, Hf; simpl; by rewrite <- ?app_assoc.
Qed.

Lemma concat_perm {A} (l1 l2 : list (list A)) :
  l1 ≡ₚ l2 -> concat l1 ≡ₚ concat l2.
Proof.
  induction 1 as [|x l1 l2 _ IH|x y l|l1 l2 l3 _ IH1 _ IH2]; simpl.
  - done.
  - by rewrite IH.
  - rewrite !app_assoc. f_equiv. apply Permutation_app_comm.
  - by etrans.
Qed.

Lemma concat_app_perm {A B} (f g : A -> list B) (l : list A) :
  concat (map f l) ++ concat (map g l) ≡ₚ concat (map (fun x => f x ++ g x) l).
Proof.
  induction l as [|x l IH]; simpl; [done|].
  rewrite <- IH, <- !app_assoc. f_equiv.
  rewrite !app_assoc. f_equiv. apply Permutation_app_comm.
Qed.

Lemma concat_Forall2_perm {A B C} (R : A -> B -> Prop) (f : A -> list C)
    (g : B -> list C) (l1 : list A) (l2 : list B) :
  (forall x y, R x y -> f x ≡ₚ g y) ->
  Forall2 R l1 l2 ->
  concat (map f l1) ≡ₚ concat (map g l2).
Proof.
  intros HR. induction 1 as [|x y l1 l2 Hxy _ IH]; simpl; [done|].
  by rewrite IH, (HR _ _ Hxy).
Qed.

Lemma Forall2_and_l {A B} (P : A -> Prop) (R : A -> B -> Prop) l1 l2 :
  Forall P l1 -> Forall2 R l1 l2 -> Forall2 (fun x y => P x /\ R x y) l1 l2.
Proof.
  intros HP H. induction H as [|x y l1 l2 Hxy _ IH]; [constructor|].
  apply Forall_cons in HP as [Hx HP]. constructor; auto.
Qed.

(** The scaffold shared by [move_devices_to_ou] and [reboot_devices]: when
    each batch result accounts for the devices of its batch, the merged
    report accounts for all the resolved devices. *)
Lemma pooled_batches_account (E : environment)
    (task : list dict -> M (option report)) (infos : list dict)
    w futs w1 r w' :
  fair E ->
  (forall batch wi out wi',
     task batch wi = (Ret out, wi') ->
     exists br, out = Some br
                /\ map record_device_id (reported ["success"; "failure"] br)
                   ≡ₚ map (dict_lookup "deviceId") batch) ->
  thread_pool E task (batches MAX_BATCH_SIZE infos) w = (Ret futs, w1) ->
  merge_batch_results futs [("success", []); ("failure", [])] w1 = (Ret r, w') ->
  map record_device_id (reported ["success"; "failure"] r)
  ≡ₚ map (dict_lookup "deviceId") infos.
Proof.
  intros Hfair Htask Hpool Hmerge.
  apply (thread_pool_spec E) in Hpool as [Hfst Hran]; [|done].
  apply merge_batch_results_spec in Hmerge as (brs & Hall & ->).
  unfold reported at 1. simpl. rewrite app_nil_r.
  rewrite concat_app_perm.
  assert (Hcat : concat (map fst futs) ≡ₚ infos).
  { rewrite (concat_perm _ _ Hfst), batches_concat; [done|].
    unfold MAX_BATCH_SIZE. lia. }
  rewrite <- Hcat.
  rewrite !concat_map, !map_map.
  symmetry. eapply concat_Forall2_perm; [|apply (Forall2_and_l _ _ _ _ Hran Hall)].
  intros [batch fut] br [(wi & wi' & Hrun) Hfut]. simpl in *. subst fut.
  apply Htask in Hrun as (br' & [= <-] & Hperm).
  rewrite <- Hperm. unfold reported. simpl. by rewrite app_nil_r.
Qed.

Lemma reboot_loop_ret (E : environment) (attempts : list nat) (d : dict)
    (deviceId delay : pyval) w out w' :
  last attempts = Some (MAX_RETRIES - 1) ->
  reboot_loop E attempts d deviceId delay w = (Ret out, w') ->
  exists record, out = Some record /\ dict_lookup "deviceId" record = Some deviceId.
Proof.
  change (MAX_RETRIES - 1) with 2.
  revert w. induction attempts as [|attempt rest IH]; intros w Hlast H; [done|].
  simpl in H. apply try_except_ret_inv in H as [H|(e & w1 & _ & H)].
  - inv_run. eauto.
  - destruct (exc_class_eqb (exc_cls e) RefreshError); [inv_run|].
    destruct (Nat.eqb_spec attempt 2) as [->|Hne]; [inv_run|].
    inv_run. eapply IH; [|done].
    destruct rest; [simpl in Hlast; congruence|done].
Qed.

Lemma process_reboot_device_ret (E : environment) (d : dict) (delay : pyval)
    w out w' :
  process_reboot_device E d delay w = (Ret out, w') ->
  record_device_id (py_of_record out) = dict_lookup "deviceId" d.
Proof.
  unfold process_reboot_device. intros H. inv_run.
  apply reboot_loop_ret in H as (record & -> & Hid); [|done]. simpl.
  unfold dict_subscript, py_subscript in H0.
  destruct (dict_lookup "deviceId" d); by simplify_eq.
Qed.

Lemma merge_reboot_results_spec (E : environment)
    (futs : list (dict * outcome (option dict))) (s0 f0 : list pyval) w r w' :
  Forall (fun fut => forall result, snd fut = Ret result ->
            record_device_id (py_of_record result)
            = dict_lookup "deviceId" (fst fut)) futs ->
  merge_reboot_results E futs [("success", s0); ("failure", f0)] w = (Ret r, w') ->
  exists s f,
    r = [("success", s0 ++ s); ("failure", f0 ++ f)]
    /\ map record_device_id (s ++ f) ≡ₚ map (fun fut => dict_lookup "deviceId" (fst fut)) futs.
Proof.
  revert s0 f0 w. induction futs as [|[d fut] futs IH]; intros s0 f0 w Hfuts H.
  - simpl in H. inv_run. exists [], []. by rewrite !app_nil_r.
  - apply Forall_cons in Hfuts as [Hfut Hfuts]. simpl in H, Hfut.
    apply bind_ret_inv in H as (res & w1 & Hstep & H).
    apply try_except_ret_inv in Hstep as [Hstep|(e & w2 & Hexc & Hstep)].
    + inv_run. unfold report_append, report_extend in *. simpl in *. inv_run.
      apply IH in H as (s & f & -> & Hperm); [|done].
      exists (py_of_record x :: s), f. rewrite <- app_assoc. split; [done|].
      simpl. by rewrite Hperm, (Hfut _ eq_refl).
    + apply bind_exc_inv in Hexc as [Hexc|(result & w3 & _ & Hexc)];
        [|by unfold report_append, report_extend, lift in Hexc].
      unfold lift in Hexc. injection Hexc as -> ->.
      inv_run. unfold report_append, report_extend in *. simpl in *. inv_run.
      apply IH in H as (s & f & -> & Hperm); [|done].
      exists s, (VDict [("deviceId", x);
                        ("annotatedAssetId",
                         default VNone (dict_lookup "annotatedAssetId" d));
                        ("reason", VStr (exc_msg e))] :: f).
      rewrite <- app_assoc. split; [done|].
      rewrite map_app. simpl. rewrite <- Permutation_middle, <- map_app, Hperm.
      unfold dict_subscript, py_subscript in *.
      destruct (dict_lookup "deviceId" d); by simplify_eq.
Qed.

Lemma process_reboot_batch_ret (E : environment) (batch : list dict)
    (delay : pyval) w br w' :
  fair E ->
  process_reboot_batch E batch delay w = (Ret br, w') ->
  map record_device_id (reported ["success"; "failure"] br)
  ≡ₚ map (dict_lookup "deviceId") batch.
Proof.
  intros Hfair H. unfold process_reboot_batch in H.
  apply bind_ret_inv in H as (futs & w1 & Hpool & H).
  apply (thread_pool_spec E) in Hpool as [Hfst Hran]; [|done].
  apply merge_reboot_results_spec in H as (s & f & -> & Hperm).
  - unfold reported. simpl. rewrite app_nil_r, Hperm, <- Hfst. by rewrite map_map.
  - eapply Forall_impl; [exact Hran|].
    intros [d fut] (wi & wi' & Hrun) result Hres. simpl in *. subst fut.
    by apply process_reboot_device_ret in Hrun.
Qed.

Lemma deprovision_record_inv (d : dict) (status : string) (r : dict) :
  deprovision_record d status = Ret r ->
  dict_lookup "deviceId" r = dict_lookup "deviceId" d.
Proof.
  unfold deprovision_record, dict_subscript, py_subscript.
  destruct (dict_lookup "deviceId" d); [|done].
  destruct (dict_lookup "annotatedAssetId" d); [|done].
  by intros [= <-].
Qed.

Lemma deprovision_loop_ret (E : environment) (attempts : list nat) (d : dict)
    (deviceId : pyval) w record w' :
  deprovision_loop E attempts d deviceId w = (Ret (Some record), w') ->
  dict_lookup "deviceId" record = dict_lookup "deviceId" d.
Proof.
  revert w. induction attempts as [|attempt rest IH]; intros w H; simpl in H.
  - inv_run.
  - apply try_except_ret_inv in H as [H|(e & w1 & _ & H)].
    + inv_run. by eapply deprovision_record_inv.
    + destruct (str_contains _ _).
      { inv_run. by eapply deprovision_record_inv. }
      destruct (Nat.eqb attempt _); inv_run. by eapply IH.
Qed.

Lemma process_deprovision_device_ret (E : environment) (d : dict) w record w' :
  process_deprovision_device E d w = (Ret (Some record), w') ->
  dict_lookup "deviceId" record = dict_lookup "deviceId" d.
Proof.
  unfold process_deprovision_device. intros H. inv_run.
  destruct (py_eq_str _ _).
  - inv_run. by eapply deprovision_record_inv.
  - by eapply deprovision_loop_ret.
Qed.

Lemma merge_deprovision_results_spec (E : environment)
    (futs : list (dict * outcome (option dict))) (s0 a0 f0 : list pyval) w r w' :
  Forall (fun fut => forall record, snd fut = Ret (Some record) ->
            dict_lookup "deviceId" record = dict_lookup "deviceId" (fst fut)) futs ->
  merge_deprovision_results E futs
    [("success", s0); ("already_deprovisioned", a0); ("failure", f0)] w
  = (Ret r, w') ->
  exists s a f,
    r = [("success", s0 ++ s); ("already_deprovisioned", a0 ++ a);
         ("failure", f0 ++ f)]
    /\ map record_device_id (s ++ a ++ f)
       ≡ₚ map (fun fut => dict_lookup "deviceId" (fst fut)) futs.
Proof.
  revert s0 a0 f0 w. induction futs as [|[d fut] futs IH]; intros s0 a0 f0 w Hfuts H.
  - simpl in H. inv_run. exists [], [], []. by rewrite !app_nil_r.
  - apply Forall_cons in Hfuts as [Hfut Hfuts]. simpl in H, Hfut.
    apply bind_ret_inv in H as (res & w1 & Hstep & H).
    apply try_except_ret_inv in Hstep as [Hstep|(e & w2 & _ & Hstep)].
    + inv_run. destruct x as [record|]; [|inv_run].
      specialize (Hfut _ eq_refl).
      destruct (py_eq_str _ _); inv_run;
        unfold report_append, report_extend in *; simpl in *; inv_run;
        apply IH in H as (s & a & f & -> & Hperm); try done.
      * exists s, (VDict record :: a), f. rewrite <- !app_assoc. split; [done|].
        change ((VDict record :: a) ++ f) with (VDict record :: a ++ f).
        rewrite <- Permutation_middle. simpl. by rewrite Hperm, Hfut.
      * exists (VDict record :: s), a, f. rewrite <- !app_assoc. split; [done|].
        simpl. by rewrite Hperm, Hfut.
    + unfold log_asset in Hstep. inv_run.
      unfold report_append, report_extend in *. simpl in *. inv_run.
      apply IH in H as (s & a & f & -> & Hperm); [|done].
      eexists s, a, (_ :: f).
      rewrite <- !app_assoc. split; [reflexivity|].
      rewrite app_assoc, <- Permutation_middle, <- app_assoc. simpl.
      rewrite Hperm.
      unfold dict_subscript, py_subscript in *.
      destruct (dict_lookup "deviceId" d); by simplify_eq.
Qed.

(** C1, as stated, fails: the tag [ghost] names no device, the lookup
    returns nothing, the identifier is logged and left out, and the report
    of the move has no entry for the one input item. *)
Lemma move_report_misses_unknown_device :
  fst (move_devices_to_ou fleet (DeviceList [VStr "ghost"]) "Repair"
         "annotatedAssetId" w0)
  = Ret [("success", []); ("failure", [])]
  /\ length (reported ["success"; "failure"] [("success", []); ("failure", [])])
     <> length (as_device_list (DeviceList [VStr "ghost"]))
  /\ last (events (snd (move_devices_to_ou fleet (DeviceList [VStr "ghost"]) "Repair"
                          "annotatedAssetId" w0)))
     = Some (Log WARNING "Device not found: ghost").
Proof. repeat split; vm_compute; congruence. Qed.

(** What [get_device_info] returns is what the run of its lookups gives. *)
Lemma get_device_info_loop_lookups (E : environment) (devices : list pyval)
    (identifier_type : string) (acc infos : list dict) w w' :
  get_device_info_loop E devices identifier_type acc w = (Ret infos, w') ->
  exists new, infos = acc ++ new /\ lookups E identifier_type w devices new w'.
Proof.
  revert acc w. induction devices as [|device rest IH]; intros acc w H; simpl in H.
  - apply ret_inv in H as [-> ->]. exists []. rewrite app_nil_r.
    split; [done|constructor].
  - apply bind_ret_inv in H as (v & w1 & Hfind & H).
    destruct (py_truthy v) eqn:Htruthy.
    + apply bind_ret_inv in H as (deviceId & w2 & Hid & H).
      apply lift_ret_inv in Hid as [Hid ->].
      apply bind_ret_inv in H as (assetId & w2 & Hasset & H).
      apply lift_ret_inv in Hasset as [Hasset ->].
      apply bind_ret_inv in H as (orgUnitPath & w2 & Hou & H).
      apply lift_ret_inv in Hou as [Hou ->].
      apply bind_ret_inv in H as (status & w2 & Hstatus & H).
      apply lift_ret_inv in Hstatus as [Hstatus ->].
      destruct v as [| | | | |dev]; try discriminate Hid.
      simpl in Hid, Hasset, Hou, Hstatus.
      destruct (dict_lookup "deviceId" dev) as [id|] eqn:Hdev; [|discriminate Hid].
      injection Hid as <-. injection Hasset as <-. injection Hou as <-.
      injection Hstatus as <-.
      apply IH in H as (new & -> & Hnew).
      eexists (_ :: new). rewrite <- app_assoc. split; [reflexivity|].
      by eapply lookups_found.
    + apply bind_ret_inv in H as ([] & w2 & Hlog & H).
      unfold log, emit in Hlog. injection Hlog as <-.
      apply IH in H as (new & -> & Hnew).
      exists new. split; [done|]. by eapply lookups_missing.
Qed.

(** and the run of the lookups determines what [get_device_info] returns *)
Lemma lookups_get_device_info_loop (E : environment) (devices : list pyval)
    (identifier_type : string) (infos : list dict) w w' :
  lookups E identifier_type w devices infos w' ->
  forall acc,
    get_device_info_loop E devices identifier_type acc w = (Ret (acc ++ infos), w').
Proof.
  induction 1 as [w|w identifier device deviceId w1 rest infos w' Hfind Htruthy Hid _ IH
                 |w identifier device_info w1 rest infos w' Hfind Htruthy _ IH];
    intros acc; simpl.
  - unfold ret. by rewrite app_nil_r.
  - unfold bind at 1. rewrite Hfind, Htruthy.
    unfold bind, lift. simpl. rewrite Hid. simpl.
    rewrite IH. by rewrite <- app_assoc.
  - unfold bind at 1. rewrite Hfind, Htruthy.
    unfold bind, log, emit. simpl. apply IH.
Qed.

Lemma resolve_devices_lookups (E : environment) (devices : list pyval)
    (identifier_type : string) (infos : list dict) w w' :
  resolve_devices E devices identifier_type w = (Ret infos, w') ->
  (identifier_type = "deviceId"
   /\ infos = map (fun device => [("deviceId", device)]) devices /\ w' = w)
  \/ (identifier_type <> "deviceId" /\ lookups E identifier_type w devices infos w').
Proof.
  unfold resolve_devices. destruct (String.eqb_spec identifier_type "deviceId").
  - intros [-> ->]%ret_inv. by left.
  - intros (new & -> & Hnew)%get_device_info_loop_lookups. by right.
Qed.

(** C1, amended. Whenever [move_devices_to_ou], [reboot_devices] or
    [deprovision] returns a report, the records of its outcome sequences
    ([success] and [failure], and [already_deprovisioned] for a
    deprovision) are, by their device ids, the device records that the
    identifiers were resolved to, each once and in some order. The
    identifiers are resolved by the run of the lookups: each identifier for
    which [find_device] returns a device gives one record, with the device
    id of that device, and each identifier for which it returns nothing is
    followed by the warning [Device not found] and gives none (with
    [identifier_type='deviceId'] every identifier gives a record). So there
    are at most as many records as input identifiers. The report of a move
    or of a reboot has the two sequences [success] and [failure] and no
    other; the report of a deprovision has [success],
    [already_deprovisioned] and [failure], and [move_success] and
    [move_failure] when the devices were moved. *)
Theorem reports_account_for_resolved_devices (E : environment) :
  fair E ->
  (forall devices target_ou identifier_type w r w',
     move_devices_to_ou E devices target_ou identifier_type w = (Ret r, w') ->
     exists w1 infos w2,
       load_service E w = (Ret tt, w1)
       /\ resolve_devices E (as_device_list devices) identifier_type w1
          = (Ret infos, w2)
       /\ length infos <= length (as_device_list devices)
       /\ map record_device_id (reported ["success"; "failure"] r)
          ≡ₚ map (dict_lookup "deviceId") infos
       /\ map fst r = ["success"; "failure"]
       /\ ((identifier_type = "deviceId"
            /\ infos = map (fun device => [("deviceId", device)])
                         (as_device_list devices)
            /\ w2 = w1)
           \/ (identifier_type <> "deviceId"
               /\ lookups E identifier_type w1 (as_device_list devices) infos w2)))
  /\ (forall devices identifier_type delay w r w',
        reboot_devices E devices identifier_type delay w = (Ret r, w') ->
        exists w1 infos w2,
          load_service E w = (Ret tt, w1)
          /\ resolve_devices E (as_device_list devices) identifier_type w1
             = (Ret infos, w2)
          /\ length infos <= length (as_device_list devices)
          /\ map record_device_id (reported ["success"; "failure"] r)
             ≡ₚ map (dict_lookup "deviceId") infos
          /\ map fst r = ["success"; "failure"]
          /\ ((identifier_type = "deviceId"
               /\ infos = map (fun device => [("deviceId", device)])
                            (as_device_list devices)
               /\ w2 = w1)
              \/ (identifier_type <> "deviceId"
                  /\ lookups E identifier_type w1 (as_device_list devices) infos w2)))
  /\ (forall devices target_ou w r w',
        deprovision E devices target_ou w = (Ret r, w') ->
        exists w1 infos w2,
          load_service E w = (Ret tt, w1)
          /\ get_device_info E (as_device_list devices) "annotatedAssetId" w1
             = (Ret infos, w2)
          /\ length infos <= length (as_device_list devices)
          /\ map record_device_id
               (reported ["success"; "already_deprovisioned"; "failure"] r)
             ≡ₚ map (dict_lookup "deviceId") infos
          /\ (map fst r = ["success"; "already_deprovisioned"; "failure"]
              \/ map fst r = ["success"; "already_deprovisioned"; "failure";
                              "move_success"; "move_failure"])
          /\ lookups E "annotatedAssetId" w1 (as_device_list devices) infos w2).
Proof.
  intros Hfair. repeat split.
  - intros devices target_ou identifier_type w r w' H.
    unfold move_devices_to_ou in H.
    apply bind_ret_inv in H as ([] & w1 & Hload & H).
    apply bind_ret_inv in H as (infos & w2 & Hres & H).
    apply bind_ret_inv in H as (futs & w3 & Hpool & H).
    exists w1, infos, w2. split; [done|]. split; [done|].
    split; [by eapply resolve_devices_length|].
    split; [|split; [|by apply resolve_devices_lookups]].
    + eapply pooled_batches_account; [done| |exact Hpool|exact H].
      intros batch wi out wi' Hrun.
      apply process_batch_ret in Hrun as (k & records & -> & Hk & Hids).
      eexists. split; [reflexivity|]. unfold reported.
      destruct Hk as [-> | ->]; simpl; by rewrite ?app_nil_r, Hids.
    + by apply merge_batch_results_spec in H as (brs & _ & ->).
  - intros devices identifier_type delay w r w' H.
    unfold reboot_devices in H.
    destruct (valid_delay delay); [|discriminate H]. simpl in H.
    apply bind_ret_inv in H as ([] & w1 & Hload & H).
    apply bind_ret_inv in H as (infos & w2 & Hres & H).
    apply bind_ret_inv in H as (futs & w3 & Hpool & H).
    exists w1, infos, w2. split; [done|]. split; [done|].
    split; [by eapply resolve_devices_length|].
    split; [|split; [|by apply resolve_devices_lookups]].
    + eapply pooled_batches_account; [done| |exact Hpool|exact H].
      intros batch wi out wi' Hrun. cbv beta in Hrun. inv_run.
      eexists. split; [reflexivity|]. by eapply process_reboot_batch_ret.
    + by apply merge_batch_results_spec in H as (brs & _ & ->).
  - intros devices target_ou w r w' H.
    unfold deprovision in H.
    apply bind_ret_inv in H as (r1 & w4 & Hone & Htwo).
    unfold deprovision_phase_one in Hone.
    apply bind_ret_inv in Hone as ([] & w1 & Hload & Hone).
    apply bind_ret_inv in Hone as (infos & w2 & Hres & Hone).
    apply bind_ret_inv in Hone as (futs & w3 & Hpool & Hone).
    exists w1, infos, w2. split; [done|]. split; [done|].
    split.
    { apply get_device_info_loop_length in Hres. simpl in Hres. lia. }
    apply (thread_pool_spec E) in Hpool as [Hfst Hran]; [|done].
    apply merge_deprovision_results_spec in Hone as (s & a & f & -> & Hperm).
    + assert (Hsame : reported ["success"; "already_deprovisioned"; "failure"] r
                      = s ++ a ++ f
                      /\ (map fst r = ["success"; "already_deprovisioned"; "failure"]
                          \/ map fst r = ["success"; "already_deprovisioned";
                                          "failure"; "move_success"; "move_failure"])).
      { unfold deprovision_phase_two in Htwo.
        destruct (wants_move _ _); inv_run; unfold reported; simpl;
          rewrite app_nil_r; auto. }
      destruct Hsame as [Hsame Hkeys].
      split; [|split; [done|]].
      * rewrite Hsame, Hperm, <- Hfst. by rewrite map_map.
      * apply get_device_info_loop_lookups in Hres as (new & -> & Hnew). done.
    + eapply Forall_impl; [exact Hran|].
      intros [d fut] (wi & wi' & Hrun) record Hfut. simpl in *. subst fut.
      by apply process_deprovision_device_ret in Hrun.
Qed.

Lemma reports_account_for_resolved_devices_witness :
  exists r w' w1 infos w2,
    move_devices_to_ou fleet (DeviceList [VStr "A1"; VStr "ghost"; VStr "A2"])
      "Repair" "annotatedAssetId" w0 = (Ret r, w')
    /\ load_service fleet w0 = (Ret tt, w1)
    /\ resolve_devices fleet [VStr "A1"; VStr "ghost"; VStr "A2"]
         "annotatedAssetId" w1 = (Ret infos, w2)
    /\ length infos <= 3
    /\ map record_device_id (reported ["success"; "failure"] r)
       ≡ₚ map (dict_lookup "deviceId") infos
    /\ map fst r = ["success"; "failure"]
    /\ lookups fleet "annotatedAssetId" w1 [VStr "A1"; VStr "ghost"; VStr "A2"]
         infos w2.
Proof.
  assert (Hfair : fair fleet) by (intros A l; reflexivity).
  destruct (move_devices_to_ou fleet (DeviceList [VStr "A1"; VStr "ghost"; VStr "A2"])
              "Repair" "annotatedAssetId" w0) as [o w'] eqn:Hrun.
  assert (Ho : exists r, o = Ret r).
  { change o with (fst (o, w')). rewrite <- Hrun. vm_compute. eauto. }
  destruct Ho as [r ->].
  destruct (proj1 (reports_account_for_resolved_devices fleet Hfair)
              _ _ _ _ _ _ Hrun) as (w1 & infos & w2 & H1 & H2 & H3 & H4 & H5 & H6).
  exists r, w', w1, infos, w2.
  destruct H6 as [[Hty _]|[_ H6]]; [discriminate Hty|]. auto 10.
Defined.

(** * Further properties of the device operations *)

(** ** Projection of a device record *)

Lemma dict_lookup_set_eq (k : string) (v : pyval) (d : dict) :
  dict_lookup k (dict_set k v d) = Some v.
Proof.
  induction d as [|[k' v'] d IH]; simpl.
  - by rewrite String.eqb_refl.
  - destruct (String.eqb k' k) eqn:Hk; simpl; by rewrite Hk.
Qed.

Lemma dict_lookup_set_ne (k k' : string) (v : pyval) (d : dict) :
  k <> k' -> dict_lookup k' (dict_set k v d) = dict_lookup k' d.
Proof.
  intros Hne. induction d as [|[k0 v0] d IH]; simpl.
  - by apply String.eqb_neq in Hne as ->.
  - destruct (String.eqb_spec k0 k) as [->|Hk]; simpl.
    + by apply String.eqb_neq in Hne as ->.
    + by rewrite IH.
Qed.

(** the entry of the projection for one key *)
Lemma nested_value_total (device : pyval) (key : string) :
  exists v, get_nested_value device key = Ret v.
Proof. apply nested_loop_total. Qed.

Lemma process_device_loop_spec (device : pyval) (keys : list string)
    (include_null : bool) (acc : dict) :
  exists processed,
    process_device_loop device keys include_null acc = Ret processed
    /\ forall k,
         dict_lookup k processed
         = match get_nested_value device k with
           | Ret v =>
               if bool_decide (k ∈ keys) && (include_null || negb (py_is_none v))
               then Some v else dict_lookup k acc
           | Exc _ => dict_lookup k acc
           end.
Proof.
  revert acc. induction keys as [|key keys IH]; intros acc; simpl.
  - exists acc. split; [done|]. intros k. by destruct (get_nested_value device k).
  - destruct (nested_value_total device key) as [value Hvalue]. rewrite Hvalue.
    destruct (IH (if include_null || negb (py_is_none value)
                  then dict_set key value acc else acc)) as (processed & -> & Hp).
    exists processed. split; [done|]. intros k. rewrite Hp.
    destruct (nested_value_total device k) as [v Hv]. rewrite Hv.
    destruct (decide (k = key)) as [->|Hne].
    + rewrite Hvalue in Hv. injection Hv as ->.
      rewrite (bool_decide_eq_true_2 (key ∈ key :: keys)) by set_solver.
      simpl. destruct (include_null || negb (py_is_none v)) eqn:Hkeep;
        rewrite ?andb_true_r, ?andb_false_r.
      * rewrite dict_lookup_set_eq. by destruct (bool_decide _).
      * done.
    + assert (bool_decide (k ∈ key :: keys) = bool_decide (k ∈ keys)) as ->.
      { apply bool_decide_ext. set_solver. }
      destruct (bool_decide (k ∈ keys) && _); [done|].
      destruct (include_null || negb (py_is_none value)); [|done].
      by rewrite dict_lookup_set_ne.
Qed.

(** X1. [process_device] never raises, and the projection it returns holds
    exactly this: each requested key maps to its nested value, and a key
    whose value is [None] is left out unless [include_null] is set; no
    other key is present. *)
Theorem process_device_projects (device : pyval) (keys : list string)
    (include_null : bool) :
  exists processed,
    process_device device keys include_null = Ret processed
    /\ (forall k v,
          dict_lookup k processed = Some v <->
          k ∈ keys /\ get_nested_value device k = Ret v
          /\ (include_null = true \/ v <> VNone)).
Proof.
  destruct (process_device_loop_spec device keys include_null []) as (p & Hp & Hk).
  exists p. split; [done|]. intros k v. rewrite Hk.
  destruct (nested_value_total device k) as [v' Hv]. rewrite Hv. simpl.
  destruct (bool_decide_reflect (k ∈ keys)) as [Hin|Hin]; simpl.
  - destruct include_null; simpl; [naive_solver|].
    destruct (py_is_none v') eqn:Hnone; simpl.
    + destruct v'; try done. naive_solver.
    + split; [|naive_solver].
      intros [= <-]. repeat split; auto. right. by intros ->.
  - naive_solver.
Qed.

(** ** Device lookup *)

(** X2. An identifier type other than [annotatedAssetId] and
    [serialNumber] makes [find_device] raise [ValueError] before the cache
    is read and before any call: the world is unchanged. *)
Theorem find_device_rejects_identifier_type (E : environment)
    (identifier : pyval) (identifier_type : string) (args : list string)
    (include_null : bool) (w : world) :
  identifier_type <> "annotatedAssetId" ->
  identifier_type <> "serialNumber" ->
  find_device E identifier identifier_type args include_null w
  = (Exc (mk_exc ValueError
            "identifier_type must be either 'annotatedAssetId' or 'serialNumber'"),
     w).
Proof.
  intros H1 H2. unfold find_device.
  apply String.eqb_neq in H1 as ->. apply String.eqb_neq in H2 as ->. reflexivity.
Qed.

Lemma find_device_rejects_identifier_type_witness :
  find_device fleet (VStr "A1") "deviceId" ["status"] false w0
  = (Exc (mk_exc ValueError
            "identifier_type must be either 'annotatedAssetId' or 'serialNumber'"),
     w0).
Proof.
  apply (find_device_rejects_identifier_type fleet (VStr "A1") "deviceId");
    discriminate.
Defined.

Lemma try_except_exc_inv {A} (m : M A) (h : exc -> M A) w e w' :
  try_except m h w = (Exc e, w') ->
  exists e0 w1, m w = (Exc e0, w1) /\ h e0 w1 = (Exc e, w').
Proof. unfold try_except. destruct (m w) as [[a|e0] w1]; [done|eauto]. Qed.

(** X3. The only exceptions that leave [find_device] are the [ValueError]
    for an invalid identifier type and the [IndexError] of a cache hit
    whose cached projection is empty while one field is requested; both
    leave the world as it was. No failure of the remote service or of the
    credentials is ever raised: on a cache miss every exception is caught. *)
Theorem find_device_raises_only (E : environment) (identifier : pyval)
    (identifier_type : string) (args : list string) (include_null : bool)
    (w : world) (e : exc) (w' : world) :
  find_device E identifier identifier_type args include_null w = (Exc e, w') ->
  w' = w
  /\ ((exc_cls e = ValueError
       /\ identifier_type <> "annotatedAssetId"
       /\ identifier_type <> "serialNumber")
      \/ (exc_cls e = IndexError
          /\ length args = 1
          /\ device_cache w !! cache_key E identifier_type identifier = Some [])).
Proof.
  unfold find_device.
  destruct (String.eqb_spec identifier_type "annotatedAssetId") as [Ha|Ha];
    destruct (String.eqb_spec identifier_type "serialNumber") as [Hs|Hs]; simpl.
  4: { intros [= <- <-]. split; [done|]. left. done. }
  all: intros H; apply bind_exc_inv in H as [H|(hit & w1 & Hlook & H)];
    [discriminate H|];
    unfold cache_lookup in Hlook; injection Hlook as <- <-;
    destruct (device_cache w !! _) as [result|] eqn:Hhit.
  all: try (apply try_except_exc_inv in H as (e0 & w2 & _ & H);
            destruct (exc_class_eqb (exc_cls e0) RefreshError);
            unfold bind, log, emit, ret in H; simpl in H; discriminate H).
  all: destruct (Nat.eqb_spec (length args) 1) as [Hlen|Hlen]; [|discriminate H];
    destruct result as [|[k v] result]; [|discriminate H];
    injection H as <- <-; split; [done|]; right; done.
Qed.

Lemma find_device_raises_only_witness :
  snd (find_device fleet (VStr "A1") "deviceId" ["status"] false w0) = w0
  /\ ((exc_cls (mk_exc ValueError
                  "identifier_type must be either 'annotatedAssetId' or 'serialNumber'")
       = ValueError
       /\ "deviceId" <> "annotatedAssetId" /\ "deviceId" <> "serialNumber")
      \/ (exc_cls (mk_exc ValueError
                     "identifier_type must be either 'annotatedAssetId' or 'serialNumber'")
          = IndexError
          /\ length ["status"] = 1
          /\ device_cache w0 !! cache_key fleet "deviceId" (VStr "A1") = Some [])).
Proof.
  apply (find_device_raises_only fleet (VStr "A1") "deviceId" ["status"] false w0).
  reflexivity.
Defined.

(** X4. A call of [find_device] that returned something other than [None]
    can be repeated: the same call in the world it left returns the same
    value and does nothing, neither a network call nor a log line nor a
    change of the cache. *)
Theorem find_device_repeatable (E : environment) (identifier : pyval)
    (identifier_type : string) (args : list string) (include_null : bool)
    (w : world) (v : pyval) (w' : world) :
  find_device E identifier identifier_type args include_null w = (Ret v, w') ->
  v <> VNone ->
  find_device E identifier identifier_type args include_null w' = (Ret v, w').
Proof.
  intros H Hv.
  assert (Hty : identifier_type = "annotatedAssetId"
                \/ identifier_type = "serialNumber").
  { unfold find_device in H.
    destruct (String.eqb_spec identifier_type "annotatedAssetId"); [by left|].
    destruct (String.eqb_spec identifier_type "serialNumber"); [by right|].
    discriminate H. }
  destruct (device_cache w !! cache_key E identifier_type identifier)
    as [result|] eqn:Hhit.
  - rewrite (find_device_cache_hit _ _ _ _ _ _ _ Hty Hhit) in H.
    injection H as H <-. rewrite (find_device_cache_hit _ _ _ _ _ _ _ Hty Hhit).
    by rewrite H.
  - unfold find_device in H. rewrite (valid_identifier_type _ Hty) in H.
    apply bind_ret_inv in H as (hit & w1 & Hlook & H).
    unfold cache_lookup in Hlook. injection Hlook as <- <-. rewrite Hhit in H.
    apply try_except_ret_inv in H as [H|(e & w2 & _ & H)].
    + inv_run. destruct (py_truthy _); [|inv_run; done].
      inv_run.
      match goal with
      | Hs : cache_store ?key ?p ?wm = (Ret _, ?wn) |- _ =>
          unfold cache_store in Hs; injection Hs as _ <-;
          assert (Hstored :
                    device_cache (mk_world (events wm) (<[key:=p]> (device_cache wm)))
                    !! key = Some p) by apply lookup_insert_eq
      end.
      destruct (Nat.eqb (length args) 1) eqn:Hlen; inv_run;
        rewrite (find_device_cache_hit _ _ _ _ _ _ _ Hty Hstored), Hlen;
        first [done | f_equal; assumption].
    + destruct (exc_class_eqb (exc_cls e) RefreshError); inv_run; done.
Qed.

Lemma find_device_repeatable_witness :
  find_device fleet (VStr "A1") "annotatedAssetId" ["status"] false
    (snd (find_device fleet (VStr "A1") "annotatedAssetId" ["status"] false w0))
  = (Ret (VStr "ACTIVE"),
     snd (find_device fleet (VStr "A1") "annotatedAssetId" ["status"] false w0)).
Proof.
  apply (find_device_repeatable fleet (VStr "A1") "annotatedAssetId" ["status"]
           false w0).
  - destruct (find_device fleet (VStr "A1") "annotatedAssetId" ["status"] false w0)
      as [o w1] eqn:Hrun.
    assert (o = Ret (VStr "ACTIVE")) as ->; [|reflexivity].
    change o with (fst (o, w1)). rewrite <- Hrun. vm_compute. reflexivity.
  - discriminate.
Defined.

(** ** Resolved device records *)

Lemma get_device_info_loop_records (E : environment) (devices : list pyval)
    (identifier_type : string) (acc infos : list dict) w w' :
  Forall info_record acc ->
  get_device_info_loop E devices identifier_type acc w = (Ret infos, w') ->
  Forall info_record infos.
Proof.
  revert acc w. induction devices as [|device rest IH]; intros acc w Hacc H;
    simpl in H.
  - by inv_run.
  - inv_run. destruct (py_truthy _).
    + inv_run. eapply IH; [|done]. apply Forall_app. split; [done|].
      constructor; [|constructor]. unfold info_record. eauto 10.
    + inv_run. by eapply IH.
Qed.

(** X5. Every record that [get_device_info] returns has the four keys
    [deviceId], [annotatedAssetId], [orgUnitPath] and [status], in this
    order, and there are at most as many records as identifiers; an
    identifier without a device contributes none. *)
Theorem get_device_info_records (E : environment) (devices : list pyval)
    (identifier_type : string) (w : world) (infos : list dict) (w' : world) :
  get_device_info E devices identifier_type w = (Ret infos, w') ->
  length infos <= length devices /\ Forall info_record infos.
Proof.
  intros H. split.
  - by apply get_device_info_loop_length in H.
  - by apply get_device_info_loop_records in H.
Qed.

Lemma get_device_info_records_witness :
  length (match fst (get_device_info fleet [VStr "A1"; VStr "ghost"] "annotatedAssetId" w0)
          with Ret infos => infos | Exc _ => [] end) <= 2.
Proof.
  destruct (get_device_info fleet [VStr "A1"; VStr "ghost"] "annotatedAssetId" w0)
    as [[infos|e] w'] eqn:Hrun; [|simpl; lia].
  exact (proj1 (get_device_info_records fleet _ _ w0 infos w' Hrun)).
Defined.

(** ** Batches of resolved records *)

Lemma info_record_has_ids (d : dict) : info_record d -> has_ids d.
Proof. intros (a & b & c & s & ->). split; simpl; eauto. Qed.

Lemma failed_record_total (reason : string) (batch : list dict) :
  Forall has_ids batch ->
  exists failure, omapM (failed_record reason) batch = Ret failure.
Proof.
  induction 1 as [|d batch [[a Ha] [b Hb]] _ [failure IH]]; simpl; [eauto|].
  unfold failed_record at 1, dict_subscript, py_subscript. rewrite Ha, Hb, IH. eauto.
Qed.

Lemma process_batch_loop_total (operation : M report) (attempts : list nat)
    (batch : list dict) w :
  Forall has_ids batch ->
  exists out w', process_batch_loop operation attempts batch w = (Ret out, w').
Proof.
  intros Hwf. revert w. induction attempts as [|attempt rest IH]; intros w; simpl.
  - unfold ret. eauto.
  - unfold try_except, bind. destruct (operation w) as [[r|e] w1]; [unfold ret; eauto|].
    change (MAX_RETRIES - 1) with 2. destruct (Nat.eqb attempt 2).
    + destruct (failed_record_total (exc_msg e) batch Hwf) as [failure Hf].
      run_monad. rewrite Hf. eauto.
    + run_monad. apply IH.
Qed.

(** X6. On a batch whose records have a [deviceId] and an
    [annotatedAssetId], [process_batch] never raises: whatever the remote
    service does, it returns either the success records or the failure
    records, one for each device of the batch and with its device id. *)
Theorem process_batch_captures_failures (E : environment) (batch : list dict)
    (target_ou : string) (w : world) :
  Forall has_ids batch ->
  exists k records w',
    process_batch E batch target_ou w = (Ret (Some [(k, records)]), w')
    /\ (k = "success" \/ k = "failure")
    /\ map record_device_id records = map (dict_lookup "deviceId") batch.
Proof.
  intros Hwf.
  destruct (process_batch_loop_total (move_batch E batch target_ou)
              (seq 0 MAX_RETRIES) batch w Hwf) as (out & w' & Hrun).
  fold (process_batch E batch target_ou) in Hrun.
  destruct (process_batch_ret _ _ _ _ _ _ Hrun) as (k & records & -> & Hk & Hids).
  eauto 10.
Qed.

Lemma process_batch_captures_failures_witness :
  exists k records w',
    process_batch down
      [[("deviceId", VStr "id-A1"); ("annotatedAssetId", VStr "A1")]]
      "Chromebooks/Repair" w0
    = (Ret (Some [(k, records)]), w')
    /\ (k = "success" \/ k = "failure")
    /\ map record_device_id records = [Some (VStr "id-A1")].
Proof.
  apply (process_batch_captures_failures down
           [[("deviceId", VStr "id-A1"); ("annotatedAssetId", VStr "A1")]]).
  constructor; [|constructor]. split; simpl; eauto.
Defined.

(** X7. The retry loop of [process_batch], attempt by attempt: the
    operation is run at most three times; a failed first or second attempt
    is followed by a sleep of one second, a warning and the next attempt;
    the result of the first attempt that succeeds is returned as it is;
    when the third attempt fails too, an error is logged and the result is
    one failure record for each device with the text of that last
    exception (or the exception raised while building them). *)
Theorem process_batch_retries (E : environment) (batch : list dict)
    (target_ou : string) (w : world) :
  let operation := move_batch E batch target_ou in
  (forall r w1, operation w = (Ret r, w1) ->
     process_batch E batch target_ou w = (Ret (Some r), w1))
  /\ (forall e0 w1 r w2,
        operation w = (Exc e0, w1) ->
        operation (after_pause e0 1 w1) = (Ret r, w2) ->
        process_batch E batch target_ou w = (Ret (Some r), w2))
  /\ (forall e0 w1 e1 w2 r w3,
        operation w = (Exc e0, w1) ->
        operation (after_pause e0 1 w1) = (Exc e1, w2) ->
        operation (after_pause e1 2 w2) = (Ret r, w3) ->
        process_batch E batch target_ou w = (Ret (Some r), w3))
  /\ (forall e0 w1 e1 w2 e2 w3,
        operation w = (Exc e0, w1) ->
        operation (after_pause e0 1 w1) = (Exc e1, w2) ->
        operation (after_pause e1 2 w2) = (Exc e2, w3) ->
        process_batch E batch target_ou w
        = (match omapM (failed_record (exc_msg e2)) batch with
           | Ret failure => Ret (Some [("failure", map VDict failure)])
           | Exc e => Exc e
           end, after_giving_up e2 w3)).
Proof.
  exact (process_batch_loop_retry (move_batch E batch target_ou) batch w).
Qed.

Lemma process_batch_retries_witness :
  process_batch fleet
    [[("deviceId", VStr "id-A1"); ("annotatedAssetId", VStr "A1")]]
    "Chromebooks/Repair" w0
  = (Ret (Some [("success",
                 [VDict [("deviceId", VStr "id-A1"); ("annotatedAssetId", VStr "A1");
                         ("newOrgUnit", VStr "Chromebooks/Repair")]])]),
     mk_world [Net (MoveDevicesToOu "Chromebooks/Repair" [VStr "id-A1"]);
               Log INFO "move:[Unknown]:[/Chromebooks/Repair]:A1"] ∅).
Proof.
  apply (proj1 (process_batch_retries fleet
           [[("deviceId", VStr "id-A1"); ("annotatedAssetId", VStr "A1")]]
           "Chromebooks/Repair" w0)).
  reflexivity.
Defined.

(** ** Moving by device id *)

Lemma batches_elem {A} (P : A -> Prop) (B : nat) (l b : list A) :
  0 < B -> Forall P l -> b ∈ batches B l -> b <> [] /\ Forall P b.
Proof.
  intros HB Hl Hb. rewrite batches_spec in Hb by done.
  apply list_elem_of_fmap in Hb as (k & -> & Hk). apply elem_of_seq in Hk.
  split.
  - intros Hnil. apply (f_equal length) in Hnil.
    rewrite length_take, length_drop in Hnil. simpl in Hnil.
    destruct (ceil_div_spec B (length l) HB) as [_ Hmin].
    assert (length l <= k * B) as Hle%Hmin by lia. lia.
  - by apply Forall_take, Forall_drop.
Qed.

Lemma batches_nonempty {A} (B : nat) (l : list A) :
  0 < B -> l <> [] -> batches B l <> [].
Proof.
  intros HB Hl Hb. apply Hl. by rewrite <- (batches_concat B l HB), Hb.
Qed.

(** a record as [resolve_devices] builds it for [identifier_type='deviceId'] *)
Lemma device_id_record_not_moved (target_ou : string) (device : pyval) :
  moved_record target_ou [("deviceId", device)]
  = Exc (mk_exc KeyError "'annotatedAssetId'").
Proof. reflexivity. Qed.

Lemma process_batch_device_ids_raise (E : environment) (devices : list pyval)
    (target_ou : string) w :
  devices <> [] ->
  exists w',
    process_batch E (map (fun device => [("deviceId", device)]) devices) target_ou w
    = (Exc (mk_exc KeyError "'annotatedAssetId'"), w').
Proof.
  intros Hne. destruct devices as [|device devices]; [done|].
  set (batch := map (fun device => [("deviceId", device)]) (device :: devices)).
  assert (Hnever : forall wi r wi', move_batch E batch target_ou wi <> (Ret r, wi')).
  { intros wi r wi' Hrun. unfold move_batch in Hrun.
    apply retry_target_ret in Hrun as [wj Hrun].
    apply move_batch_body_ret in Hrun as (moved & Hm & _).
    subst batch. simpl in Hm. discriminate Hm. }
  unfold process_batch. simpl. unfold try_except, bind.
  destruct (move_batch E batch target_ou w) as [[r|e0] w1] eqn:H0;
    [by destruct (Hnever _ _ _ H0)|].
  run_monad.
  match goal with
  | |- context [move_batch E batch target_ou ?wx] =>
      destruct (move_batch E batch target_ou wx) as [[r|e1] w2] eqn:H1;
        [by destruct (Hnever _ _ _ H1)|]
  end.
  simpl.
  match goal with
  | |- context [move_batch E batch target_ou ?wx] =>
      destruct (move_batch E batch target_ou wx) as [[r|e2] w3] eqn:H2;
        [by destruct (Hnever _ _ _ H2)|]
  end.
  simpl. eauto.
Qed.

Lemma thread_pool_returns {A B} (E : environment) (f : A -> M B) (xs : list A) w :
  exists futs w', thread_pool E f xs w = (Ret futs, w').
Proof. unfold thread_pool. destruct (submit_all f xs w). eauto. Qed.

Lemma move_by_device_id_exc (E : environment) (devices : list pyval)
    (target_ou : string) w w1 :
  fair E ->
  devices <> [] ->
  load_service E w = (Ret tt, w1) ->
  exists w',
    move_devices_to_ou E (DeviceList devices) target_ou "deviceId" w
    = (Exc (mk_exc KeyError "'annotatedAssetId'"), w').
Proof.
  intros Hfair Hne Hload. unfold move_devices_to_ou, bind. rewrite Hload.
  unfold resolve_devices. simpl. unfold ret.
  set (infos := map (fun device => [("deviceId", device)]) devices).
  set (task := fun batch => process_batch E batch (normalize_target_ou target_ou)).
  destruct (thread_pool_returns E task (batches MAX_BATCH_SIZE infos) w1)
    as (futs & w2 & Hpool).
  rewrite Hpool.
  pose proof (thread_pool_spec E task _ _ _ _ Hfair Hpool) as [Hfst Hran].
  assert (HB : 0 < MAX_BATCH_SIZE) by (unfold MAX_BATCH_SIZE; lia).
  destruct futs as [|[batch fut] futs].
  { apply Permutation_nil_l in Hfst. exfalso.
    apply (batches_nonempty MAX_BATCH_SIZE infos HB); [|done].
    subst infos. by destruct devices. }
  apply Forall_cons in Hran as [(wi & wi' & Hrun) _]. simpl in Hrun.
  assert (Hbatch : batch ∈ batches MAX_BATCH_SIZE infos).
  { rewrite <- Hfst. simpl. left. }
  assert (Hshape : exists ids, ids <> []
                               /\ batch = map (fun device => [("deviceId", device)]) ids).
  { apply list_elem_of_lookup in Hbatch as [k Hk].
    rewrite batches_spec, list_lookup_fmap in Hk by done.
    destruct (seq 0 _ !! k) as [j|] eqn:Hj; [|done]. injection Hk as <-.
    subst infos. rewrite skipn_map, firstn_map.
    eexists. split; [|reflexivity]. intros Hnil.
    assert (Hin : take MAX_BATCH_SIZE (drop (j * MAX_BATCH_SIZE)
                    (map (fun device : pyval => [("deviceId", device)]) devices))
                  ∈ batches MAX_BATCH_SIZE
                      (map (fun device : pyval => [("deviceId", device)]) devices)).
    { rewrite batches_spec by done. apply list_elem_of_fmap. exists j.
      split; [done|]. by eapply list_elem_of_lookup_2. }
    apply (batches_elem (fun _ => True)) in Hin as [Hin _]; [|done|by apply Forall_true].
    apply Hin. by rewrite skipn_map, firstn_map, Hnil. }
  destruct Hshape as (ids & Hids & ->).
  destruct (process_batch_device_ids_raise E ids (normalize_target_ou target_ou) wi Hids)
    as [wj Hraise].
  subst task. simpl in Hrun. rewrite Hraise in Hrun. injection Hrun as <- _.
  simpl. unfold lift, bind. eauto.
Qed.

(** X8. With [identifier_type='deviceId'], [move_devices_to_ou] never
    returns a report for a non-empty device list: once the service is
    built, every batch ends in [KeyError: 'annotatedAssetId'], whatever the
    remote service answers, and the exception leaves the operation. *)
Theorem move_by_device_id_raises (E : environment) (devices : list pyval)
    (target_ou : string) (w w1 : world) :
  fair E ->
  devices <> [] ->
  load_service E w = (Ret tt, w1) ->
  exists w',
    move_devices_to_ou E (DeviceList devices) target_ou "deviceId" w
    = (Exc (mk_exc KeyError "'annotatedAssetId'"), w').
Proof. apply move_by_device_id_exc. Qed.

Lemma move_by_device_id_raises_witness :
  exists w',
    move_devices_to_ou fleet (DeviceList [VStr "id-A1"; VStr "id-A2"])
      "3110 (for updating)" "deviceId" w0
    = (Exc (mk_exc KeyError "'annotatedAssetId'"), w').
Proof.
  apply (move_by_device_id_raises fleet [VStr "id-A1"; VStr "id-A2"]
           "3110 (for updating)" w0 (mk_world [Net Build] ∅)).
  - intros A l. reflexivity.
  - discriminate.
  - reflexivity.
Defined.

(** ** Moving by lookup *)

Lemma merge_batch_results_total
    (futures : list (list dict * outcome (option report))) :
  Forall (fun fut => exists k records,
            snd fut = Ret (Some [(k, records)])
            /\ (k = "success" \/ k = "failure")) futures ->
  forall s0 f0 w,
    exists r, merge_batch_results futures [("success", s0); ("failure", f0)] w
              = (Ret r, w).
Proof.
  induction 1 as [|[batch fut] futures (k & records & Hfut & Hk) _ IH];
    intros s0 f0 w; simpl.
  - unfold ret. eauto.
  - simpl in Hfut. subst fut. unfold bind, lift.
    destruct Hk as [-> | ->]; simpl; apply IH.
Qed.

(** a batch move that returns was accepted by the remote service *)
Lemma move_batch_body_accepted (E : environment) (batch : list dict)
    (target_ou : string) w r w' :
  move_batch_body E batch target_ou w = (Ret r, w') ->
  exists ids answer moved,
    omapM (fun d => dict_subscript d "deviceId") batch = Ret ids
    /\ remote E (events w) (MoveDevicesToOu target_ou ids) = Ret answer
    /\ omapM (moved_record target_ou) batch = Ret moved
    /\ r = [("success", map VDict moved)].
Proof.
  unfold move_batch_body. intros H.
  apply bind_ret_inv in H as (ids & w1 & Hids & H).
  apply lift_ret_inv in Hids as [Hids ->].
  apply bind_ret_inv in H as (answer & w2 & Hexec & H).
  unfold execute in Hexec. injection Hexec as Hremote _.
  inv_run. eauto 10.
Qed.

(** X9. When the identifiers are resolved by lookup, [move_devices_to_ou]
    always returns a report once the service is built and the lookups have
    returned, and the report files each batch of resolved devices by what
    became of its move: the [success] list is made of the records of the
    batches for which the remote service accepted a [moveDevicesToOu]
    request naming the device ids of the batch; the [failure] list is made
    of one record for each device of the batches whose move raised three
    times in a row, with the text of the third exception as reason. No
    failure of a move request is raised, and the two lists together hold
    the resolved devices, each once. *)
Theorem move_by_lookup_reports (E : environment) (devices : devices_arg)
    (target_ou identifier_type : string) (w w1 : world) (infos : list dict)
    (w2 : world) :
  fair E ->
  identifier_type <> "deviceId" ->
  load_service E w = (Ret tt, w1) ->
  get_device_info E (as_device_list devices) identifier_type w1 = (Ret infos, w2) ->
  let target := normalize_target_ou target_ou in
  exists (done : list (list dict)) (batch_results : list report) r w',
    move_devices_to_ou E devices target_ou identifier_type w = (Ret r, w')
    /\ map record_device_id (reported ["success"; "failure"] r)
       ≡ₚ map (dict_lookup "deviceId") infos
    /\ done ≡ₚ batches MAX_BATCH_SIZE infos
    /\ r = [("success",
             concat (map (fun br => default [] (report_get "success" br))
                       batch_results));
            ("failure",
             concat (map (fun br => default [] (report_get "failure" br))
                       batch_results))]
    /\ Forall2 (fun batch br =>
         (exists ids history answer moved,
            omapM (fun d => dict_subscript d "deviceId") batch = Ret ids
            /\ remote E history (MoveDevicesToOu target ids) = Ret answer
            /\ omapM (moved_record target) batch = Ret moved
            /\ br = [("success", map VDict moved)])
         \/ (exists wi e0 w1 e1 w2 e2 w3 failed,
               move_batch E batch target wi = (Exc e0, w1)
               /\ move_batch E batch target (after_pause e0 1 w1) = (Exc e1, w2)
               /\ move_batch E batch target (after_pause e1 2 w2) = (Exc e2, w3)
               /\ omapM (failed_record (exc_msg e2)) batch = Ret failed
               /\ br = [("failure", map VDict failed)]))
         done batch_results.
Proof.
  intros Hfair Hty Hload Hinfo target.
  set (task := fun batch => process_batch E batch target).
  destruct (thread_pool_returns E task (batches MAX_BATCH_SIZE infos) w2)
    as (futs & w3 & Hpool).
  pose proof (thread_pool_spec E task _ _ _ _ Hfair Hpool) as [Hfst Hran].
  assert (HB : 0 < MAX_BATCH_SIZE) by (unfold MAX_BATCH_SIZE; lia).
  assert (Hwf : Forall has_ids infos).
  { apply get_device_info_loop_records in Hinfo; [|done].
    eapply Forall_impl; [exact Hinfo|]. apply info_record_has_ids. }
  assert (Hfuts : Forall (fun fut => exists k records,
                            snd fut = Ret (Some [(k, records)])
                            /\ (k = "success" \/ k = "failure")) futs).
  { apply Forall_forall. intros [batch fut] Hin.
    assert (Hb : batch ∈ batches MAX_BATCH_SIZE infos).
    { rewrite <- Hfst. apply list_elem_of_fmap. by exists (batch, fut). }
    apply (batches_elem has_ids) in Hb as [_ Hb]; [|done|done].
    rewrite Forall_forall in Hran.
    destruct (Hran _ Hin) as (wi & wi' & Hrun). simpl in *.
    destruct (process_batch_loop_total (move_batch E batch target)
                (seq 0 MAX_RETRIES) batch wi Hb) as (out & wj & Htotal).
    fold (process_batch E batch target) in Htotal.
    subst task. simpl in Hrun. rewrite Htotal in Hrun. injection Hrun as <- _.
    destruct (process_batch_ret _ _ _ _ _ _ Htotal) as (k & records & -> & Hk & _).
    eauto. }
  destruct (merge_batch_results_total futs Hfuts [] [] w3) as [r Hmerge].
  assert (Hrun : move_devices_to_ou E devices target_ou identifier_type w = (Ret r, w3)).
  { unfold move_devices_to_ou, bind. rewrite Hload. unfold resolve_devices.
    apply String.eqb_neq in Hty as ->. rewrite Hinfo.
    fold target. fold task. by rewrite Hpool. }
  destruct (merge_batch_results_spec _ _ _ _ _ _ Hmerge) as (brs & Hall & Hr).
  exists (map fst futs), brs, r, w3. split; [done|]. split.
  { eapply pooled_batches_account; [done| |exact Hpool|exact Hmerge].
    intros batch wi out wi' Hb.
    apply process_batch_ret in Hb as (k & records & -> & Hk & Hids).
    eexists. split; [reflexivity|]. unfold reported.
    destruct Hk as [-> | ->]; simpl; by rewrite ?app_nil_r, Hids. }
  split; [done|]. split; [done|].
  apply Forall2_fmap_l.
  eapply Forall2_impl; [apply (Forall2_and_l _ _ _ _ Hran Hall)|].
  intros [batch fut] br [(wi & wi' & Hb) Hfut]. simpl in *. subst fut task.
  assert (Haccepted : forall wa wb,
            move_batch E batch target wa = (Ret br, wb) ->
            exists ids history answer moved,
              omapM (fun d => dict_subscript d "deviceId") batch = Ret ids
              /\ remote E history (MoveDevicesToOu target ids) = Ret answer
              /\ omapM (moved_record target) batch = Ret moved
              /\ br = [("success", map VDict moved)]).
  { intros wa wb Hop. apply retry_target_ret in Hop as [wc Hop].
    apply move_batch_body_accepted in Hop as (ids & answer & moved & ? & ? & ? & ?).
    eauto 10. }
  unfold process_batch in Hb.
  destruct (process_batch_loop_retry (move_batch E batch target) batch wi)
    as (R0 & R1 & R2 & R3).
  destruct (move_batch E batch target wi) as [[r0|e0] wa] eqn:H0.
  { rewrite (R0 _ _ eq_refl) in Hb. injection Hb as -> _. left. eauto. }
  destruct (move_batch E batch target (after_pause e0 1 wa)) as [[r1|e1] wb] eqn:H1.
  { rewrite (R1 _ _ _ _ eq_refl H1) in Hb. injection Hb as -> _. left. eauto. }
  destruct (move_batch E batch target (after_pause e1 2 wb)) as [[r2|e2] wc] eqn:H2.
  { rewrite (R2 _ _ _ _ _ _ eq_refl H1 H2) in Hb. injection Hb as -> _. left. eauto. }
  rewrite (R3 _ _ _ _ _ _ eq_refl H1 H2) in Hb.
  destruct (omapM (failed_record (exc_msg e2)) batch) as [failed|] eqn:Hfailed;
    [|discriminate Hb].
  injection Hb as <- _. right. eauto 15.
Qed.

Lemma move_by_lookup_reports_witness :
  exists done batch_results r w',
    move_devices_to_ou down (DeviceList [VStr "A1"]) "Repair" "serialNumber"
      (mk_world [] {[ "serialNumber:A1" :=
                        [("deviceId", VStr "id-A1"); ("annotatedAssetId", VStr "A1")] ]})
    = (Ret r, w')
    /\ map record_device_id (reported ["success"; "failure"] r)
       ≡ₚ [Some (VStr "id-A1")]
    /\ done ≡ₚ [[[("deviceId", VStr "id-A1"); ("annotatedAssetId", VStr "A1");
                  ("orgUnitPath", VStr "Unknown"); ("status", VStr "Unknown")]]]
    /\ r = [("success",
             concat (map (fun br => default [] (report_get "success" br))
                       batch_results));
            ("failure",
             concat (map (fun br => default [] (report_get "failure" br))
                       batch_results))].
Proof.
  set (cache := {[ "serialNumber:A1" :=
                     [("deviceId", VStr "id-A1"); ("annotatedAssetId", VStr "A1")] ]}
                : gmap string dict).
  destruct (move_by_lookup_reports down (DeviceList [VStr "A1"]) "Repair"
              "serialNumber" (mk_world [] cache) (mk_world [Net Build] cache)
              [[("deviceId", VStr "id-A1"); ("annotatedAssetId", VStr "A1");
                ("orgUnitPath", VStr "Unknown"); ("status", VStr "Unknown")]]
              (mk_world [Net Build] cache)
              (fun A l => Permutation_refl l) ltac:(discriminate) eq_refl eq_refl)
    as (batches_done & brs & r & w' & H1 & H2 & H3 & H4 & _).
  exists batches_done, brs, r, w'. auto.
Defined.

(** ** The requests of a move *)

Lemma move_log_lines_quiet (E : environment) (target_ou : string)
    (batch : list dict) w :
  exists logs,
    events (snd (for_each batch (move_log_line E target_ou) w)) = events w ++ logs
    /\ Forall no_call logs.
Proof.
  revert w. induction batch as [|d batch IH]; intros w; simpl.
  - exists []. by rewrite app_nil_r.
  - unfold bind at 1, move_log_line at 1, bind, lift.
    destruct (dict_subscript d "annotatedAssetId") as [a|e]; simpl.
    + match goal with |- context [for_each batch _ ?wx] =>
        destruct (IH wx) as (logs & Hl & Hq) end.
      simpl in Hl. eexists (_ :: logs). rewrite Hl, <- app_assoc. simpl.
      split; [reflexivity|]. by constructor.
    + exists []. by rewrite app_nil_r.
Qed.

(** One run of the function under the decorator makes one request, for
    the device ids of the whole batch. *)
Lemma move_batch_body_request (E : environment) (batch : list dict)
    (target_ou : string) (ids : list pyval) w :
  omapM (fun d => dict_subscript d "deviceId") batch = Ret ids ->
  exists logs,
    events (snd (move_batch_body E batch target_ou w))
    = events w ++ Net (MoveDevicesToOu target_ou ids) :: logs
    /\ Forall no_call logs.
Proof.
  intros Hids. unfold move_batch_body, bind at 1, lift. rewrite Hids.
  unfold bind at 1, execute. simpl.
  destruct (remote E (events w) (MoveDevicesToOu target_ou ids)) as [answer|e].
  - unfold bind at 1.
    match goal with |- context [for_each batch _ ?wx] =>
      destruct (move_log_lines_quiet E target_ou batch wx) as (logs & Hl & Hq);
      destruct (for_each batch (move_log_line E target_ou) wx) as [[[]|e] w1]
    end; simpl in Hl.
    + exists logs. split; [|done].
      unfold bind, lift, ret.
      destruct (omapM (moved_record target_ou) batch); simpl;
        by rewrite Hl, <- app_assoc.
    + exists logs. split; [|done]. simpl. by rewrite Hl, <- app_assoc.
  - exists []. by split.
Qed.

Lemma retry_target_requests {A} (budget : nat) (target : M A) (c : net_call) :
  (forall w, exists logs,
      events (snd (target w)) = events w ++ Net c :: logs /\ Forall no_call logs) ->
  forall w, exists added,
    events (snd (retry_target budget target w)) = events w ++ added
    /\ Forall (fun ev => ev = Net c \/ no_call ev) added
    /\ Net c ∈ added.
Proof.
  intros Htarget. induction budget as [|budget IH]; intros w; simpl;
    unfold try_except; destruct (Htarget w) as (logs & Hl & Hq);
    destruct (target w) as [[a|e] w1]; simpl in *.
  - exists (Net c :: logs). split; [done|]. split; [|by left].
    constructor; [by left|]. eapply Forall_impl; [exact Hq|]. by right.
  - exists (Net c :: logs). split; [done|]. split; [|by left].
    constructor; [by left|]. eapply Forall_impl; [exact Hq|]. by right.
  - exists (Net c :: logs). split; [done|]. split; [|by left].
    constructor; [by left|]. eapply Forall_impl; [exact Hq|]. by right.
  - unfold bind, emit. simpl.
    match goal with |- context [retry_target budget target ?wx] =>
      destruct (IH wx) as (added & Ha & Hall & Hin) end.
    simpl in Ha. exists (Net c :: logs ++ Backoff :: added).
    split; [by rewrite Ha, Hl, <- !app_assoc|]. split; [|by left].
    constructor; [by left|]. apply Forall_app. split.
    + eapply Forall_impl; [exact Hq|]. by right.
    + constructor; [by right|done].
Qed.

Lemma process_batch_loop_requests (operation : M report) (attempts : list nat)
    (batch : list dict) (c : net_call) :
  (forall w, exists added,
      events (snd (operation w)) = events w ++ added
      /\ Forall (fun ev => ev = Net c \/ no_call ev) added
      /\ Net c ∈ added) ->
  forall w, exists added,
    events (snd (process_batch_loop operation attempts batch w)) = events w ++ added
    /\ Forall (fun ev => ev = Net c \/ no_call ev) added
    /\ (attempts <> [] -> Net c ∈ added).
Proof.
  intros Hop. induction attempts as [|attempt rest IH]; intros w; simpl.
  - exists []. rewrite app_nil_r. split; [done|]. split; [constructor|done].
  - unfold try_except, bind at 1.
    destruct (Hop w) as (added & Ha & Hall & Hin).
    destruct (operation w) as [[r|e] w1]; simpl in *.
    + exists added. auto.
    + destruct (Nat.eqb attempt _).
      * unfold bind, log, emit, lift, ret. simpl.
        destruct (omapM (failed_record (exc_msg e)) batch); simpl;
          eexists (added ++ [_]); (split; [by rewrite Ha, <- app_assoc|]);
          (split; [|intros _; apply elem_of_app; by left]);
          (apply Forall_app; split; [done|]); by repeat constructor.
      * unfold bind, sleep, log, emit. simpl.
        match goal with |- context [process_batch_loop operation rest batch ?wx] =>
          destruct (IH wx) as (more & Hm & Hmall & _) end.
        simpl in Hm. eexists (added ++ _ :: _ :: more).
        split; [rewrite Hm, Ha, <- !app_assoc; reflexivity|].
        split; [|intros _; apply elem_of_app; by left].
        apply Forall_app. split; [done|]. by repeat constructor.
Qed.

(** The pool runs the tasks one after the other: what they do to the log
    of events adds up. *)
Lemma submit_all_events {A B} (f : A -> M B) (P : A -> list event -> Prop)
    (xs : list A) :
  Forall (fun x => forall w, exists added,
            events (snd (f x w)) = events w ++ added /\ P x added) xs ->
  forall w, exists addeds,
    events (snd (submit_all f xs w)) = events w ++ concat addeds
    /\ Forall2 P xs addeds.
Proof.
  induction 1 as [|x xs Hx _ IH]; intros w; simpl.
  - exists []. simpl. by rewrite app_nil_r.
  - destruct (Hx w) as (added & Ha & HP).
    destruct (f x w) as [o w1]. simpl in Ha.
    destruct (IH w1) as (addeds & Has & HPs).
    destruct (submit_all f xs w1) as [futs w2]. simpl in *.
    exists (added :: addeds). simpl. split; [by rewrite Has, Ha, <- app_assoc|].
    by constructor.
Qed.

Lemma device_ids_total (batch : list dict) :
  Forall (fun d => is_Some (dict_lookup "deviceId" d)) batch ->
  exists ids,
    omapM (fun d => dict_subscript d "deviceId") batch = Ret ids
    /\ Forall2 (fun d deviceId => dict_lookup "deviceId" d = Some deviceId) batch ids.
Proof.
  induction 1 as [|d batch [deviceId Hid] _ (ids & Hids & Hall)]; simpl.
  - exists []. by split.
  - unfold dict_subscript at 1, py_subscript. rewrite Hid, Hids.
    exists (deviceId :: ids). split; [done|]. by constructor.
Qed.

Lemma elem_of_concat {A} (x : A) (ls : list (list A)) :
  x ∈ concat ls <-> exists l, l ∈ ls /\ x ∈ l.
Proof.
  rewrite list_elem_of_In, in_concat. split.
  - intros (l & Hl & Hx). exists l. by rewrite !list_elem_of_In.
  - intros (l & Hl & Hx). exists l. by rewrite <- !list_elem_of_In.
Qed.

(** what [process_batch] adds to the log of events: requests that name the
    device ids of its batch, at least one, and no other request *)
Lemma process_batch_requests (E : environment) (batch : list dict)
    (target_ou : string) w :
  Forall (fun d => is_Some (dict_lookup "deviceId" d)) batch ->
  exists added ids,
    events (snd (process_batch E batch target_ou w)) = events w ++ added
    /\ omapM (fun d => dict_subscript d "deviceId") batch = Ret ids
    /\ Forall2 (fun d deviceId => dict_lookup "deviceId" d = Some deviceId) batch ids
    /\ Forall (fun ev => ev = Net (MoveDevicesToOu target_ou ids) \/ no_call ev) added
    /\ Net (MoveDevicesToOu target_ou ids) ∈ added.
Proof.
  intros Hbatch. destruct (device_ids_total batch Hbatch) as (ids & Hids & Hall).
  destruct (process_batch_loop_requests (move_batch E batch target_ou)
              (seq 0 MAX_RETRIES) batch (MoveDevicesToOu target_ou ids)) with (w := w)
    as (added & Ha & Hadded & Hin).
  { intros w0. apply retry_target_requests. intros w1.
    by apply move_batch_body_request. }
  exists added, ids. repeat split; try done. by apply Hin.
Qed.

(** C5, amended. A device that is already in the target org unit is not
    left out of the mutating request. First, for one batch: when the
    remote service accepts the request of the batch, the body of the
    request names the device id of every device of the batch, those
    already in the target org unit included; such a device is logged with
    [exists] and has its record among the successes like the others.
    Second, for the whole operation, whatever the remote service answers:
    every [moveDevicesToOu] request that [move_devices_to_ou] makes names
    the device ids of a whole batch of the resolved devices, and every
    resolved device is named in at least one request. *)
Theorem move_batch_sends_every_device (E : environment) :
  (forall (batch : list dict) (target_ou : string) (w : world) (ids : list pyval)
          (recs : list dict) (answer : pyval),
     omapM (fun d => dict_subscript d "deviceId") batch = Ret ids ->
     omapM (moved_record target_ou) batch = Ret recs ->
     remote E (events w) (MoveDevicesToOu target_ou ids) = Ret answer ->
     move_batch E batch target_ou w
     = (Ret [("success", map VDict recs)],
        mk_world ((events w ++ [Net (MoveDevicesToOu target_ou ids)])
                    ++ map (move_log_event E target_ou) batch)
          (device_cache w))
     /\ forall i d,
          batch !! i = Some d ->
          py_eq_str (source_ou_of d) ("/" +:+ target_ou) = true ->
          exists deviceId assetId,
            dict_lookup "deviceId" d = Some deviceId
            /\ dict_lookup "annotatedAssetId" d = Some assetId
            /\ ids !! i = Some deviceId
            /\ recs !! i = Some [("deviceId", deviceId); ("annotatedAssetId", assetId);
                                 ("newOrgUnit", VStr target_ou)]
            /\ move_log_event E target_ou d
               = Log INFO ("move:[" +:+ py_str E (source_ou_of d) +:+ "]:exists:"
                             +:+ py_str E assetId))
  /\ (forall (devices : devices_arg) (target_ou identifier_type : string)
             (w w1 : world) (infos : list dict) (w2 : world),
        fair E ->
        identifier_type <> "deviceId" ->
        load_service E w = (Ret tt, w1) ->
        get_device_info E (as_device_list devices) identifier_type w1
        = (Ret infos, w2) ->
        let target := normalize_target_ou target_ou in
        exists r w' added,
          move_devices_to_ou E devices target_ou identifier_type w = (Ret r, w')
          /\ events w' = events w2 ++ added
          /\ (forall c, Net c ∈ added ->
                exists batch ids,
                  batch ∈ batches MAX_BATCH_SIZE infos
                  /\ omapM (fun d => dict_subscript d "deviceId") batch = Ret ids
                  /\ c = MoveDevicesToOu target ids)
          /\ (forall d, d ∈ infos ->
                exists deviceId ids,
                  dict_lookup "deviceId" d = Some deviceId
                  /\ deviceId ∈ ids
                  /\ Net (MoveDevicesToOu target ids) ∈ added)).
Proof.
  split.
  - intros batch target_ou w ids recs answer Hids Hrecs Hremote. split.
    + unfold move_batch. apply retry_target_first_success.
      unfold move_batch_body. run_monad. rewrite Hids, Hremote. simpl.
      rewrite move_log_lines; simpl.
      * by rewrite Hrecs.
      * apply Forall_forall. intros d Hd.
        apply list_elem_of_lookup in Hd as [i Hi].
        destruct (omapM_lookup _ _ _ _ _ Hrecs Hi) as (r & Hr & _).
        apply moved_record_inv in Hr as (? & a & _ & -> & _). eauto.
    + intros i d Hi Hou.
      destruct (omapM_lookup _ _ _ _ _ Hrecs Hi) as (r & Hr & Hri).
      destruct (omapM_lookup _ _ _ _ _ Hids Hi) as (id & Hid & Hidi).
      apply moved_record_inv in Hr as (deviceId & assetId & Hd & Ha & ->).
      unfold dict_subscript, py_subscript in Hid. rewrite Hd in Hid. simplify_eq.
      exists id, assetId. repeat split; try done.
      unfold move_log_event, move_log_message. by rewrite Hou, Ha.
  - intros devices target_ou identifier_type w w1 infos w2 Hfair Hty Hload Hinfo target.
    set (task := fun batch => process_batch E batch target).
    destruct (thread_pool_returns E task (batches MAX_BATCH_SIZE infos) w2)
      as (futs & w3 & Hpool).
    pose proof (thread_pool_spec E task _ _ _ _ Hfair Hpool) as [Hfst Hran].
    assert (HB : 0 < MAX_BATCH_SIZE) by (unfold MAX_BATCH_SIZE; lia).
    assert (Hwf : Forall has_ids infos).
    { apply get_device_info_loop_records in Hinfo; [|done].
      eapply Forall_impl; [exact Hinfo|]. apply info_record_has_ids. }
    assert (Hfuts : Forall (fun fut => exists k records,
                              snd fut = Ret (Some [(k, records)])
                              /\ (k = "success" \/ k = "failure")) futs).
    { apply Forall_forall. intros [batch fut] Hin.
      assert (Hb : batch ∈ batches MAX_BATCH_SIZE infos).
      { rewrite <- Hfst. apply list_elem_of_fmap. by exists (batch, fut). }
      apply (batches_elem has_ids) in Hb as [_ Hb]; [|done|done].
      rewrite Forall_forall in Hran.
      destruct (Hran _ Hin) as (wi & wi' & Hrun). simpl in *.
      destruct (process_batch_loop_total (move_batch E batch target)
                  (seq 0 MAX_RETRIES) batch wi Hb) as (out & wj & Htotal).
      fold (process_batch E batch target) in Htotal.
      subst task. simpl in Hrun. rewrite Htotal in Hrun. injection Hrun as <- _.
      destruct (process_batch_ret _ _ _ _ _ _ Htotal) as (k & records & -> & Hk & _).
      eauto. }
    destruct (merge_batch_results_total futs Hfuts [] [] w3) as [r Hmerge].
    assert (Hrun : move_devices_to_ou E devices target_ou identifier_type w
                   = (Ret r, w3)).
    { unfold move_devices_to_ou, bind. rewrite Hload. unfold resolve_devices.
      apply String.eqb_neq in Hty as ->. rewrite Hinfo.
      fold target. fold task. by rewrite Hpool. }
    assert (Hdev : Forall (fun d => is_Some (dict_lookup "deviceId" d)) infos).
    { eapply Forall_impl; [exact Hwf|]. by intros d [? _]. }
    destruct (submit_all_events task
                (fun batch added => exists ids,
                   omapM (fun d => dict_subscript d "deviceId") batch = Ret ids
                   /\ Forall2 (fun d deviceId => dict_lookup "deviceId" d = Some deviceId)
                        batch ids
                   /\ Forall (fun ev => ev = Net (MoveDevicesToOu target ids)
                                        \/ no_call ev) added
                   /\ Net (MoveDevicesToOu target ids) ∈ added)
                (batches MAX_BATCH_SIZE infos)) with (w := w2)
      as (addeds & Hevents & Hper).
    { apply Forall_forall. intros batch Hb w0.
      apply (batches_elem _ _ _ _ HB Hdev) in Hb as [_ Hb].
      destruct (process_batch_requests E batch target w0 Hb)
        as (added & ids & ? & ? & ? & ? & ?).
      exists added. split; [done|]. exists ids. auto. }
    assert (Hw3 : w3 = snd (submit_all task (batches MAX_BATCH_SIZE infos) w2)).
    { unfold thread_pool in Hpool.
      destruct (submit_all task (batches MAX_BATCH_SIZE infos) w2) as [fs wx].
      by injection Hpool as _ <-. }
    exists r, w3, (concat addeds). split; [done|]. split; [by rewrite Hw3|].
    split.
    + intros c Hc. apply elem_of_concat in Hc as (added & Hadded & Hc).
      apply list_elem_of_lookup in Hadded as [i Hi].
      destruct (Forall2_lookup_r _ _ _ _ _ Hper Hi)
        as (batch & Hbatch & ids & Hids & _ & Hall & _).
      exists batch, ids. split; [by eapply list_elem_of_lookup_2|]. split; [done|].
      rewrite Forall_forall in Hall. by destruct (Hall _ Hc) as [[= ->]|[]].
    + intros d Hd.
      rewrite <- (batches_concat MAX_BATCH_SIZE infos HB) in Hd.
      apply elem_of_concat in Hd as (batch & Hbatch & Hd).
      apply list_elem_of_lookup in Hbatch as [i Hi].
      destruct (Forall2_lookup_l _ _ _ _ _ Hper Hi)
        as (added & Hadded & ids & Hids & Hpairs & _ & Hin).
      apply list_elem_of_lookup in Hd as [j Hj].
      destruct (Forall2_lookup_l _ _ _ _ _ Hpairs Hj) as (deviceId & Hid & Hlook).
      exists deviceId, ids. split; [done|].
      split; [by eapply list_elem_of_lookup_2|].
      apply elem_of_concat. exists added. split; [|done].
      by eapply list_elem_of_lookup_2.
Qed.

Lemma move_batch_sends_every_device_witness :
  move_batch fleet
    [[("deviceId", VStr "id-A1"); ("annotatedAssetId", VStr "A1");
      ("orgUnitPath", VStr "/Chromebooks/Repair"); ("status", VStr "ACTIVE")]]
    "Chromebooks/Repair" w0
  = (Ret [("success",
           [VDict [("deviceId", VStr "id-A1"); ("annotatedAssetId", VStr "A1");
                   ("newOrgUnit", VStr "Chromebooks/Repair")]])],
     mk_world [Net (MoveDevicesToOu "Chromebooks/Repair" [VStr "id-A1"]);
               Log INFO "move:[/Chromebooks/Repair]:exists:A1"] ∅)
  /\ exists r w' added,
       move_devices_to_ou down (DeviceList [VStr "A1"]) "Repair" "serialNumber"
         (mk_world [] {[ "serialNumber:A1" :=
                           [("deviceId", VStr "id-A1"); ("annotatedAssetId", VStr "A1");
                            ("orgUnitPath", VStr "/Chromebooks/Repair")] ]})
       = (Ret r, w')
       /\ events w' = [Net Build] ++ added
       /\ exists ids,
            VStr "id-A1" ∈ ids
            /\ Net (MoveDevicesToOu "Chromebooks/Repair" ids) ∈ added.
Proof.
  split.
  - apply (proj1 (proj1 (move_batch_sends_every_device fleet)
                    [[("deviceId", VStr "id-A1"); ("annotatedAssetId", VStr "A1");
                      ("orgUnitPath", VStr "/Chromebooks/Repair");
                      ("status", VStr "ACTIVE")]]
                    "Chromebooks/Repair" w0
                    [VStr "id-A1"]
                    [[("deviceId", VStr "id-A1"); ("annotatedAssetId", VStr "A1");
                      ("newOrgUnit", VStr "Chromebooks/Repair")]]
                    (VDict []) eq_refl eq_refl eq_refl)).
  - set (cache := {[ "serialNumber:A1" :=
                       [("deviceId", VStr "id-A1"); ("annotatedAssetId", VStr "A1");
                        ("orgUnitPath", VStr "/Chromebooks/Repair")] ]}
                  : gmap string dict).
    set (info := [("deviceId", VStr "id-A1"); ("annotatedAssetId", VStr "A1");
                  ("orgUnitPath", VStr "/Chromebooks/Repair");
                  ("status", VStr "Unknown")]).
    destruct (proj2 (move_batch_sends_every_device down)
                (DeviceList [VStr "A1"]) "Repair" "serialNumber"
                (mk_world [] cache) (mk_world [Net Build] cache) [info]
                (mk_world [Net Build] cache)
                (fun A l => Permutation_refl l) ltac:(discriminate) eq_refl eq_refl)
      as (r & w' & added & Hrun & Hev & _ & Hnamed).
    exists r, w', added. split; [done|]. split; [done|].
    destruct (Hnamed info) as (deviceId & ids & [= <-] & Hin & Hreq); [by left|].
    by exists ids.
Defined.
(** ** The wipe operations *)

Lemma reset_loop_ret (E : environment) (attempts : list nat) (d : dict)
    (deviceId : pyval) w out w' :
  last attempts = Some (MAX_RETRIES - 1) ->
  reset_loop E attempts d deviceId w = (Ret out, w') ->
  exists record, out = Some record /\ dict_lookup "deviceId" record = Some deviceId.
Proof.
  change (MAX_RETRIES - 1) with 2.
  revert w. induction attempts as [|attempt rest IH]; intros w Hlast H; [done|].
  simpl in H. apply try_except_ret_inv in H as [H|(e & w1 & _ & H)].
  - inv_run. eauto.
  - destruct (Nat.eqb_spec attempt 2) as [->|Hne]; [inv_run|].
    inv_run. eapply IH; [|done].
    destruct rest; [simpl in Hlast; congruence|done].
Qed.

Lemma process_reset_device_ret (E : environment) (d : dict) w out w' :
  process_reset_device E d w = (Ret out, w') ->
  record_device_id (py_of_record out) = dict_lookup "deviceId" d.
Proof.
  unfold process_reset_device. intros H.
  apply bind_ret_inv in H as (deviceId & w1 & Hid & H).
  apply lift_ret_inv in Hid as [Hid ->].
  apply reset_loop_ret in H as (record & -> & Hrec); [|done]. simpl.
  unfold dict_subscript, py_subscript in Hid.
  destruct (dict_lookup "deviceId" d); by simplify_eq.
Qed.

Lemma merge_reset_results_spec (E : environment)
    (futs : list (dict * outcome (option dict))) (s0 f0 : list pyval) w r w' :
  Forall (fun fut => forall result, snd fut = Ret result ->
            record_device_id (py_of_record result)
            = dict_lookup "deviceId" (fst fut)) futs ->
  merge_reset_results E futs [("success", s0); ("failure", f0)] w = (Ret r, w') ->
  exists s f,
    r = [("success", s0 ++ s); ("failure", f0 ++ f)]
    /\ map record_device_id (s ++ f)
       ≡ₚ map (fun fut => dict_lookup "deviceId" (fst fut)) futs.
Proof.
  revert s0 f0 w. induction futs as [|[d fut] futs IH]; intros s0 f0 w Hfuts H.
  - simpl in H. inv_run. exists [], []. by rewrite !app_nil_r.
  - apply Forall_cons in Hfuts as [Hfut Hfuts]. simpl in H, Hfut.
    apply bind_ret_inv in H as (res & w1 & Hstep & H).
    apply try_except_ret_inv in Hstep as [Hstep|(e & w2 & Hexc & Hstep)].
    + apply bind_ret_inv in Hstep as (result & w3 & Hres & Hstep).
      apply lift_ret_inv in Hres as [-> ->].
      apply lift_ret_inv in Hstep as [Hstep ->].
      unfold report_append, report_extend in Hstep. simpl in Hstep.
      injection Hstep as <-.
      apply IH in H as (s & f & -> & Hperm); [|done].
      exists (py_of_record result :: s), f. rewrite <- app_assoc. split; [done|].
      simpl. by rewrite Hperm, (Hfut _ eq_refl).
    + apply bind_exc_inv in Hexc as [Hexc|(result & w3 & _ & Hexc)];
        [|by unfold report_append, report_extend, lift in Hexc].
      unfold lift in Hexc. injection Hexc as -> ->.
      apply bind_ret_inv in Hstep as (deviceId & w3 & Hid & Hstep).
      apply lift_ret_inv in Hid as [Hid ->].
      apply bind_ret_inv in Hstep as ([] & w4 & _ & Hstep).
      apply lift_ret_inv in Hstep as [Hstep ->].
      unfold report_append, report_extend in Hstep. simpl in Hstep.
      injection Hstep as <-.
      apply IH in H as (s & f & -> & Hperm); [|done].
      eexists s, (_ :: f). rewrite <- app_assoc. split; [reflexivity|].
      rewrite map_app. simpl. rewrite <- Permutation_middle, <- map_app, Hperm.
      unfold dict_subscript, py_subscript in Hid.
      destruct (dict_lookup "deviceId" d); by simplify_eq.
Qed.

Lemma merge_reset_results_total (E : environment)
    (futs : list (dict * outcome (option dict))) :
  Forall (fun fut => is_Some (dict_lookup "deviceId" (fst fut))) futs ->
  forall s0 f0 w,
    exists r w', merge_reset_results E futs [("success", s0); ("failure", f0)] w
                 = (Ret r, w').
Proof.
  induction 1 as [|[d fut] futs [deviceId Hid] _ IH]; intros s0 f0 w; simpl.
  - unfold ret. eauto.
  - simpl in Hid. destruct fut as [result|e]; run_monad.
    + unfold report_append, report_extend. simpl. apply IH.
    + unfold dict_subscript, py_subscript. rewrite Hid. simpl.
      unfold report_append, report_extend. simpl. apply IH.
Qed.

(** the first phase shared by [reset_device] and [update_os] *)
Lemma wipe_phase (E : environment) (infos : list dict) w :
  fair E ->
  Forall info_record infos ->
  exists futs w1 r w',
    thread_pool E (process_reset_device E) infos w = (Ret futs, w1)
    /\ merge_reset_results E futs [("success", []); ("failure", [])] w1 = (Ret r, w')
    /\ exists s f,
         r = [("success", s); ("failure", f)]
         /\ map record_device_id (s ++ f) ≡ₚ map (dict_lookup "deviceId") infos.
Proof.
  intros Hfair Hinfos.
  destruct (thread_pool_returns E (process_reset_device E) infos w)
    as (futs & w1 & Hpool).
  pose proof (thread_pool_spec E _ _ _ _ _ Hfair Hpool) as [Hfst Hran].
  assert (Hids : Forall (fun fut => is_Some (dict_lookup "deviceId" (fst fut))) futs).
  { apply Forall_forall. intros [d fut] Hin.
    assert (Hd : d ∈ infos).
    { rewrite <- Hfst. apply list_elem_of_fmap. by exists (d, fut). }
    rewrite Forall_forall in Hinfos.
    destruct (Hinfos _ Hd) as (a & ? & ? & ? & ->). simpl. eauto. }
  destruct (merge_reset_results_total E futs Hids [] [] w1) as (r & w' & Hmerge).
  exists futs, w1, r, w'. split; [done|]. split; [done|].
  apply merge_reset_results_spec in Hmerge as (s & f & -> & Hperm).
  - exists s, f. split; [done|]. rewrite Hperm, <- Hfst. by rewrite map_map.
  - eapply Forall_impl; [exact Hran|].
    intros [d fut] (wi & wi' & Hrun) result Hres. simpl in *. subst fut.
    by apply process_reset_device_ret in Hrun.
Qed.

(** What one run of the wipe loop ends in: a record, after a command that
    the remote service accepted; or the exception of the last command. *)
Lemma reset_loop_inv (E : environment) (attempts : list nat) (d : dict)
    (deviceId : pyval) w o w' :
  last attempts = Some (MAX_RETRIES - 1) ->
  reset_loop E attempts d deviceId w = (o, w') ->
  let call := IssueCommand deviceId "WIPE_USERS" VNone in
  match o with
  | Ret out =>
      exists history answer commandId,
        remote E history call = Ret answer
        /\ py_get answer "commandId" = Ret commandId
        /\ out = Some [("deviceId", deviceId);
                       ("annotatedAssetId",
                        default VNone (dict_lookup "annotatedAssetId" d));
                       ("status", VStr "WIPE_USERS command sent");
                       ("commandId", commandId)]
  | Exc e =>
      exists history,
        remote E history call = Exc e
        \/ exists answer, remote E history call = Ret answer
                          /\ py_get answer "commandId" = Exc e
  end.
Proof.
  change (MAX_RETRIES - 1) with 2.
  revert w. induction attempts as [|attempt rest IH]; intros w Hlast H; [done|].
  simpl in H. unfold try_except, bind, execute, lift, log, emit, ret in H.
  simpl in H.
  assert (Hrest : attempt <> 2 -> last rest = Some 2).
  { intros Hne. destruct rest; [simpl in Hlast; congruence|done]. }
  destruct (remote E (events w) (IssueCommand deviceId "WIPE_USERS" VNone))
    as [answer|e0] eqn:Hremote; simpl in H.
  - destruct (py_get answer "commandId") as [commandId|e0] eqn:Hget; simpl in H.
    + injection H as <- _. simpl. eauto 10.
    + destruct (Nat.eqb_spec attempt 2) as [->|Hne]; simpl in H.
      * unfold raise in H. injection H as <- _. simpl. eauto 10.
      * unfold sleep, emit in H. simpl in H. by apply IH in H; [|auto].
  - destruct (Nat.eqb_spec attempt 2) as [->|Hne]; simpl in H.
    + unfold raise in H. injection H as <- _. simpl. eauto.
    + unfold sleep, emit in H. simpl in H. by apply IH in H; [|auto].
Qed.

Lemma merge_reset_results_exact (E : environment)
    (futs : list (dict * outcome (option dict))) :
  Forall (fun fut => is_Some (dict_lookup "deviceId" (fst fut))) futs ->
  forall s0 f0 w,
    exists w',
      merge_reset_results E futs [("success", s0); ("failure", f0)] w
      = (Ret [("success",
               s0 ++ map (fun p => py_of_record (snd p)) (returned_of futs));
              ("failure",
               f0 ++ map (fun p => failure_record (fst p) (snd p)) (raised_of futs))],
         w').
Proof.
  induction 1 as [|[d fut] futs [deviceId Hid] _ IH]; intros s0 f0 w; simpl.
  - unfold ret. rewrite !app_nil_r. eauto.
  - simpl in Hid. destruct fut as [result|e]; run_monad.
    + unfold report_append, report_extend. simpl.
      destruct (IH (s0 ++ [py_of_record result]) f0 w) as [w' ->].
      exists w'. by rewrite <- !app_assoc.
    + unfold dict_subscript, py_subscript. rewrite Hid. simpl.
      unfold report_append, report_extend. simpl.
      match goal with |- context [merge_reset_results E futs _ ?wx] =>
        destruct (IH s0 (f0 ++ [failure_record d e]) wx) as [w' IH'] end.
      unfold failure_record in IH' at 1. rewrite Hid in IH'. simpl in IH'.
      rewrite IH'. exists w'. unfold raised_of. simpl.
      by rewrite <- !app_assoc.
Qed.

(** X10. Once the service is built and the lookups have returned,
    [reset_device] always returns a report, and the report files each
    resolved device by what its task did: [success] holds the records of
    the tasks that returned, each after a [WIPE_USERS] command that the
    remote service accepted for that device; [failure] holds one record,
    with the text of the exception, for each task that raised, and the
    exception is one that a [WIPE_USERS] command for that device ended in
    (raised by the remote service, or by reading its answer). A wipe that
    fails is fatal neither to the call nor to the other devices, and the
    two lists together hold the resolved devices, each once. *)
Theorem reset_device_reports (E : environment) (devices : devices_arg)
    (w w1 : world) (infos : list dict) (w2 : world) :
  fair E ->
  load_service E w = (Ret tt, w1) ->
  get_device_info E (as_device_list devices) "annotatedAssetId" w1 = (Ret infos, w2) ->
  exists futs r w',
    reset_device E devices w = (Ret r, w')
    /\ map record_device_id (reported ["success"; "failure"] r)
       ≡ₚ map (dict_lookup "deviceId") infos
    /\ map fst futs ≡ₚ infos
    /\ r = [("success", map (fun p => py_of_record (snd p)) (returned_of futs));
            ("failure", map (fun p => failure_record (fst p) (snd p)) (raised_of futs))]
    /\ Forall (fun p =>
         exists deviceId history answer commandId,
           dict_lookup "deviceId" (fst p) = Some deviceId
           /\ remote E history (IssueCommand deviceId "WIPE_USERS" VNone) = Ret answer
           /\ py_get answer "commandId" = Ret commandId
           /\ snd p = Some [("deviceId", deviceId);
                            ("annotatedAssetId",
                             default VNone (dict_lookup "annotatedAssetId" (fst p)));
                            ("status", VStr "WIPE_USERS command sent");
                            ("commandId", commandId)])
         (returned_of futs)
    /\ Forall (fun p =>
         exists deviceId history,
           dict_lookup "deviceId" (fst p) = Some deviceId
           /\ (remote E history (IssueCommand deviceId "WIPE_USERS" VNone) = Exc (snd p)
               \/ exists answer,
                    remote E history (IssueCommand deviceId "WIPE_USERS" VNone)
                    = Ret answer
                    /\ py_get answer "commandId" = Exc (snd p)))
         (raised_of futs).
Proof.
  intros Hfair Hload Hinfo.
  assert (Hrec : Forall info_record infos)
    by (by apply get_device_info_loop_records in Hinfo).
  destruct (wipe_phase E infos w2 Hfair Hrec)
    as (futs & w3 & r & w' & Hpool & Hmerge & s & f & -> & Hperm).
  pose proof (thread_pool_spec E _ _ _ _ _ Hfair Hpool) as [Hfst Hran].
  assert (Hids : Forall (fun fut => is_Some (dict_lookup "deviceId" (fst fut))) futs).
  { apply Forall_forall. intros [d fut] Hin.
    assert (Hd : d ∈ infos).
    { rewrite <- Hfst. apply list_elem_of_fmap. by exists (d, fut). }
    rewrite Forall_forall in Hrec.
    destruct (Hrec _ Hd) as (a & ? & ? & ? & ->). simpl. eauto. }
  destruct (merge_reset_results_exact E futs Hids [] [] w3) as [w'' Hexact].
  rewrite Hmerge in Hexact. injection Hexact as -> -> _.
  eexists futs, _, w'. split.
  { unfold reset_device, bind. by rewrite Hload, Hinfo, Hpool. }
  split.
  { unfold reported. simpl. by rewrite app_nil_r. }
  split; [done|]. split; [done|].
  assert (Htask : Forall (fun fut =>
            exists deviceId, dict_lookup "deviceId" (fst fut) = Some deviceId
              /\ exists wi wi', reset_loop E (seq 0 MAX_RETRIES) (fst fut) deviceId wi
                                = (snd fut, wi')) futs).
  { rewrite Forall_forall in Hran, Hids. apply Forall_forall. intros fut Hin.
    destruct (Hids _ Hin) as [deviceId Hid].
    destruct (Hran _ Hin) as (wi & wi' & Hrun).
    exists deviceId. split; [done|].
    unfold process_reset_device, bind, lift, dict_subscript, py_subscript in Hrun.
    rewrite Hid in Hrun. eauto. }
  clear -Htask. split.
  - induction Htask as [|[d [out|e]] futs (deviceId & Hid & wi & wi' & Hrun) _ IH];
      simpl; [constructor| |exact IH].
    constructor; [|exact IH].
    apply reset_loop_inv in Hrun; [|done]. cbn in Hrun, Hid |- *.
    destruct Hrun as (history & answer & commandId & ? & ? & ?). eauto 10.
  - induction Htask as [|[d [out|e]] futs (deviceId & Hid & wi & wi' & Hrun) _ IH];
      simpl; [constructor|exact IH|].
    constructor; [|exact IH].
    apply reset_loop_inv in Hrun; [|done]. cbn in Hrun, Hid |- *.
    destruct Hrun as (history & Hcase). eauto 10.
Qed.

Lemma reset_device_reports_witness :
  exists futs r w',
    reset_device down (DeviceList [VStr "A1"])
      (mk_world [] {[ "annotatedAssetId:A1" :=
                        [("deviceId", VStr "id-A1"); ("annotatedAssetId", VStr "A1")] ]})
    = (Ret r, w')
    /\ map record_device_id (reported ["success"; "failure"] r)
       ≡ₚ [Some (VStr "id-A1")]
    /\ map fst futs ≡ₚ [[("deviceId", VStr "id-A1"); ("annotatedAssetId", VStr "A1");
                         ("orgUnitPath", VStr "Unknown"); ("status", VStr "Unknown")]]
    /\ r = [("success", map (fun p => py_of_record (snd p)) (returned_of futs));
            ("failure", map (fun p => failure_record (fst p) (snd p)) (raised_of futs))].
Proof.
  set (cache := {[ "annotatedAssetId:A1" :=
                     [("deviceId", VStr "id-A1"); ("annotatedAssetId", VStr "A1")] ]}
                : gmap string dict).
  destruct (reset_device_reports down (DeviceList [VStr "A1"])
              (mk_world [] cache) (mk_world [Net Build] cache)
              [[("deviceId", VStr "id-A1"); ("annotatedAssetId", VStr "A1");
                ("orgUnitPath", VStr "Unknown"); ("status", VStr "Unknown")]]
              (mk_world [Net Build] cache)
              (fun A l => Permutation_refl l) eq_refl eq_refl)
    as (futs & r & w' & H1 & H2 & H3 & H4 & _).
  exists futs, r, w'. auto.
Defined.

(** X11. [update_os] returns a report only when no wipe command
    succeeded: as soon as one device is in [success], the follow-up move is
    made with [identifier_type='deviceId'] and does not return, so a
    returned report has an empty [success] list and no [move_success]
    entry. *)
Theorem update_os_returns_only_without_success (E : environment)
    (devices : devices_arg) (w : world) (r : report) (w' : world) :
  fair E ->
  update_os E devices w = (Ret r, w') ->
  report_get "success" r = Some [] /\ report_get "move_success" r = None.
Proof.
  intros Hfair H. unfold update_os in H.
  apply bind_ret_inv in H as ([] & w1 & Hload & H).
  apply bind_ret_inv in H as (infos & w2 & Hinfo & H).
  apply bind_ret_inv in H as (futs & w3 & Hpool & H).
  apply bind_ret_inv in H as (results & w4 & Hmerge & H).
  assert (Hrec : Forall info_record infos)
    by (by apply get_device_info_loop_records in Hinfo).
  destruct (wipe_phase E infos w2 Hfair Hrec)
    as (futs' & w3' & r' & w4' & Hpool' & Hmerge' & s & f & -> & _).
  rewrite Hpool in Hpool'. injection Hpool' as <- <-.
  rewrite Hmerge in Hmerge'. injection Hmerge' as -> <-.
  apply bind_ret_inv in H as (success & w5 & Hs & H).
  apply lift_ret_inv in Hs as [Hs ->]. simpl in Hs. injection Hs as <-.
  destruct s as [|x s].
  - apply ret_inv in H as [-> _]. by split.
  - exfalso.
    apply bind_ret_inv in H as (ids & w5 & Hids & H).
    apply lift_ret_inv in Hids as [Hids ->].
    apply bind_ret_inv in H as (move_results & w6 & Hmove & _).
    assert (Hne : ids <> []).
    { change (omapM (fun d => py_subscript d "deviceId") (x :: s) = Ret ids) in Hids.
      apply omapM_length in Hids. by destruct ids. }
    assert (Hload2 : exists w7, load_service E w4 = (Ret tt, w7)).
    { unfold move_devices_to_ou in Hmove.
      apply bind_ret_inv in Hmove as ([] & w7 & Hload2 & _). eauto. }
    destruct Hload2 as [w7 Hload2].
    destruct (move_by_device_id_exc E ids "3110 (for updating)" w4 w7 Hfair Hne Hload2)
      as [w8 Hexc].
    rewrite Hexc in Hmove. discriminate Hmove.
Qed.

Lemma update_os_returns_only_without_success_witness :
  report_get "success"
    (match fst (update_os down (DeviceList [VStr "ghost"]) w0) with
     | Ret r => r | Exc _ => [] end) = Some [].
Proof.
  destruct (update_os down (DeviceList [VStr "ghost"]) w0) as [[r|e] w'] eqn:Hrun.
  - simpl. apply (update_os_returns_only_without_success down
                    (DeviceList [VStr "ghost"]) w0 r w'); [|done].
    intros A l. reflexivity.
  - exfalso. assert (Hf : fst (update_os down (DeviceList [VStr "ghost"]) w0) = Exc e)
      by (by rewrite Hrun).
    vm_compute in Hf. discriminate Hf.
Defined.

(** ** Moving one device *)

Ltac same_world :=
  unfold add_events; simpl; rewrite <- ?app_assoc; reflexivity.

Lemma prefix_append (p s : string) : String.prefix p (p +:+ s) = true.
Proof.
  induction p as [|c p IH]; simpl; [by destruct s|].
  by destruct (ascii_dec c c).
Qed.

Lemma prefix_cons (a b : ascii) (p s : string) :
  String.prefix (String a p) (String b s)
  = if ascii_dec a b then String.prefix p s else false.
Proof. reflexivity. Qed.

Lemma prefix_head (a : ascii) (p s : string) :
  String.prefix (String a p) s = true -> String.prefix (String a "") s = true.
Proof.
  destruct s as [|b s]; [done|]. rewrite !prefix_cons.
  destruct (ascii_dec a b); [|done]. intros _. by destruct s.
Qed.

Lemma str_contains_prefix (p s : string) :
  String.prefix p s = true -> str_contains p s = true.
Proof. intros H. destruct s; cbn [str_contains]; by rewrite H. Qed.

Lemma py_replace_absent (old new s : string) :
  str_contains old s = false -> py_replace old new s = s.
Proof.
  unfold py_replace. induction s as [|c s IH]; [done|].
  cbn [str_contains py_replace_from].
  intros [Hp Hs]%orb_false_iff. rewrite Hp. by rewrite IH.
Qed.

(** X12. The target that [move_chrome_os_device] sends always starts with
    [/Chromebooks]; normalizing twice changes nothing; and a path in which
    [/Chromebooks] does not occur is put under [/Chromebooks], with a
    slash in between. *)
Theorem chrome_os_target_normal (target_org_unit : string) :
  String.prefix "/Chromebooks" (chrome_os_target target_org_unit) = true
  /\ chrome_os_target (chrome_os_target target_org_unit)
     = chrome_os_target target_org_unit
  /\ (let slashed := if String.prefix "/" target_org_unit then target_org_unit
                     else "/" +:+ target_org_unit in
      str_contains "/Chromebooks" slashed = false ->
      chrome_os_target target_org_unit = "/Chromebooks" +:+ slashed).
Proof.
  assert (Hstart : String.prefix "/Chromebooks" (chrome_os_target target_org_unit) = true).
  { unfold chrome_os_target. cbv zeta.
    set (slashed := if String.prefix "/" target_org_unit then target_org_unit
                    else "/" +:+ target_org_unit).
    destruct (String.prefix "/Chromebooks" slashed) eqn:Hp; [done|apply prefix_append]. }
  split; [done|]. split.
  - unfold chrome_os_target at 1. cbv zeta.
    rewrite (prefix_head _ _ _ Hstart). by rewrite Hstart.
  - intros slashed Hno. unfold chrome_os_target. cbv zeta. fold slashed.
    destruct (String.prefix "/Chromebooks" slashed) eqn:Hp.
    + apply str_contains_prefix in Hp. congruence.
    + by rewrite py_replace_absent.
Qed.

Lemma chrome_os_target_normal_witness :
  chrome_os_target "Repair/Cart 3" = "/Chromebooks/Repair/Cart 3".
Proof.
  apply (proj2 (proj2 (chrome_os_target_normal "Repair/Cart 3"))). reflexivity.
Defined.

Arguments chrome_os_target : simpl never.

(** X13. [move_chrome_os_device] never raises and makes at most three
    move requests, each for the one device and the normalized target. It
    returns [False] without any request when the service cannot be built;
    it returns [True] as soon as a request is accepted, after one, two or
    three of them with a second of sleep in between; it returns [False]
    when the third request fails too. The cache is not touched. *)
Theorem move_chrome_os_device_outcomes (E : environment) (device_id : pyval)
    (target_org_unit : string) (w : world) :
  let call := MoveDevicesToOu (chrome_os_target target_org_unit) [device_id] in
  let started :=
    add_events w [Log INFO ("🔄 [Google API] Moving device " +:+ py_str E device_id
                              +:+ " to " +:+ target_org_unit)] in
  let moved := Log INFO ("✅ [Google API] Device " +:+ py_str E device_id
                           +:+ " moved successfully to "
                           +:+ chrome_os_target target_org_unit) in
  let retrying e n :=
    [Sleep RETRY_DELAY;
     Log WARNING ("🔄 [Google API] Retrying device move for " +:+ py_str E device_id
                    +:+ " due to error: " +:+ exc_msg e +:+ " (Attempt "
                    +:+ pretty n +:+ ")")] in
  let failed e :=
    Log ERROR ("❌ [Google API] Failed to move device " +:+ py_str E device_id
                 +:+ ": " +:+ exc_msg e) in
  (exists b w', move_chrome_os_device E device_id target_org_unit w = (Ret b, w'))
  /\ (forall e w1,
        load_service E started = (Exc e, w1) ->
        move_chrome_os_device E device_id target_org_unit w
        = (Ret false, add_events w1 [failed e]))
  /\ (forall w1 a0,
        load_service E started = (Ret tt, w1) ->
        remote E (events w1) call = Ret a0 ->
        move_chrome_os_device E device_id target_org_unit w
        = (Ret true, add_events w1 [Net call; moved]))
  /\ (forall w1 e0 a1,
        load_service E started = (Ret tt, w1) ->
        remote E (events w1) call = Exc e0 ->
        remote E (events w1 ++ Net call :: retrying e0 1) call = Ret a1 ->
        move_chrome_os_device E device_id target_org_unit w
        = (Ret true,
           add_events w1 (Net call :: retrying e0 1 ++ [Net call; moved])))
  /\ (forall w1 e0 e1 a2,
        load_service E started = (Ret tt, w1) ->
        remote E (events w1) call = Exc e0 ->
        remote E (events w1 ++ Net call :: retrying e0 1) call = Exc e1 ->
        remote E (events w1 ++ Net call :: retrying e0 1 ++ Net call :: retrying e1 2)
          call = Ret a2 ->
        move_chrome_os_device E device_id target_org_unit w
        = (Ret true,
           add_events w1 (Net call :: retrying e0 1 ++ Net call :: retrying e1 2
                            ++ [Net call; moved])))
  /\ (forall w1 e0 e1 e2,
        load_service E started = (Ret tt, w1) ->
        remote E (events w1) call = Exc e0 ->
        remote E (events w1 ++ Net call :: retrying e0 1) call = Exc e1 ->
        remote E (events w1 ++ Net call :: retrying e0 1 ++ Net call :: retrying e1 2)
          call = Exc e2 ->
        move_chrome_os_device E device_id target_org_unit w
        = (Ret false,
           add_events w1
             (Net call :: retrying e0 1 ++ Net call :: retrying e1 2
                ++ [Net call;
                    Log ERROR ("❌ [Google API] Failed to move device "
                                 +:+ py_str E device_id +:+ " after "
                                 +:+ pretty MAX_RETRIES +:+ " attempts: "
                                 +:+ exc_msg e2);
                    failed e2]))).
Proof.
  intros call started moved retrying failed.
  assert (Hcases :
    (forall e w1,
        load_service E started = (Exc e, w1) ->
        move_chrome_os_device E device_id target_org_unit w
        = (Ret false, add_events w1 [failed e]))
    /\ (forall w1 a0,
        load_service E started = (Ret tt, w1) ->
        remote E (events w1) call = Ret a0 ->
        move_chrome_os_device E device_id target_org_unit w
        = (Ret true, add_events w1 [Net call; moved]))
    /\ (forall w1 e0 a1,
        load_service E started = (Ret tt, w1) ->
        remote E (events w1) call = Exc e0 ->
        remote E (events w1 ++ Net call :: retrying e0 1) call = Ret a1 ->
        move_chrome_os_device E device_id target_org_unit w
        = (Ret true,
           add_events w1 (Net call :: retrying e0 1 ++ [Net call; moved])))
    /\ (forall w1 e0 e1 a2,
        load_service E started = (Ret tt, w1) ->
        remote E (events w1) call = Exc e0 ->
        remote E (events w1 ++ Net call :: retrying e0 1) call = Exc e1 ->
        remote E (events w1 ++ Net call :: retrying e0 1 ++ Net call :: retrying e1 2)
          call = Ret a2 ->
        move_chrome_os_device E device_id target_org_unit w
        = (Ret true,
           add_events w1 (Net call :: retrying e0 1 ++ Net call :: retrying e1 2
                            ++ [Net call; moved])))
    /\ (forall w1 e0 e1 e2,
        load_service E started = (Ret tt, w1) ->
        remote E (events w1) call = Exc e0 ->
        remote E (events w1 ++ Net call :: retrying e0 1) call = Exc e1 ->
        remote E (events w1 ++ Net call :: retrying e0 1 ++ Net call :: retrying e1 2)
          call = Exc e2 ->
        move_chrome_os_device E device_id target_org_unit w
        = (Ret false,
           add_events w1
             (Net call :: retrying e0 1 ++ Net call :: retrying e1 2
                ++ [Net call;
                    Log ERROR ("❌ [Google API] Failed to move device "
                                 +:+ py_str E device_id +:+ " after "
                                 +:+ pretty MAX_RETRIES +:+ " attempts: "
                                 +:+ exc_msg e2);
                    failed e2])))).
  { unfold move_chrome_os_device. subst call started moved retrying failed.
    repeat split.
    - intros e w1 Hload. run_monad. unfold add_events in Hload. simpl in Hload.
      rewrite Hload. run_monad. solve [reflexivity | f_equal; same_world].
    - intros w1 a0 Hload H0. run_monad. unfold add_events in Hload. simpl in Hload.
      rewrite Hload. run_monad. rewrite H0. run_monad. solve [reflexivity | f_equal; same_world].
    - intros w1 e0 a1 Hload H0 H1. run_monad. unfold add_events in Hload.
      simpl in Hload. rewrite Hload. run_monad. rewrite H0. run_monad.
      rewrite <- !app_assoc. simpl. simpl in H1. rewrite H1. run_monad.
      solve [reflexivity | f_equal; same_world].
    - intros w1 e0 e1 a2 Hload H0 H1 H2. run_monad. unfold add_events in Hload.
      simpl in Hload. rewrite Hload. run_monad. rewrite H0. run_monad.
      rewrite <- !app_assoc. simpl. simpl in H1. rewrite H1. run_monad.
      rewrite <- !app_assoc. simpl. simpl in H2. rewrite H2. run_monad.
      solve [reflexivity | f_equal; same_world].
    - intros w1 e0 e1 e2 Hload H0 H1 H2. run_monad. unfold add_events in Hload.
      simpl in Hload. rewrite Hload. run_monad. rewrite H0. run_monad.
      rewrite <- !app_assoc. simpl. simpl in H1. rewrite H1. run_monad.
      rewrite <- !app_assoc. simpl. simpl in H2. rewrite H2. run_monad.
      solve [reflexivity | f_equal; same_world]. }
  split; [|exact Hcases].
  destruct Hcases as (Hfail & H1 & H2 & H3 & H4).
  destruct (load_service E started) as [[[]|e] w1] eqn:Hload;
    [|rewrite (Hfail _ _ eq_refl); eauto].
  destruct (remote E (events w1) call) as [a0|e0] eqn:Hr0;
    [rewrite (H1 _ _ eq_refl Hr0); eauto|].
  destruct (remote E (events w1 ++ Net call :: retrying e0 1) call) as [a1|e1] eqn:Hr1;
    [rewrite (H2 _ _ _ eq_refl Hr0 Hr1); eauto|].
  destruct (remote E (events w1 ++ Net call :: retrying e0 1
                        ++ Net call :: retrying e1 2) call) as [a2|e2] eqn:Hr2;
    [rewrite (H3 _ _ _ _ eq_refl Hr0 Hr1 Hr2); eauto
    |rewrite (H4 _ _ _ _ eq_refl Hr0 Hr1 Hr2); eauto].
Qed.

Lemma move_chrome_os_device_outcomes_witness :
  move_chrome_os_device fleet (VStr "id-A1") "Repair" w0
  = (Ret true,
     mk_world
       [Log INFO "🔄 [Google API] Moving device id-A1 to Repair";
        Net Build;
        Net (MoveDevicesToOu "/Chromebooks/Repair" [VStr "id-A1"]);
        Log INFO "✅ [Google API] Device id-A1 moved successfully to /Chromebooks/Repair"]
       ∅).
Proof.
  apply (proj1 (proj2 (proj2 (move_chrome_os_device_outcomes fleet (VStr "id-A1")
                                "Repair" w0)))
           (mk_world [Log INFO "🔄 [Google API] Moving device id-A1 to Repair";
                      Net Build] ∅) (VDict []));
    reflexivity.
Defined.

(** ** Expanding dotted field names *)

Lemma append_assoc (a b c : string) : (a +:+ b) +:+ c = a +:+ (b +:+ c).
Proof.
  induction a as [|x a IH]; [reflexivity|].
  change (String x ((a +:+ b) +:+ c) = String x (a +:+ (b +:+ c))). by rewrite IH.
Qed.

Lemma append_cons (x : ascii) (a b : string) :
  String x a +:+ b = String x (a +:+ b).
Proof. reflexivity. Qed.

Lemma py_split_nonempty (sep : ascii) (s : string) : py_split sep s <> [].
Proof.
  destruct s as [|c s]; simpl; [done|].
  destruct (Ascii.eqb c sep); [done|]. by destruct (py_split sep s).
Qed.

Lemma py_join_cons (sep p : string) (rest : list string) :
  rest <> [] -> py_join sep (p :: rest) = p +:+ sep +:+ py_join sep rest.
Proof. by destruct rest. Qed.

Lemma py_join_split (sep : ascii) (s : string) :
  py_join (String sep "") (py_split sep s) = s.
Proof.
  induction s as [|c s IH]; simpl; [done|].
  pose proof (py_split_nonempty sep s) as Hne.
  destruct (Ascii.eqb_spec c sep) as [->|Hc].
  - rewrite py_join_cons by done. simpl. by rewrite IH.
  - destruct (py_split sep s) as [|h t]; [done|].
    destruct t as [|h' t]; simpl in *; [by rewrite IH|].
    by rewrite <- IH.
Qed.

Lemma py_split_app (sep : ascii) (p q : string) :
  py_split sep (p +:+ String sep "" +:+ q) = py_split sep p ++ py_split sep q.
Proof.
  induction p as [|c p IH]; simpl.
  - by rewrite Ascii.eqb_refl.
  - destruct (Ascii.eqb c sep); [by rewrite IH|].
    rewrite IH. destruct (py_split sep p) eqn:Hp; [|done].
    by destruct (py_split_nonempty sep p).
Qed.

Lemma py_split_parts (sep : ascii) (s : string) :
  Forall (fun part => py_split sep part = [part]) (py_split sep s).
Proof.
  induction s as [|c s IH]; simpl; [by repeat constructor|].
  destruct (Ascii.eqb c sep) eqn:Hc; [by constructor|].
  destruct (py_split sep s) as [|h t]; [by repeat constructor; simpl; rewrite Hc|].
  apply Forall_cons in IH as [Hh Ht]. constructor; [|done].
  simpl. by rewrite Hc, Hh.
Qed.

Lemma py_split_join (sep : ascii) (parts : list string) :
  parts <> [] ->
  Forall (fun part => py_split sep part = [part]) parts ->
  py_split sep (py_join (String sep "") parts) = parts.
Proof.
  intros Hne Hparts. induction Hparts as [|p parts Hp _ IH]; [done|].
  destruct parts as [|q parts]; [done|].
  rewrite py_join_cons by done. rewrite py_split_app, Hp, IH; done.
Qed.

Lemma py_join_app (sep : string) (l1 l2 : list string) :
  l1 <> [] -> l2 <> [] ->
  py_join sep (l1 ++ l2) = py_join sep l1 +:+ sep +:+ py_join sep l2.
Proof.
  intros H1 H2. induction l1 as [|p l1 IH]; [done|].
  destruct l1 as [|p' l1].
  - simpl. by destruct l2.
  - change ((p :: p' :: l1) ++ l2) with (p :: (p' :: l1) ++ l2).
    rewrite !py_join_cons by done. rewrite IH by done.
    by rewrite !append_assoc.
Qed.

Lemma dot_prefixes_elem (field x : string) :
  x ∈ dot_prefixes field <->
  exists i, 1 <= i <= length (py_split "." field)
            /\ x = py_join "." (take i (py_split "." field)).
Proof.
  unfold dot_prefixes. rewrite list_elem_of_fmap. setoid_rewrite elem_of_seq.
  split; intros (i & H1 & H2); exists i; (split; [lia || done|done || lia]).
Qed.

Lemma add_prefixes_elem (prefixes : list string) (expanded : gset string) x :
  x ∈ foldl (fun expanded prefix => expanded ∪ {[prefix]}) expanded prefixes
  <-> x ∈ expanded \/ x ∈ prefixes.
Proof.
  revert expanded. induction prefixes as [|p prefixes IH]; intros expanded; simpl.
  - rewrite elem_of_nil. tauto.
  - rewrite IH, elem_of_union, elem_of_singleton, elem_of_cons. tauto.
Qed.

Lemma expand_elem (fields : list string) (expanded : gset string) x :
  x ∈ foldl (fun expanded field =>
               foldl (fun expanded prefix => expanded ∪ {[prefix]})
                 expanded (dot_prefixes field)) expanded fields
  <-> x ∈ expanded \/ exists field, field ∈ fields /\ x ∈ dot_prefixes field.
Proof.
  revert expanded. induction fields as [|f fields IH]; intros expanded; simpl.
  - split; [auto|]. intros [?|(? & Hin & _)]; [done|]. by apply elem_of_nil in Hin.
  - rewrite IH, add_prefixes_elem. split.
    + intros [[?|?]|(g & ? & ?)]; [by left| |].
      * right. exists f. split; [left|done].
      * right. exists g. split; [by right|done].
    + intros [?|(g & [->|?]%elem_of_cons & ?)]; [by left; left|by left; right|].
      right. by exists g.
Qed.

(** X14. [expand_dot_notation] returns the requested fields together with
    their dotted prefixes and nothing else: every field is in the result;
    every member is a field or a field cut at one of its dots; and the
    result is closed under cutting at a dot. No field gives the empty
    set. *)
Theorem expand_dot_notation_members (fields : list string) :
  (forall field, field ∈ fields -> field ∈ expand_dot_notation fields)
  /\ (forall x, x ∈ expand_dot_notation fields ->
        exists field, field ∈ fields
                      /\ (x = field \/ exists rest, field = x +:+ "." +:+ rest))
  /\ (forall x y rest, x ∈ expand_dot_notation fields -> x = y +:+ "." +:+ rest ->
        y ∈ expand_dot_notation fields)
  /\ expand_dot_notation [] = ∅.
Proof.
  unfold expand_dot_notation. repeat split.
  - intros field Hin. apply expand_elem. right. exists field. split; [done|].
    apply dot_prefixes_elem. exists (length (py_split "." field)).
    pose proof (py_split_nonempty "." field).
    split; [destruct (py_split "." field); simpl; [done|lia]|].
    by rewrite firstn_all, (py_join_split "." field).
  - intros x [Hx|(field & Hin & Hx)]%expand_elem; [by apply elem_of_empty in Hx|].
    exists field. split; [done|].
    apply dot_prefixes_elem in Hx as (i & [Hi1 Hi2] & ->).
    destruct (decide (i = length (py_split "." field))) as [->|Hlt].
    + left. by rewrite firstn_all, (py_join_split "." field).
    + right. exists (py_join "." (drop i (py_split "." field))).
      rewrite <- (py_join_split "." field) at 1.
      rewrite <- (take_drop i (py_split "." field)) at 1.
      apply py_join_app.
      * intros Hnil. apply (f_equal length) in Hnil. rewrite length_take in Hnil.
        simpl in Hnil. lia.
      * intros Hnil. apply (f_equal length) in Hnil. rewrite length_drop in Hnil.
        simpl in Hnil. lia.
  - intros x y rest [Hx|(field & Hin & Hx)]%expand_elem Hcut;
      [by apply elem_of_empty in Hx|].
    apply expand_elem. right. exists field. split; [done|].
    apply dot_prefixes_elem in Hx as (i & [Hi1 Hi2] & Hx).
    apply dot_prefixes_elem.
    assert (Hsplit : py_split "." x = take i (py_split "." field)).
    { rewrite Hx. apply (py_split_join ".").
      - intros Hnil. apply (f_equal length) in Hnil. rewrite length_take in Hnil.
        simpl in Hnil. lia.
      - apply Forall_take, py_split_parts. }
    rewrite Hcut, (py_split_app "." y rest) in Hsplit.
    pose proof (py_split_nonempty "." y) as Hy.
    pose proof (py_split_nonempty "." rest) as Hrest.
    exists (length (py_split "." y)).
    assert (Hlen : length (py_split "." y) + length (py_split "." rest) = i).
    { apply (f_equal length) in Hsplit.
      rewrite length_app, length_take in Hsplit. lia. }
    split.
    + assert (1 <= length (py_split "." y))
        by (destruct (py_split "." y); simpl; [done|lia]).
      lia.
    + rewrite <- (py_join_split "." y) at 1. f_equal.
      apply (f_equal (take (length (py_split "." y)))) in Hsplit.
      rewrite take_app_length, take_take in Hsplit.
      etrans; [exact Hsplit|]. f_equal. lia.
Qed.

Lemma expand_dot_notation_members_witness :
  "lastKnownNetwork" ∈ expand_dot_notation ["deviceId"; "lastKnownNetwork.wanIpAddress"].
Proof.
  apply (proj1 (proj2 (proj2 (expand_dot_notation_members
                                ["deviceId"; "lastKnownNetwork.wanIpAddress"])))
           "lastKnownNetwork.wanIpAddress" "lastKnownNetwork" "wanIpAddress");
    [|reflexivity].
  apply (proj1 (expand_dot_notation_members
                  ["deviceId"; "lastKnownNetwork.wanIpAddress"])).
  right. left.
Defined.

(** ** Rebooting *)

Lemma resolve_devices_device_ids (E : environment) (devices : list pyval)
    (identifier_type : string) w infos w' :
  resolve_devices E devices identifier_type w = (Ret infos, w') ->
  Forall (fun d => is_Some (dict_lookup "deviceId" d)) infos.
Proof.
  unfold resolve_devices. destruct (String.eqb identifier_type "deviceId").
  - intros [-> _]%ret_inv. apply Forall_forall.
    intros d (device & -> & _)%list_elem_of_fmap. simpl. eauto.
  - intros H. apply get_device_info_loop_records in H; [|done].
    eapply Forall_impl; [exact H|]. by intros d [Hid _]%info_record_has_ids.
Qed.

(** What one run of the reboot loop ends in: a record, after a command
    that the remote service accepted; or the exception of the last
    command. *)
Lemma reboot_loop_inv (E : environment) (attempts : list nat) (d : dict)
    (deviceId delay : pyval) w o w' :
  last attempts = Some (MAX_RETRIES - 1) ->
  reboot_loop E attempts d deviceId delay w = (o, w') ->
  let call := IssueCommand deviceId REBOOT_COMMAND_TYPE delay in
  match o with
  | Ret out =>
      exists history answer commandId,
        remote E history call = Ret answer
        /\ py_get answer "commandId" = Ret commandId
        /\ out = Some [("deviceId", deviceId);
                       ("annotatedAssetId",
                        default VNone (dict_lookup "annotatedAssetId" d));
                       ("status", VStr "REBOOT command sent");
                       ("commandId", commandId)]
  | Exc e =>
      exists history,
        remote E history call = Exc e
        \/ exists answer, remote E history call = Ret answer
                          /\ py_get answer "commandId" = Exc e
  end.
Proof.
  change (MAX_RETRIES - 1) with 2.
  revert w. induction attempts as [|attempt rest IH]; intros w Hlast H; [done|].
  simpl in H. unfold try_except, bind, execute, lift, log, emit, ret in H.
  simpl in H.
  assert (Hrest : attempt <> 2 -> last rest = Some 2).
  { intros Hne. destruct rest; [simpl in Hlast; congruence|done]. }
  destruct (remote E (events w) (IssueCommand deviceId REBOOT_COMMAND_TYPE delay))
    as [answer|e0] eqn:Hremote; simpl in H.
  - destruct (py_get answer "commandId") as [commandId|e0] eqn:Hget; simpl in H.
    + injection H as <- _. simpl. eauto 10.
    + destruct (exc_class_eqb (exc_cls e0) RefreshError); simpl in H.
      { unfold raise in H. injection H as <- _. simpl. eauto 10. }
      destruct (Nat.eqb_spec attempt 2) as [->|Hne]; simpl in H.
      * unfold raise in H. injection H as <- _. simpl. eauto 10.
      * unfold sleep, emit in H. simpl in H. by apply IH in H; [|auto].
  - destruct (exc_class_eqb (exc_cls e0) RefreshError); simpl in H.
    { unfold raise in H. injection H as <- _. simpl. eauto. }
    destruct (Nat.eqb_spec attempt 2) as [->|Hne]; simpl in H.
    + unfold raise in H. injection H as <- _. simpl. eauto.
    + unfold sleep, emit in H. simpl in H. by apply IH in H; [|auto].
Qed.

Lemma merge_reboot_results_exact (E : environment)
    (futs : list (dict * outcome (option dict))) :
  Forall (fun fut => is_Some (dict_lookup "deviceId" (fst fut))) futs ->
  forall s0 f0 w,
    exists w',
      merge_reboot_results E futs [("success", s0); ("failure", f0)] w
      = (Ret [("success",
               s0 ++ map (fun p => py_of_record (snd p)) (returned_of futs));
              ("failure",
               f0 ++ map (fun p => failure_record (fst p) (snd p)) (raised_of futs))],
         w').
Proof.
  induction 1 as [|[d fut] futs [deviceId Hid] _ IH]; intros s0 f0 w; simpl.
  - unfold ret. rewrite !app_nil_r. eauto.
  - simpl in Hid. destruct fut as [result|e]; run_monad.
    + unfold report_append, report_extend. simpl.
      destruct (IH (s0 ++ [py_of_record result]) f0 w) as [w' ->].
      exists w'. by rewrite <- !app_assoc.
    + unfold dict_subscript, py_subscript. rewrite Hid. simpl.
      unfold report_append, report_extend. simpl.
      match goal with |- context [merge_reboot_results E futs _ ?wx] =>
        destruct (IH s0 (f0 ++ [failure_record d e]) wx) as [w' IH'] end.
      unfold failure_record in IH' at 1. rewrite Hid in IH'. simpl in IH'.
      rewrite IH'. exists w'. unfold raised_of. simpl.
      by rewrite <- !app_assoc.
Qed.

(** the futures of one batch and the report made of them *)
Lemma process_reboot_batch_exact (E : environment) (batch : list dict)
    (delay : pyval) w :
  fair E ->
  Forall (fun d => is_Some (dict_lookup "deviceId" d)) batch ->
  exists futs w',
    map fst futs ≡ₚ batch
    /\ Forall (fun fut => exists wi wi',
                 process_reboot_device E (fst fut) delay wi = (snd fut, wi')) futs
    /\ process_reboot_batch E batch delay w
       = (Ret [("success", map (fun p => py_of_record (snd p)) (returned_of futs));
               ("failure", map (fun p => failure_record (fst p) (snd p))
                             (raised_of futs))], w').
Proof.
  intros Hfair Hbatch. unfold process_reboot_batch.
  destruct (thread_pool_returns E
              (fun device_info => process_reboot_device E device_info delay) batch w)
    as (futs & w1 & Hpool).
  pose proof (thread_pool_spec E _ _ _ _ _ Hfair Hpool) as [Hfst Hran].
  assert (Hids : Forall (fun fut => is_Some (dict_lookup "deviceId" (fst fut))) futs).
  { apply Forall_forall. intros [d fut] Hin.
    assert (Hd : d ∈ batch).
    { rewrite <- Hfst. apply list_elem_of_fmap. by exists (d, fut). }
    rewrite Forall_forall in Hbatch. by apply Hbatch. }
  destruct (merge_reboot_results_exact E futs Hids [] [] w1) as (w' & Hmerge).
  exists futs, w'. split; [done|]. split; [done|].
  unfold bind. by rewrite Hpool.
Qed.

Lemma Forall_exists_Forall2 {A B} (R : A -> B -> Prop) (l : list A) :
  Forall (fun x => exists y, R x y) l -> exists ys, Forall2 R l ys.
Proof.
  induction 1 as [|x l [y Hy] _ [ys IH]]; [by exists []|].
  exists (y :: ys). by constructor.
Qed.

Lemma returned_of_app {A B} (l1 l2 : list (A * outcome B)) :
  returned_of (l1 ++ l2) = returned_of l1 ++ returned_of l2.
Proof. apply omap_app. Qed.

Lemma raised_of_app {A B} (l1 l2 : list (A * outcome B)) :
  raised_of (l1 ++ l2) = raised_of l1 ++ raised_of l2.
Proof. apply omap_app. Qed.

(** Merging the reports of the batches gives the report of all the
    futures, batch after batch. *)
Lemma merge_reboot_batches_exact
    (futures : list (list dict * outcome (option report)))
    (dss : list (list (dict * outcome (option dict)))) :
  Forall2 (fun fut futs =>
             snd fut
             = Ret (Some [("success",
                           map (fun p => py_of_record (snd p)) (returned_of futs));
                          ("failure",
                           map (fun p => failure_record (fst p) (snd p))
                             (raised_of futs))])) futures dss ->
  forall s0 f0 w,
    merge_batch_results futures [("success", s0); ("failure", f0)] w
    = (Ret [("success",
             s0 ++ map (fun p => py_of_record (snd p)) (returned_of (concat dss)));
            ("failure",
             f0 ++ map (fun p => failure_record (fst p) (snd p))
                     (raised_of (concat dss)))], w).
Proof.
  induction 1 as [|[batch fut] futs futures dss Hfut _ IH]; intros s0 f0 w; simpl.
  - unfold ret. by rewrite !app_nil_r.
  - simpl in Hfut. subst fut. unfold bind, lift. simpl.
    rewrite IH, returned_of_app, raised_of_app, !map_app.
    by rewrite <- !app_assoc.
Qed.

Lemma Forall_returned_of {A B} (P : A * B -> Prop) (futs : list (A * outcome B)) :
  Forall (fun fut => forall b, snd fut = Ret b -> P (fst fut, b)) futs ->
  Forall P (returned_of futs).
Proof.
  induction 1 as [|[x [b|e]] futs Hx _ IH]; simpl; [constructor| |exact IH].
  constructor; [|exact IH]. by apply Hx.
Qed.

Lemma Forall_raised_of {A B} (P : A * exc -> Prop) (futs : list (A * outcome B)) :
  Forall (fun fut => forall e, snd fut = Exc e -> P (fst fut, e)) futs ->
  Forall P (raised_of futs).
Proof.
  induction 1 as [|[x [b|e]] futs Hx _ IH]; simpl; [constructor|exact IH|].
  constructor; [|exact IH]. by apply Hx.
Qed.

(** X18. With a delay in range, [reboot_devices] always returns a report
    once the service is built and the devices are resolved, for every
    identifier type, [deviceId] included, and the report files each
    resolved device by what its task did: [success] holds the records of
    the tasks that returned, each after a [REBOOT] command that the remote
    service accepted for that device; [failure] holds one record, with the
    text of the exception, for each task that raised, and the exception is
    one that a [REBOOT] command for that device ended in (raised by the
    remote service, a refused credential included, or by reading its
    answer). A failure stops neither the batch nor the call, and the two
    lists together hold the resolved devices, each once. *)
Theorem reboot_devices_reports (E : environment) (devices : devices_arg)
    (identifier_type : string) (delay : pyval) (w w1 : world)
    (infos : list dict) (w2 : world) :
  fair E ->
  valid_delay delay = true ->
  load_service E w = (Ret tt, w1) ->
  resolve_devices E (as_device_list devices) identifier_type w1 = (Ret infos, w2) ->
  exists futs r w',
    reboot_devices E devices identifier_type delay w = (Ret r, w')
    /\ map record_device_id (reported ["success"; "failure"] r)
       ≡ₚ map (dict_lookup "deviceId") infos
    /\ map fst futs ≡ₚ infos
    /\ r = [("success", map (fun p => py_of_record (snd p)) (returned_of futs));
            ("failure", map (fun p => failure_record (fst p) (snd p)) (raised_of futs))]
    /\ Forall (fun p =>
         exists deviceId history answer commandId,
           dict_lookup "deviceId" (fst p) = Some deviceId
           /\ remote E history (IssueCommand deviceId REBOOT_COMMAND_TYPE delay)
              = Ret answer
           /\ py_get answer "commandId" = Ret commandId
           /\ snd p = Some [("deviceId", deviceId);
                            ("annotatedAssetId",
                             default VNone (dict_lookup "annotatedAssetId" (fst p)));
                            ("status", VStr "REBOOT command sent");
                            ("commandId", commandId)])
         (returned_of futs)
    /\ Forall (fun p =>
         exists deviceId history,
           dict_lookup "deviceId" (fst p) = Some deviceId
           /\ (remote E history (IssueCommand deviceId REBOOT_COMMAND_TYPE delay)
               = Exc (snd p)
               \/ exists answer,
                    remote E history (IssueCommand deviceId REBOOT_COMMAND_TYPE delay)
                    = Ret answer
                    /\ py_get answer "commandId" = Exc (snd p)))
         (raised_of futs).
Proof.
  intros Hfair Hdelay Hload Hres.
  set (task := fun batch : list dict =>
                 batch_result <- process_reboot_batch E batch delay ;;
                 ret (Some batch_result)).
  destruct (thread_pool_returns E task (batches MAX_BATCH_SIZE infos) w2)
    as (bfuts & w3 & Hpool).
  pose proof (thread_pool_spec E task _ _ _ _ Hfair Hpool) as [Hfst Hran].
  assert (HB : 0 < MAX_BATCH_SIZE) by (unfold MAX_BATCH_SIZE; lia).
  pose proof (resolve_devices_device_ids _ _ _ _ _ _ Hres) as Hids.
  assert (Hbfuts : Forall (fun fut => exists futs,
              (map fst futs ≡ₚ fst fut
               /\ Forall (fun fut => exists wi wi',
                            process_reboot_device E (fst fut) delay wi
                            = (snd fut, wi')) futs)
              /\ snd fut
                 = Ret (Some [("success",
                               map (fun p => py_of_record (snd p)) (returned_of futs));
                              ("failure",
                               map (fun p => failure_record (fst p) (snd p))
                                 (raised_of futs))])) bfuts).
  { apply Forall_forall. intros [batch fut] Hin.
    assert (Hb : batch ∈ batches MAX_BATCH_SIZE infos).
    { rewrite <- Hfst. apply list_elem_of_fmap. by exists (batch, fut). }
    apply (batches_elem _ _ _ _ HB Hids) in Hb as [_ Hb].
    rewrite Forall_forall in Hran.
    destruct (Hran _ Hin) as (wi & wi' & Hrun). simpl in *.
    destruct (process_reboot_batch_exact E batch delay wi Hfair Hb)
      as (futs & wj & Hperm & Htasks & Htotal).
    subst task. unfold bind, ret in Hrun. rewrite Htotal in Hrun.
    injection Hrun as <- _. eauto. }
  apply Forall_exists_Forall2 in Hbfuts as [dss Hdss].
  assert (Hexact : Forall2 (fun fut futs =>
              snd fut
              = Ret (Some [("success",
                            map (fun p => py_of_record (snd p)) (returned_of futs));
                           ("failure",
                            map (fun p => failure_record (fst p) (snd p))
                              (raised_of futs))])) bfuts dss).
  { eapply Forall2_impl; [exact Hdss|]. by intros ? ? [_ ?]. }
  pose proof (merge_reboot_batches_exact bfuts dss Hexact [] [] w3) as Hmerge.
  simpl in Hmerge.
  assert (Hrun : reboot_devices E devices identifier_type delay w
                 = (Ret [("success",
                          map (fun p => py_of_record (snd p)) (returned_of (concat dss)));
                         ("failure",
                          map (fun p => failure_record (fst p) (snd p))
                            (raised_of (concat dss)))], w3)).
  { unfold reboot_devices. rewrite Hdelay. simpl. unfold bind at 1.
    rewrite Hload. unfold bind at 1. rewrite Hres. unfold bind at 1.
    fold task. by rewrite Hpool. }
  assert (Htasks : Forall (fun fut => exists wi wi',
                     process_reboot_device E (fst fut) delay wi = (snd fut, wi'))
                     (concat dss)).
  { apply Forall_concat. clear -Hdss.
    induction Hdss as [|? ? ? ? [[_ ?] _] _ IH]; constructor; auto. }
  assert (Hall : map fst (concat dss) ≡ₚ infos).
  { rewrite concat_map.
    transitivity (concat (map fst bfuts)).
    - symmetry. eapply (concat_Forall2_perm _ fst (map fst)); [|exact Hdss].
      intros x y [[Hxy _] _]. by symmetry.
    - rewrite (concat_perm _ _ Hfst). by rewrite batches_concat. }
  assert (Hdev : Forall (fun fut => is_Some (dict_lookup "deviceId" (fst fut)))
                   (concat dss)).
  { apply Forall_forall. intros [d fut] Hin.
    assert (Hd : d ∈ infos).
    { rewrite <- Hall. apply list_elem_of_fmap. by exists (d, fut). }
    rewrite Forall_forall in Hids. by apply Hids. }
  eexists (concat dss), _, w3. split; [exact Hrun|].
  split.
  { eapply pooled_batches_account; [done| |exact Hpool|exact Hmerge].
    intros batch wi out wi' Hb. subst task. cbv beta in Hb.
    apply bind_ret_inv in Hb as (br & wj & Hb & [-> _]%ret_inv).
    eexists. split; [reflexivity|]. by eapply process_reboot_batch_ret. }
  split; [done|]. split; [done|]. split.
  - apply Forall_returned_of. rewrite Forall_forall in Htasks, Hdev.
    apply Forall_forall. intros fut Hin out Hout.
    destruct (Hdev _ Hin) as [deviceId Hid].
    destruct (Htasks _ Hin) as (wi & wi' & Hrun').
    unfold process_reboot_device, bind, lift, dict_subscript, py_subscript in Hrun'.
    rewrite Hid, Hout in Hrun'.
    apply reboot_loop_inv in Hrun'; [|done]. cbn in Hrun' |- *.
    destruct Hrun' as (history & answer & commandId & ? & ? & ?). eauto 10.
  - apply Forall_raised_of. rewrite Forall_forall in Htasks, Hdev.
    apply Forall_forall. intros fut Hin e He.
    destruct (Hdev _ Hin) as [deviceId Hid].
    destruct (Htasks _ Hin) as (wi & wi' & Hrun').
    unfold process_reboot_device, bind, lift, dict_subscript, py_subscript in Hrun'.
    rewrite Hid, He in Hrun'.
    apply reboot_loop_inv in Hrun'; [|done]. cbn in Hrun' |- *.
    destruct Hrun' as (history & Hcase). eauto 10.
Qed.

Lemma reboot_devices_reports_witness :
  exists futs r w',
    reboot_devices down (DeviceList [VStr "id-A1"]) "deviceId" (VInt 30) w0
    = (Ret r, w')
    /\ map record_device_id (reported ["success"; "failure"] r)
       ≡ₚ [Some (VStr "id-A1")]
    /\ map fst futs ≡ₚ [[("deviceId", VStr "id-A1")]]
    /\ r = [("success", map (fun p => py_of_record (snd p)) (returned_of futs));
            ("failure", map (fun p => failure_record (fst p) (snd p)) (raised_of futs))].
Proof.
  destruct (reboot_devices_reports down (DeviceList [VStr "id-A1"]) "deviceId"
              (VInt 30) w0 (mk_world [Net Build] ∅) [[("deviceId", VStr "id-A1")]]
              (mk_world [Net Build] ∅)
              (fun A l => Permutation_refl l) eq_refl eq_refl eq_refl)
    as (futs & r & w' & H1 & H2 & H3 & H4 & _).
  exists futs, r, w'. auto.
Defined.

(** ** Deprovisioning one device *)

(** X19. A device that is already deprovisioned is reported as such and is
    not retried: when its status is [DEPROVISIONED],
    [process_deprovision_device] sends no request at all; when the first
    request is refused with "Illegal device state transition", it stops
    after this one request, without sleeping. Both give the record with
    status [Already deprovisioned] and one line in the log. *)
Theorem deprovision_already_deprovisioned (E : environment) (d : dict)
    (deviceId assetId : pyval) (w : world) :
  dict_lookup "deviceId" d = Some deviceId ->
  dict_lookup "annotatedAssetId" d = Some assetId ->
  let record := [("deviceId", deviceId); ("annotatedAssetId", assetId);
                 ("status", VStr "Already deprovisioned")] in
  let line := Log INFO ("Device " +:+ py_str E assetId
                          +:+ " is already deprovisioned.") in
  (dict_lookup "status" d = Some (VStr "DEPROVISIONED") ->
   process_deprovision_device E d w = (Ret (Some record), add_events w [line]))
  /\ (forall e,
        py_eq_str (default VNone (dict_lookup "status" d)) "DEPROVISIONED" = false ->
        remote E (events w) (DeprovisionAction deviceId) = Exc e ->
        str_contains "Illegal device state transition" (exc_msg e) = true ->
        process_deprovision_device E d w
        = (Ret (Some record),
           add_events w [Net (DeprovisionAction deviceId); line])).
Proof.
  intros Hid Hasset record line. split.
  - intros Hstatus. unfold process_deprovision_device, log_asset, deprovision_record,
      dict_subscript, py_subscript.
    rewrite Hid, Hasset, Hstatus. run_monad. reflexivity.
  - intros e Hstatus Hremote Hmsg.
    unfold process_deprovision_device, log_asset, deprovision_record,
      dict_subscript, py_subscript.
    rewrite Hid, Hasset, Hstatus. run_monad.
    unfold log_asset, deprovision_record, dict_subscript, py_subscript.
    rewrite Hasset, Hid. run_monad. rewrite Hremote. simpl. rewrite Hmsg.
    run_monad. f_equal. same_world.
Qed.

Lemma deprovision_already_deprovisioned_witness :
  process_deprovision_device down
    [("deviceId", VStr "id-A1"); ("annotatedAssetId", VStr "A1");
     ("orgUnitPath", VStr "/Retired"); ("status", VStr "DEPROVISIONED")] w0
  = (Ret (Some [("deviceId", VStr "id-A1"); ("annotatedAssetId", VStr "A1");
                ("status", VStr "Already deprovisioned")]),
     add_events w0 [Log INFO ("Device " +:+ py_str down (VStr "A1")
                                +:+ " is already deprovisioned.")]).
Proof.
  apply (proj1 (deprovision_already_deprovisioned down
                  [("deviceId", VStr "id-A1"); ("annotatedAssetId", VStr "A1");
                   ("orgUnitPath", VStr "/Retired"); ("status", VStr "DEPROVISIONED")]
                  (VStr "id-A1") (VStr "A1") w0 eq_refl eq_refl)).
  reflexivity.
Defined.

(** ** Deprovisioning in two phases: what phase two receives *)








(** ** The Aeries client: URLs and results *)

Module AeriesVerbsFacts.
Import Aeries AeriesVerbs.

Lemma rstrip_slash_cons (c : ascii) (rest : string) :
  rstrip_slash (String c rest)
  = match rstrip_slash rest with
    | EmptyString => if Ascii.eqb c "/" then EmptyString else String c EmptyString
    | rest' => String c rest'
    end.
Proof. reflexivity. Qed.

Lemma rstrip_slash_no_trailing (s : string) :
  ends_with_slash (rstrip_slash s) = false.
Proof.
  induction s as [|c s IH]; [done|]. rewrite rstrip_slash_cons.
  destruct (rstrip_slash s) as [|c' r] eqn:Hr.
  - destruct (Ascii.eqb c "/") eqn:Hc; [done|]. simpl. exact Hc.
  - exact IH.
Qed.

Lemma rstrip_slash_append (s : string) :
  rstrip_slash (s +:+ "/") = rstrip_slash s.
Proof.
  induction s as [|c s IH]; [reflexivity|].
  rewrite append_cons, !rstrip_slash_cons. by rewrite IH.
Qed.

Lemma rstrip_slash_id (s : string) :
  ends_with_slash s = false -> rstrip_slash s = s.
Proof.
  induction s as [|c s IH]; [done|]. rewrite rstrip_slash_cons.
  destruct s as [|c' s].
  - simpl. by intros ->.
  - intros H. change (ends_with_slash (String c' s) = false) in H.
    by rewrite IH.
Qed.

Lemma lstrip_slash_no_leading (s : string) :
  String.prefix "/" (lstrip_slash s) = false.
Proof.
  induction s as [|c s IH]; [done|]. cbn [lstrip_slash].
  destruct (Ascii.eqb_spec c "/") as [->|Hc]; [done|].
  rewrite prefix_cons. by destruct (ascii_dec "/" c).
Qed.

Lemma lstrip_slash_id (s : string) :
  String.prefix "/" s = false -> lstrip_slash s = s.
Proof.
  destruct s as [|c s]; [done|]. rewrite prefix_cons. cbn [lstrip_slash].
  destruct (Ascii.eqb_spec c "/") as [->|Hc]; [|done].
  destruct (ascii_dec "/" "/"); [|done]. by destruct s.
Qed.

(** X15. The URL of a request has exactly one slash between the endpoint
    and the path: the endpoint kept by the client does not end with a
    slash and the path is sent without leading slashes, so one more
    trailing slash on the endpoint or one more leading slash on the path
    gives the same URL; an endpoint without trailing slash and a path
    without leading slash are joined as they are. *)
Theorem url_of_slashes (base key path : string) :
  ends_with_slash (endpoint (init base key)) = false
  /\ String.prefix "/" (lstrip_slash path) = false
  /\ url_of (init (base +:+ "/") key) path = url_of (init base key) path
  /\ url_of (init base key) ("/" +:+ path) = url_of (init base key) path
  /\ (ends_with_slash base = false -> String.prefix "/" path = false ->
      url_of (init base key) path = base +:+ "/" +:+ path).
Proof.
  unfold url_of, init. simpl. repeat split.
  - apply rstrip_slash_no_trailing.
  - apply lstrip_slash_no_leading.
  - by rewrite rstrip_slash_append.
  - intros Hb Hp. by rewrite rstrip_slash_id, lstrip_slash_id.
Qed.

Lemma url_of_slashes_witness :
  url_of (init "https://sis.example.org/aeries" "key") "schools/1/students"
  = "https://sis.example.org/aeries/schools/1/students".
Proof.
  apply (proj2 (proj2 (proj2 (proj2 (url_of_slashes "https://sis.example.org/aeries"
                                       "key" "schools/1/students")))));
    reflexivity.
Defined.

(** X16. The four verbs do not depend on how the slashes were written:
    a client made from the endpoint with one more trailing slash, asked
    for the path with one more leading slash, gives the same result as
    the client made from the endpoint asked for the path, whatever the
    session does. *)
Theorem verbs_ignore_extra_slashes (session : transport)
    (base key path : string) (params data json : pyval) :
  let c := init base key in
  let c' := init (base +:+ "/") key in
  let path' := "/" +:+ path in
  get session c' path' params = get session c path params
  /\ post session c' path' data json = post session c path data json
  /\ put session c' path' data json = put session c path data json
  /\ delete session c' path' = delete session c path.
Proof.
  assert (Hurl : url_of (init (base +:+ "/") key) ("/" +:+ path)
                 = url_of (init base key) path).
  { unfold url_of, init. simpl. by rewrite rstrip_slash_append. }
  unfold get, post, put, delete. cbv zeta. by rewrite Hurl.
Qed.

(** X17. Every [AeriesResponse] that [_make_request] returns is well
    formed: a success has no error, status 200 and nothing logged; a
    failure has no data but an error and a message; the status code is
    unset exactly when a line was logged, which is the network error. *)
Theorem make_request_result_invariant (o : attempt response)
    (r : AeriesResponse) (logged : list string) :
  _make_request o = (Returned r, logged) ->
  (success r = true ->
     error r = None /\ status_code r = Some 200%Z /\ logged = [])
  /\ (success r = false ->
        data r = VNone /\ is_Some (error r) /\ is_Some (message r))
  /\ (status_code r = None <-> logged <> [])
  /\ (status_code r = None ->
        success r = false /\ message r = Some "Network error occurred").
Proof.
  unfold _make_request, handle_response. intros H.
  destruct o as [resp|e].
  - destruct (Z.eqb_spec (resp_status_code resp) 200) as [H200|H200].
    + destruct (resp_json resp) as [d|e].
      * injection H as <- <-. simpl. rewrite H200. naive_solver.
      * destruct (is_ValueError (req_cls e)).
        -- injection H as <- <-. simpl. rewrite H200. naive_solver.
        -- destruct (is_RequestException (req_cls e)); [|discriminate H].
           injection H as <- <-. simpl. naive_solver.
    + destruct (Z.eqb (resp_status_code resp) 404);
        injection H as <- <-; simpl; naive_solver.
  - destruct (is_RequestException (req_cls e)); [|discriminate H].
    injection H as <- <-. simpl. naive_solver.
Qed.

Lemma make_request_result_invariant_witness :
  data (mk_AeriesResponse false VNone (Some 500%Z)
          (Some ("Request failed with status " +:+ pretty 500%Z)) (Some "boom"))
  = VNone.
Proof.
  apply (proj1 (proj2 (make_request_result_invariant
                         (Returned (mk_response 500 "boom"
                                      (Raised (mk_req_exc JSONDecodeError "no json"))))
                         _ [] eq_refl))).
  reflexivity.
Defined.

End AeriesVerbsFacts.
